(** * The NSE download-tracking ledger: service, calendar and drivers

  A shallow embedding of the tracking layer of the repository:
  - [src/main.py]: the Flask service that keeps one [tracking.xlsx]
    workbook per year folder and serves the calendar of a year;
  - [src/data_downloader.py]: the driver [NSEDataDownloader.process_date];
  - [src/download_main.py]: the script whose per-slot loops poll and
    update the ledger;
  - [src/nse_participant_tv_downloader.py] and [src/regrate_main.py]: the
    readers of the listing, and the batches of symbols.

  Conventions of the embedding.
  - Python strings are Rocq strings read as sequences of code points
    below 256.
  - A cell value, a JSON value of a request body and a downloader result
    are all [option string]: [None] is Python's [None] (JSON [null], an
    empty cell), [Some s] is the string [s].  Numbers, booleans and nested
    JSON values are outside the embedding.
  - The file system is a finite map from the name of a year folder under
    [Nse_files] to the content of its [tracking.xlsx], if that file exists.
  - Handlers are functions from the file system to the new file system and
    the HTTP response.
  - A downloader is a function from the slot key and the date to its
    result; a driver runs in a world that holds the file system and two
    logs, of the downloader calls and of the bodies posted. *)

From Stdlib Require Import ZArith Lia Ascii.
From stdpp Require Import base decidable option strings gmap fin_maps numbers list.


(** ** Python values *)

Module Py.

Abbreviation value := (option string).

(** [str(v)] *)
Definition str (v : value) : string :=
  match v with
  | None => "None"
  | Some s => s
  end.

(** Truth value of [v] in a condition: [None] and [''] are false. *)
Definition truthy (v : value) : bool :=
  match v with
  | None => false
  | Some s => negb (String.eqb s "")
  end.

(** A [dict] built from a sequence of items: a later item replaces an
    earlier one with the same key. *)
Definition dict_of_items {B : Type} (items : list (value * B)) : gmap value B :=
  foldl (λ d kv, <[kv.1 := kv.2]> d) ∅ items.

(** [d.get(key, default)] *)
Definition dict_get {B : Type} (d : gmap value B) (key : value) (dflt : B) : B :=
  match d !! key with
  | Some x => x
  | None => dflt
  end.

(** [c.isdigit()] on one character: the decimal digits, and among the
    code points below 256 also the superscripts two, three and one. *)
Definition isdigit_char (c : ascii) : bool :=
  let n := nat_of_ascii c in
  ((48 <=? n)%nat && (n <=? 57)%nat)
  || (n =? 178)%nat || (n =? 179)%nat || (n =? 185)%nat.

Fixpoint all_digits (s : string) : bool :=
  match s with
  | EmptyString => true
  | String c s' => isdigit_char c && all_digits s'
  end.

(** [s.isdigit()]: every character is a digit and there is at least one. *)
Definition isdigit (s : string) : bool :=
  match s with
  | EmptyString => false
  | _ => all_digits s
  end.

End Py.

(** ** Worksheets of [openpyxl]

  A worksheet is the grid of its cells, row 1 first and column 1 first in
  each row; a cell beyond the end of its row, or in a row beyond the last,
  reads as [None].  Rows and columns are numbered from 1 as in the
  library. *)

Module Openpyxl.
Import Py.

Abbreviation worksheet := (list (list value)).

(** [ws.max_row] and [ws.max_column]; both are 1 on a sheet without
    cells. *)
Definition max_row (ws : worksheet) : nat := Nat.max 1 (List.length ws).

Definition max_column (ws : worksheet) : nat :=
  Nat.max 1 (max_list (List.length <$> ws)).

Definition cell_value (ws : worksheet) (r c : nat) : value :=
  match ws !! (r - 1) with
  | Some row =>
      match row !! (c - 1) with
      | Some v => v
      | None => None
      end
  | None => None
  end.

(** The tuple of values of row [r], as [ws[r]] and [iter_rows] give it:
    columns 1 to [max_column]. *)
Definition row_values (ws : worksheet) (r : nat) : list value :=
  cell_value ws r <$> seq 1 (max_column ws).

(** [ws.iter_rows(min_row=..., values_only=True)] *)
Definition iter_rows (ws : worksheet) (min_row : nat) : list (list value) :=
  row_values ws <$> seq min_row (S (max_row ws) - min_row).

(** Storing the string [s] in the cell at row [r], column [c]; the grid
    grows to hold the cell. *)
Definition set_cell (ws : worksheet) (r c : nat) (s : string) : worksheet :=
  alter (λ row, <[c - 1 := Some s]> (row ++ replicate (c - List.length row) None))
        (r - 1)
        (ws ++ replicate (r - List.length ws) []).

(** [ws.cell(row=r, column=c, value=v)]: the library assigns the value
    only when it is not [None]. *)
Definition cell (ws : worksheet) (r c : nat) (v : value) : worksheet :=
  match v with
  | None => ws
  | Some s => set_cell ws r c s
  end.

(** [ws.append(values)] on the sheet of a new workbook. *)
Definition append (ws : worksheet) (values : list value) : worksheet :=
  ws ++ [values].

(** What a saved cell reads as when the file is loaded again: the writer
    emits an empty string as an empty cell. *)
Definition stored (v : value) : value :=
  match v with
  | Some "" => None
  | _ => v
  end.

(** [wb.save(path)] followed by a later [load_workbook(path)].  Every row
    is kept.  The writer of openpyxl leaves out the cells without value, so
    a last row whose cells have all been emptied is gone once the file has
    been saved a second time; a row of a ledger loses its date only by a POST
    with a ['date'] member or an empty date, and the invariant of the service
    over sequences of requests counts rows for ledgers whose rows have a
    date. *)
Definition save (ws : worksheet) : worksheet := map (map stored) ws.

End Openpyxl.

(** ** The service of [src/main.py] *)

Module Main.
Import Py Openpyxl.

Abbreviation filesystem := (gmap string (option worksheet)).
Abbreviation dict := (gmap value value).

(** What the JSON of an answer carries besides its status: a fixed text, the
    text with the count [changes_made], or the row under ["data"], kept
    here as the dictionary the handler builds. *)
Inductive detail :=
| Message
| Updated (changes_made : nat)
| Found (data : dict).

(** An answer: the HTTP status code and the ["status"] member of the JSON. *)
Record response := Response {
  status_code : nat;
  status : string;
  body : detail
}.

Inductive method := GET | POST.

(** [os.path.exists] of the year folder and of its tracking file. *)
Definition folder_exists (fs : filesystem) (year : string) : bool :=
  bool_decide (is_Some (fs !! year)).

Definition tracking_file (fs : filesystem) (year : string) : option worksheet :=
  match fs !! year with
  | Some (Some ws) => Some ws
  | _ => None
  end.

(** [os.makedirs(folder_path)] *)
Definition makedirs (fs : filesystem) (year : string) : filesystem :=
  <[year := None]> fs.

Definition write_tracking (fs : filesystem) (year : string) (ws : worksheet)
  : filesystem :=
  <[year := Some (save ws)]> fs.

(** [['date'] + [f'file_{i}' for i in range(1, 12)]] *)
Definition headers_row : list value :=
  [Some "date"; Some "file_1"; Some "file_2"; Some "file_3"; Some "file_4";
   Some "file_5"; Some "file_6"; Some "file_7"; Some "file_8"; Some "file_9";
   Some "file_10"; Some "file_11"].

Definition create_year_folder (year : string) (fs : filesystem)
  : filesystem * response :=
  if negb (isdigit year) then (fs, Response 400 "error" Message)
  else if negb (folder_exists fs year)
       then (makedirs fs year, Response 201 "success" Message)
       else (fs, Response 200 "ignored" Message).

Definition create_track_date (year : string) (fs : filesystem)
  : filesystem * response :=
  if negb (isdigit year) then (fs, Response 400 "error" Message)
  else
    let fs1 := if negb (folder_exists fs year) then makedirs fs year else fs in
    match tracking_file fs1 year with
    | None =>
        let ws := append [] headers_row in
        (write_tracking fs1 year ws, Response 201 "success" Message)
    | Some _ => (fs1, Response 200 "ignored" Message)
    end.

(** [{name: i + 1 for i, name in enumerate(headers)}] *)
Definition header_map (headers : list value) : gmap value nat :=
  dict_of_items (imap (λ i name, (name, i + 1)) headers).

(** The search loop: the first row, from row [idx] on, whose date cell
    prints as [date]. *)
Fixpoint search_rows (headers : list value) (date : string) (idx : nat)
    (rows : list (list value)) : option (nat * dict) :=
  match rows with
  | [] => None
  | row :: rest =>
      let row_data := dict_of_items (zip headers row) in
      let row_date_str := str (dict_get row_data (Some "date") (Some "")) in
      if decide (row_date_str = date) then Some (idx, row_data)
      else search_rows headers date (S idx) rest
  end.

(** Scenario A: the cells of the row found, one per known key. *)
Definition update_row (ws : worksheet) (hm : gmap value nat)
    (target_row_idx : nat) (updates : list (string * value)) : worksheet * nat :=
  foldl (λ acc kv,
           match hm !! Some kv.1 with
           | Some col_idx => (cell acc.1 target_row_idx col_idx kv.2, S acc.2)
           | None => acc
           end)
        (ws, 0) updates.

(** Scenario B: a new row after the last one. *)
Definition append_row (ws : worksheet) (hm : gmap value nat)
    (date : string) (updates : list (string * value)) : worksheet :=
  let next_row := max_row ws + 1 in
  let ws1 :=
    match hm !! Some "date" with
    | Some c => cell ws next_row c (Some date)
    | None => ws
    end in
  foldl (λ acc kv,
           match hm !! Some kv.1 with
           | Some col_idx => cell acc next_row col_idx kv.2
           | None => acc
           end)
        ws1 updates.

(** [updates] is the JSON object of the request body, as its sequence of
    items; it is read on POST only. *)
Definition manage_tracking_by_date (year date : string) (m : method)
    (updates : list (string * value)) (fs : filesystem)
  : filesystem * response :=
  if negb (isdigit year) then (fs, Response 400 "error" Message)
  else
    match tracking_file fs year with
    | None => (fs, Response 404 "error" Message)
    | Some ws =>
        let headers := row_values ws 1 in
        let hit := search_rows headers date 2 (iter_rows ws 2) in
        match m with
        | POST =>
            match updates with
            | [] => (fs, Response 400 "error" Message)
            | _ =>
                let hm := header_map headers in
                match hit with
                | Some (target_row_idx, _) =>
                    let '(ws', changes_made) :=
                      update_row ws hm target_row_idx updates in
                    (write_tracking fs year ws',
                     Response 200 "success" (Updated changes_made))
                | None =>
                    (write_tracking fs year (append_row ws hm date updates),
                     Response 201 "success" Message)
                end
            end
        | GET =>
            match hit with
            | Some (_, found_data) =>
                if decide (found_data = ∅)
                then (fs, Response 404 "error" Message)
                else (fs, Response 200 "success" (Found found_data))
            | None => (fs, Response 404 "error" Message)
            end
        end
    end.

End Main.

(** ** Dates of [datetime]

    A [date] is kept as its proleptic Gregorian ordinal (day 1 is
    0001-01-01), the number [date.toordinal()] returns; the conversions
    between ordinals and year, month, day follow the library. *)

Module Datetime.
Local Open Scope Z_scope.

Definition date := Z.

Definition MINYEAR : Z := 1.
Definition MAXYEAR : Z := 9999.
Definition MAXORDINAL : Z := 3652059.

Definition is_leap (year : Z) : bool :=
  (year mod 4 =? 0) && (negb (year mod 100 =? 0) || (year mod 400 =? 0)).

Definition DAYS_IN_MONTH (month : Z) : Z :=
  match month with
  | 1 => 31 | 2 => 28 | 3 => 31 | 4 => 30 | 5 => 31 | 6 => 30
  | 7 => 31 | 8 => 31 | 9 => 30 | 10 => 31 | 11 => 30 | 12 => 31
  | _ => -1
  end.

Definition DAYS_BEFORE_MONTH (month : Z) : Z :=
  match month with
  | 1 => 0 | 2 => 31 | 3 => 59 | 4 => 90 | 5 => 120 | 6 => 151
  | 7 => 181 | 8 => 212 | 9 => 243 | 10 => 273 | 11 => 304 | 12 => 334
  | _ => -1
  end.

Definition days_before_year (year : Z) : Z :=
  let y := year - 1 in
  y * 365 + y / 4 - y / 100 + y / 400.

Definition days_in_month (year month : Z) : Z :=
  if (month =? 2) && is_leap year then 29 else DAYS_IN_MONTH month.

Definition days_before_month (year month : Z) : Z :=
  DAYS_BEFORE_MONTH month + (if (2 <? month) && is_leap year then 1 else 0).

Definition ymd2ord (year month day : Z) : Z :=
  days_before_year year + days_before_month year month + day.

Definition ord2ymd (n : Z) : Z * Z * Z :=
  let n := n - 1 in
  let n400 := n / 146097 in
  let n := n mod 146097 in
  let year := n400 * 400 + 1 in
  let n100 := n / 36524 in
  let n := n mod 36524 in
  let n4 := n / 1461 in
  let n := n mod 1461 in
  let n1 := n / 365 in
  let n := n mod 365 in
  let year := year + n100 * 100 + n4 * 4 + n1 in
  if (n1 =? 4) || (n100 =? 4) then (year - 1, 12, 31)
  else
    let leapyear := (n1 =? 3) && (negb (n4 =? 24) || (n100 =? 3)) in
    let month := Z.shiftr (n + 50) 5 in
    let preceding :=
      DAYS_BEFORE_MONTH month + (if (2 <? month) && leapyear then 1 else 0) in
    if n <? preceding then
      let month := month - 1 in
      let preceding :=
        preceding
        - (DAYS_IN_MONTH month + (if (month =? 2) && leapyear then 1 else 0)) in
      (year, month, n - preceding + 1)
    else (year, month, n - preceding + 1).

(** [date(year, month, day)]; [None] stands for the [ValueError] of a
    component out of range. *)
Definition new (year month day : Z) : option date :=
  if (MINYEAR <=? year) && (year <=? MAXYEAR)
     && (1 <=? month) && (month <=? 12)
     && (1 <=? day) && (day <=? days_in_month year month)
  then Some (ymd2ord year month day)
  else None.

Definition year_of (d : date) : Z := (ord2ymd d).1.1.
Definition month_of (d : date) : Z := (ord2ymd d).1.2.
Definition day_of (d : date) : Z := (ord2ymd d).2.

(** [d + timedelta(days=k)]; [None] stands for the [OverflowError] of a
    result outside the supported range. *)
Definition add_days (d : date) (k : Z) : option date :=
  let o := d + k in
  if (0 <? o) && (o <=? MAXORDINAL) then Some o else None.

Definition le (d1 d2 : date) : bool := d1 <=? d2.

Definition digit (n : Z) : ascii := ascii_of_nat (48 + Z.to_nat (n mod 10)).

(** [%02d] and [%04d] of a number that fits. *)
Definition two_digits (n : Z) : string :=
  String (digit (n / 10)) (String (digit n) EmptyString).

Definition four_digits (n : Z) : string :=
  String (digit (n / 1000)) (String (digit (n / 100)) (two_digits n)).

(** [%Y] of a year from 1 to 9999, as the C library behind [strftime]
    prints it on Linux: the decimal number, without leading zeros. *)
Definition year_digits (y : Z) : string :=
  if y <? 10 then String (digit y) EmptyString
  else if y <? 100 then two_digits y
  else if y <? 1000 then String (digit (y / 100)) (two_digits y)
  else four_digits y.

(** [d.strftime("%Y-%m-%d")] *)
Definition strftime (d : date) : string :=
  year_digits (year_of d) +:+ "-" +:+ two_digits (month_of d)
  +:+ "-" +:+ two_digits (day_of d).

End Datetime.

(** ** The calendar endpoint of [src/main.py] *)

Module Calendar.
Import Datetime.
Local Open Scope Z_scope.

Inductive outcome (A : Type) :=
| Returned (a : A)
| Raised
| OutOfFuel.
Arguments Returned {A} a.
Arguments Raised {A}.
Arguments OutOfFuel {A}.

Record calendar := Build_calendar {
  requested_year : Z;
  is_current_year : bool;
  range_start : string;
  range_end : string;
  total_days : nat;
  dates : list string
}.

(** The [while current_date <= end_date] loop; each unit of fuel pays for
    one test of the condition. *)
Fixpoint dates_loop (fuel : nat) (current_date end_date : date)
    (all_dates : list string) : outcome (list string) :=
  match fuel with
  | O => OutOfFuel
  | S fuel' =>
      if le current_date end_date then
        match add_days current_date 1 with
        | Some next =>
            dates_loop fuel' next end_date (all_dates ++ [strftime current_date])
        | None => Raised
        end
      else Returned all_dates
  end.

(** [today] is what [date.today()] returns.  [Raised] is the branch that
    answers 400 with the text of the exception. *)
Definition get_year_dates (fuel : nat) (today : date) (year : Z)
  : outcome calendar :=
  match new (year - 1) 10 1 with
  | None => Raised
  | Some start_date =>
      let end_opt :=
        if year =? year_of today then add_days today (-1)
        else new year 12 31 in
      match end_opt with
      | None => Raised
      | Some end_date =>
          match dates_loop fuel start_date end_date [] with
          | Returned all_dates =>
              Returned (Build_calendar year (year =? year_of today)
                          (strftime start_date) (strftime end_date)
                          (List.length all_dates) all_dates)
          | Raised => Raised
          | OutOfFuel => OutOfFuel
          end
      end
  end.

End Calendar.

(** ** The HTTP client side shared by the drivers

    The world of a driver is the file system behind the service together
    with two records kept for the statements below: the bodies posted to the
    tracking endpoint and the downloader calls made, oldest first. *)

Module Requests.
Import Py Openpyxl Main.

Record world := World {
  files : filesystem;
  posted : list (string * string * list (string * value));
  invoked : list (string * string)
}.

(** [requests.get(url)] on [/api/<year>/tracking/<date>] *)
Definition get (year date : string) (w : world) : response :=
  (manage_tracking_by_date year date GET [] (files w)).2.

(** [requests.post(url, json=payload)] on the same URL *)
Definition post (year date : string) (payload : list (string * value))
    (w : world) : world * response :=
  let r := manage_tracking_by_date year date POST payload (files w) in
  (World r.1 (posted w ++ [(year, date, payload)]) (invoked w), r.2).

(** One call of the downloader of [file_key] on [date]. *)
Definition call (download : string → string → value) (file_key date : string)
    (w : world) : world * value :=
  (World (files w) (posted w) (invoked w ++ [(file_key, date)]),
   download file_key date).

End Requests.

(** ** The driver of [src/data_downloader.py] *)

Module DataDownloader.
Import Py Openpyxl Main Requests.

(** [get_tracking_status]: the JSON of the answer, here its ["data"]
    member, or [None] when [raise_for_status] raises. *)
Definition get_tracking_status (year date : string) (w : world)
  : option (option dict) :=
  let response := get year date w in
  if (400 <=? status_code response)%nat then None
  else Some (match body response with
             | Found d => Some d
             | _ => None
             end).

(** [update_tracking_status]; the boolean it returns is not used. *)
Definition update_tracking_status (year date file_key file_data : string)
    (w : world) : world :=
  (post year date [(file_key, Some file_data)] w).1.

(** The keys of [download_tasks], in order. *)
Definition download_tasks : list string :=
  ["file_1"; "file_2"; "file_3"; "file_4"; "file_5"].

(** [year] is the decimal text of [self.year] as it appears in the URL;
    [download file_key date] is the result of the download function
    paired with [file_key]. *)
Definition process_date (download : string → string → value)
    (year date : string) (w : world) : world :=
  let files_status : dict :=
    match get_tracking_status year date w with
    | Some (Some d) => d
    | _ => ∅
    end in
  foldl (λ w file_key,
           if truthy (dict_get files_status (Some file_key) None) then w
           else
             let '(w1, file_data) := call download file_key date w in
             if truthy file_data
             then update_tracking_status year date file_key (str file_data) w1
             else w1)
        w download_tasks.

(** The loop of [run] over the dates. *)
Definition run_dates (download : string → string → value) (year : string)
    (dates : list string) (w : world) : world :=
  foldl (λ w date, process_date download year date w) w dates.

End DataDownloader.

(** ** The per-slot loops of [src/download_main.py] *)

Module DownloadMain.
Import Py Openpyxl Main Requests.

(** The body of one [for date in dates] loop, for the slot [file_key];
    [None] stands for the [KeyError] of a row without that key, which the
    script does not catch. *)
Definition loop_body (download : string → string → value)
    (file_key year date : string) (w : world) : option world :=
  let response := get year date w in
  if (status_code response =? 200)%nat then
    match body response with
    | Found data =>
        match data !! Some file_key with
        | None => None
        | Some v =>
            if truthy v then Some w
            else
              let '(w1, file_data) := call download file_key date w in
              Some (post year date [(file_key, Some (str file_data))] w1).1
        end
    | _ => None
    end
  else
    let '(w1, file_data) := call download file_key date w in
    Some (post year date [(file_key, Some (str file_data))] w1).1.

End DownloadMain.

(** ** The listing endpoint of [src/main.py] *)

Module Listing.
Import Py Openpyxl Main.

(** The answer of the listing: the code, the ["status"] member and, on
    success, the list under ["data"], one dictionary per row. *)
Record listing := Listing {
  listing_code : nat;
  listing_status : string;
  listing_data : option (list dict)
}.

Definition read_tracking_sheet (year : string) (fs : filesystem) : listing :=
  if negb (isdigit year) then Listing 400 "error" None
  else
    match tracking_file fs year with
    | None => Listing 404 "error" None
    | Some ws =>
        let headers := row_values ws 1 in
        let data :=
          (λ row, dict_of_items (zip headers row)) <$> iter_rows ws 2 in
        Listing 200 "success" (Some data)
    end.

End Listing.

(** ** The readers of the listing and the batches of
    [src/nse_participant_tv_downloader.py] *)

Module FileList.
Import Py Openpyxl Main Listing.

(** [[item["file_2"] for item in data if "file_2" in item]] *)
Definition file_2_items (data : list dict) : list value :=
  omap (λ item : dict, item !! Some "file_2") data.

(** What a call of [fetch_file_list] fetches: the body of the function
    under its decorator, and the method of the same name in
    [src/regrate_main.py], which has no cache; [year] is the text of the
    year in the URL. *)
Definition fetch_file_list (year : string) (fs : filesystem)
  : option (list value) :=
  let response := read_tracking_sheet year fs in
  if (listing_code response =? 200)%nat
  then Some (file_2_items (default [] (listing_data response)))
  else None.

(** The state of [@lru_cache(maxsize=1)]: empty, or the argument of the
    last call that fetched, as its text in the URL, with the result returned
    for it; a [None] is kept like a list. *)
Definition cache : Type := option (string * option (list value)).

(** [fetch_file_list] as the script calls it, through
    [@lru_cache(maxsize=1)]: a call with the year of the entry returns the
    result kept there and sends no request; any other call fetches and
    replaces the entry. *)
Definition cached_fetch_file_list (year : string) (c : cache) (fs : filesystem)
  : cache * option (list value) :=
  match c with
  | Some (y, result) =>
      if decide (y = year) then (c, result)
      else let r := fetch_file_list year fs in (Some (year, r), r)
  | None => let r := fetch_file_list year fs in (Some (year, r), r)
  end.

(** [range(0, stop, step)] for a positive [step] *)
Definition range_step (stop step : nat) : list nat :=
  (λ j, j * step)
    <$> seq 0 (match stop with O => 0 | S _ => (stop - 1) / step + 1 end).

(** [l[i:j]] for [0 <= i <= j] *)
Definition slice {A : Type} (l : list A) (i j : nat) : list A :=
  take (j - i) (drop i l).

(** [total_batches] *)
Definition total_batches (len : nat) (batch_size : Z) : Z :=
  ((Z.of_nat len + batch_size - 1) / batch_size)%Z.

(** [process_symbols_batched]; [process_symbols_parallel] is the function
    that handles one batch.  [None] stands for the [ZeroDivisionError] of a
    batch size 0; with a negative batch size the range is empty. *)
Definition process_symbols_batched {A R : Type}
    (process_symbols_parallel : list A → list R)
    (symbols : list A) (batch_size : Z) : option (list R) :=
  if (batch_size =? 0)%Z then None
  else if (batch_size <? 0)%Z then Some []
  else
    let step := Z.to_nat batch_size in
    Some (foldl (λ all_results i,
                   all_results
                   ++ process_symbols_parallel (slice symbols i (i + step)))
                [] (range_step (length symbols) step)).

End FileList.

(** ** Integers in URLs *)

Module Urls.
Import Datetime.
Local Open Scope Z_scope.

(** The decimal digits of [n >= 0], the last one first, before [acc]. *)
Fixpoint digits_to (fuel : nat) (n : Z) (acc : string) : string :=
  match fuel with
  | O => acc
  | S fuel' =>
      let acc' := String (digit n) acc in
      if n <? 10 then acc' else digits_to fuel' (n / 10) acc'
  end.

(** [str(n)] of an integer; a number has no more decimal digits than
    binary ones. *)
Definition int_str (n : Z) : string :=
  if n <? 0 then String "-" (digits_to (S (Z.to_nat (Z.log2 (- n)))) (- n) "")
  else digits_to (S (Z.to_nat (Z.log2 n))) n "".

(** GET on [/api/download/<int:year>]: the code and, on 200, the calendar.
    The converter of the route takes digits only, so that a negative year
    finds no route. *)
Definition get_download (fuel : nat) (today : date) (year : Z)
  : Calendar.outcome (nat * option Calendar.calendar) :=
  if year <? 0 then Calendar.Returned (404%nat, None)
  else
    match Calendar.get_year_dates fuel today year with
    | Calendar.Returned c => Calendar.Returned (200%nat, Some c)
    | Calendar.Raised => Calendar.Returned (400%nat, None)
    | Calendar.OutOfFuel => Calendar.OutOfFuel
    end.

End Urls.

(** ** The workflow of [src/data_downloader.py] *)

Module Workflow.
Import Py Openpyxl Main Datetime Calendar Requests DataDownloader Urls.

(** [fetch_trading_dates]: the dates of the answer, or [None] when
    [raise_for_status] raises. *)
Definition fetch_trading_dates (fuel : nat) (today : date) (year : Z)
  : outcome (option (list string)) :=
  match get_download fuel today year with
  | Returned (code, json) =>
      if (400 <=? code)%nat then Returned None
      else Returned (Some (match json with
                           | Some c => dates c
                           | None => []
                           end))
  | Raised => Raised
  | OutOfFuel => OutOfFuel
  end.

(** [verify_tracking_endpoint]: a GET on [/api/<year>/track_date], which
    creates the ledger when it is missing. *)
Definition verify_tracking_endpoint (year : Z) (w : world) : world * bool :=
  let r := create_track_date (int_str year) (files w) in
  (World r.1 (posted w) (invoked w), negb (400 <=? status_code r.2)%nat).

Definition run (download : string → string → value) (fuel : nat)
    (today : date) (year : Z) (w : world) : outcome world :=
  match fetch_trading_dates fuel today year with
  | Returned None | Returned (Some []) => Returned w
  | Returned (Some dates) =>
      let w1 := (verify_tracking_endpoint year w).1 in
      Returned (run_dates download (int_str year) dates w1)
  | Raised => Raised
  | OutOfFuel => OutOfFuel
  end.

End Workflow.

(** ** The script of [src/download_main.py] *)

Module Script.
Import Py Openpyxl Main Datetime Calendar Requests DownloadMain Urls.

(** [fetch_dates] *)
Definition fetch_dates (fuel : nat) (today : date) (year : Z)
  : outcome (option (list string)) :=
  match get_download fuel today year with
  | Returned (code, json) =>
      if (code =? 200)%nat
      then Returned (Some (match json with
                           | Some c => dates c
                           | None => []
                           end))
      else Returned None
  | Raised => Raised
  | OutOfFuel => OutOfFuel
  end.

(** The variable [data] of the script: not assigned yet, the JSON of an
    answer without a ["data"] member, or the JSON of an answer whose
    ["data"] member is a row. *)
Inductive json_var :=
| Unbound
| NoData
| RowData (d : dict).

(** The state of the script: the world and the variable [data]. *)
Record state := State {
  world_of : world;
  data : json_var
}.

(** The GET on [track_date] at the start, which creates the ledger when it
    is missing; [data] is assigned on 200 only. *)
Definition ask_ledger (year : string) (w : world) : state :=
  let r := create_track_date year (files w) in
  State (World r.1 (posted w) (invoked w))
        (if (status_code r.2 =? 200)%nat then NoData else Unbound).

(** The body of the first loop, the one of the slot [file_1]; [None] when
    the iteration raises. *)
Definition first_loop_body (download : string → string → value)
    (year date : string) (st : state) : option state :=
  let w := world_of st in
  let response := get year date w in
  if (status_code response =? 200)%nat then
    match body response with
    | Found d =>
        match d !! Some "file_1" with
        | None => None
        | Some v =>
            if truthy v then Some (State w (RowData d))
            else
              let '(w1, file_data) := call download "file_1" date w in
              Some (State (post year date [("file_1", Some (str file_data))] w1).1
                          (RowData d))
        end
    | _ => None
    end
  else
    let '(w1, file_data) := call download "file_1" date w in
    Some (State (post year date [("file_1", Some (str file_data))] w1).1
                (data st)).

(** The body of each later loop, for the slot [file_key].  After its POST
    the branch of a missing row prints [data.get("data")[file_key]] from
    whatever [data] holds, which raises when [data] is not assigned, has no
    ["data"] member, or holds a row without the key. *)
Definition late_loop_body (download : string → string → value)
    (file_key year date : string) (st : state) : option state :=
  let w := world_of st in
  let response := get year date w in
  if (status_code response =? 200)%nat then
    match body response with
    | Found d =>
        match d !! Some file_key with
        | None => None
        | Some v =>
            if truthy v then Some (State w (RowData d))
            else
              let '(w1, file_data) := call download file_key date w in
              Some (State (post year date [(file_key, Some (str file_data))] w1).1
                          (RowData d))
        end
    | _ => None
    end
  else
    let '(w1, file_data) := call download file_key date w in
    let w2 := (post year date [(file_key, Some (str file_data))] w1).1 in
    match data st with
    | RowData d =>
        match d !! Some file_key with
        | Some _ => Some (State w2 (data st))
        | None => None
        end
    | _ => None
    end.

(** One [for date in dates] loop. *)
Fixpoint loop (loop_body : string → state → option state)
    (dates : list string) (st : state) : option state :=
  match dates with
  | [] => Some st
  | date :: rest =>
      match loop_body date st with
      | Some st' => loop loop_body rest st'
      | None => None
      end
  end.

(** The slots of the later loops, in the order of the loops. *)
Definition late_keys : list string :=
  ["file_2"; "file_3"; "file_4"; "file_5"; "file_6"; "file_7"; "file_8"].

(** The script: the dates are fetched, the ledger is asked for, and the
    eight loops run one after the other when there are dates. *)
Definition main (download : string → string → value) (fuel : nat)
    (today : date) (year : Z) (w : world) : outcome (option state) :=
  match fetch_dates fuel today year with
  | Returned dates =>
      let st := ask_ledger (int_str year) w in
      match dates with
      | None | Some [] => Returned (Some st)
      | Some dates =>
          Returned
            (foldl (λ ost file_key,
                      match ost with
                      | Some st' =>
                          loop (late_loop_body download file_key (int_str year))
                               dates st'
                      | None => None
                      end)
                   (loop (first_loop_body download (int_str year)) dates st)
                   late_keys)
      end
  | Raised => Raised
  | OutOfFuel => OutOfFuel
  end.

End Script.

(** * Vocabulary of the statements

    The definitions below are not part of the program: they name what the
    theorems talk about. *)

(** ** The ledger kept in a worksheet *)

Module Ledger.
Import Py Openpyxl Main.

(** Number of cells of row [r]. *)
Definition ncols (ws : worksheet) (r : nat) : nat :=
  match ws !! (r - 1) with
  | Some row => List.length row
  | None => 0
  end.

(** The column that the header row of a ledger gives to the key [k]. *)
Definition slot_col (k : string) : option nat := header_map headers_row !! Some k.

(** The header row is the one [create_track_date] writes. *)
Definition headers_ok (ws : worksheet) : Prop := row_values ws 1 = headers_row.

(** No cell holds the empty string: the sheet reads as a saved file does. *)
Definition stored_ok (ws : worksheet) : Prop :=
  Forall (Forall (λ v : value, v ≠ Some "")) ws.

(** A ledger as the service creates it and leaves it. *)
Definition ledger_ok (ws : worksheet) : Prop := headers_ok ws ∧ stored_ok ws.

(** [dict(zip(headers, row))] for row [r] of a ledger. *)
Definition row_dict (ws : worksheet) (r : nat) : dict :=
  dict_of_items (zip headers_row (row_values ws r)).

(** What the search loop compares with the date of the URL. *)
Definition date_text (ws : worksheet) (r : nat) : string := str (cell_value ws r 1).

(** The first row among [idx], ..., [idx + n - 1] whose date matches. *)
Fixpoint first_match (ws : worksheet) (date : string) (idx n : nat) : option nat :=
  match n with
  | O => None
  | S n' =>
      if decide (date_text ws idx = date) then Some idx
      else first_match ws date (S idx) n'
  end.

(** [target_row_idx] of the handler. *)
Definition find_row (ws : worksheet) (date : string) : option nat :=
  first_match ws date 2 (max_row ws - 1).

(** One step of the two update loops, on a ledger. *)
Definition write_slot (ws : worksheet) (r : nat) (kv : string * value) : worksheet :=
  match slot_col kv.1 with
  | Some c => cell ws r c kv.2
  | None => ws
  end.

Definition write_all (ws : worksheet) (r : nat) (updates : list (string * value))
  : worksheet :=
  foldl (λ acc kv, write_slot acc r kv) ws updates.

(** The sheet a POST leaves in the file. *)
Definition post_sheet (ws : worksheet) (date : string)
    (updates : list (string * value)) : worksheet :=
  match find_row ws date with
  | Some idx => save (write_all ws idx updates)
  | None =>
      save (write_all (set_cell ws (length ws + 1) 1 date) (length ws + 1) updates)
  end.

(** The key of [kv] names a column. *)
Definition known (kv : string * value) : bool := bool_decide (is_Some (slot_col kv.1)).

(** [changes_made] *)
Definition changes (updates : list (string * value)) : nat :=
  length (filter (λ kv, known kv = true) updates).

Definition post_response (ws : worksheet) (date : string)
    (updates : list (string * value)) : response :=
  match find_row ws date with
  | Some _ => Response 200 "success" (Updated (changes updates))
  | None => Response 201 "success" Message
  end.

Definition get_response (ws : worksheet) (date : string) : response :=
  match find_row ws date with
  | Some r => Response 200 "success" (Found (row_dict ws r))
  | None => Response 404 "error" Message
  end.

(** The row a POST writes to, and the sheet once that row exists. *)
Definition target_row (ws : worksheet) (date : string) : nat :=
  match find_row ws date with
  | Some idx => idx
  | None => length ws + 1
  end.

Definition base_sheet (ws : worksheet) (date : string) : worksheet :=
  match find_row ws date with
  | Some _ => ws
  | None => set_cell ws (length ws + 1) 1 date
  end.

(** The body of the request has no ['date'] member. *)
Definition no_date_key (updates : list (string * value)) : Prop :=
  Forall (λ kv, kv.1 ≠ "date") updates.

(** The row a client reads: the ["data"] member of a 200 answer to GET. *)
Definition get_row (fs : filesystem) (year date : string) : option dict :=
  match manage_tracking_by_date year date GET [] fs with
  | (_, Response 200 _ (Found d)) => Some d
  | _ => None
  end.

(** The value a client reads for the slot [k] of [date]; [None] also when
    there is no row. *)
Definition read_slot (fs : filesystem) (year date k : string) : value :=
  dict_get (default ∅ (get_row fs year date)) (Some k) None.

(** The same value, read in the sheet. *)
Definition slot_status (ws : worksheet) (date k : string) : value :=
  match find_row ws date, slot_col k with
  | Some r, Some c => cell_value ws r c
  | _, _ => None
  end.

(** A sequence of POST requests, each a date and a body, on one year. *)
Definition run_posts (year : string)
    (calls : list (string * list (string * value))) (fs : filesystem)
  : filesystem :=
  foldl (λ fs call, (manage_tracking_by_date year call.1 POST call.2 fs).1)
        fs calls.

(** No two rows below the header have the same date. *)
Definition dates_unique (ws : worksheet) : Prop :=
  ∀ i j, 2 ≤ i ≤ length ws → 2 ≤ j ≤ length ws →
         date_text ws i = date_text ws j → i = j.

Fixpoint decimal_digits (s : string) : bool :=
  match s with
  | EmptyString => true
  | String c s' =>
      (48 <=? nat_of_ascii c)%nat && (nat_of_ascii c <=? 57)%nat
      && decimal_digits s'
  end.

(** A year as the specification words it: a well-formed 4-digit number. *)
Definition spec_valid_year (year : string) : bool :=
  (String.length year =? 4)%nat && decimal_digits year.

(** Two small file systems used as examples. *)
Definition fresh_ledger : filesystem := (create_track_date "2026" ∅).1.

Definition one_row_sheet : worksheet :=
  [headers_row; [Some "2025-10-01"; Some "cm.csv"]].

Definition one_row_ledger : filesystem := {["2026" := Some one_row_sheet]}.

End Ledger.

(** ** Passes of the drivers *)

Module Passes.
Import Py Openpyxl Main Requests Ledger.

(** The slots among [tasks] that a pass over [date] finds empty. *)
Definition pending (fs : filesystem) (year date : string) (tasks : list string)
  : list string :=
  filter (λ k, truthy (read_slot fs year date k) = false) tasks.

(** The slots among [ks] whose download gives a result. *)
Definition fetched (download : string → string → value) (date : string)
    (ks : list string) : list string :=
  filter (λ k, truthy (download k date) = true) ks.

(** The request that records the result for the slot [k]. *)
Definition result_post (download : string → string → value)
    (year date k : string) : string * string * list (string * value) :=
  (year, date, [(k, Some (str (download k date)))]).

Definition post_results (download : string → string → value)
    (year date : string) (ks : list string) (fs : filesystem) : filesystem :=
  foldl (λ fs k,
           (manage_tracking_by_date year date POST
              [(k, Some (str (download k date)))] fs).1)
        fs ks.

(** Every value of the body is a non-empty string. *)
Definition nonempty_payload (p : string * string * list (string * value)) : Prop :=
  Forall (λ kv : string * value, truthy kv.2 = true) p.2.

(** Worlds and downloaders used as examples. *)
Definition fresh_world : world := World fresh_ledger [] [].

Definition one_row_world : world := World one_row_ledger [] [].

Definition no_data : string → string → value := λ _ _, None.

Definition always (p : string) : string → string → value := λ _ _, Some p.

End Passes.

(** ** Days of the calendar *)

Module Days.
Import Datetime.
Local Open Scope Z_scope.

(** The days from [start_date] to [end_date], both included, in order. *)
Definition date_range (start_date end_date : date) : list date :=
  seqZ start_date (end_date - start_date + 1).

(** October 1 and December 31 of year [y] convert to an ordinal and back. *)
Definition fixed_days_ok (y : Z) : bool :=
  match ord2ymd (ymd2ord y 10 1), ord2ymd (ymd2ord y 12 31) with
  | (y1, m1, d1), (y2, m2, d2) =>
      (y1 =? y) && (m1 =? 10) && (d1 =? 1)
      && (y2 =? y) && (m2 =? 12) && (d2 =? 31)
  end.

Definition is_decimal (c : ascii) : bool :=
  (48 <=? nat_of_ascii c)%nat && (nat_of_ascii c <=? 57)%nat.

(** A [YYYY-MM-DD] string: four decimal digits, a dash, two digits, a dash
    and two digits. *)
Definition iso_date (s : string) : bool :=
  match s with
  | String y1 (String y2 (String y3 (String y4 (String s1
      (String m1 (String m2 (String s2 (String d1 (String d2
         EmptyString))))))))) =>
      is_decimal y1 && is_decimal y2 && is_decimal y3 && is_decimal y4
      && Ascii.eqb s1 "-" && is_decimal m1 && is_decimal m2
      && Ascii.eqb s2 "-" && is_decimal d1 && is_decimal d2
  | _ => false
  end.

End Days.

(** ** Rows as the clients read them *)

Module Rows.
Import Py Openpyxl Main Ledger Listing.

(** The list under ["data"] of the listing of a year; empty when the
    listing fails. *)
Definition listed (fs : filesystem) (year : string) : list dict :=
  default [] (listing_data (read_tracking_sheet year fs)).

(** The first dictionary of a list whose date prints as [date]. *)
Definition first_with_date (date : string) (data : list dict) : option dict :=
  head (filter (λ d : dict, str (dict_get d (Some "date") (Some "")) = date) data).

(** The row of [date] with every slot empty. *)
Definition blank_row (date : string) : dict :=
  dict_of_items (zip headers_row (Some date :: replicate 11 None)).

(** A row after the members of a body are written into it, in order: a
    member is written when its key is a column and its value is not null,
    and an empty string is read back as an empty cell. *)
Definition apply_updates (d : dict) (updates : list (string * value)) : dict :=
  foldl (λ d kv,
           match slot_col kv.1, kv.2 with
           | Some _, Some s => <[Some kv.1 := stored (Some s)]> d
           | _, _ => d
           end)
        d updates.

(** A request to one of the endpoints that write. *)
Inductive request :=
| CreateYearFolder (year : string)
| CreateTrackDate (year : string)
| ManageTracking (year date : string) (m : method)
    (updates : list (string * value)).

Definition serve (fs : filesystem) (req : request) : filesystem :=
  match req with
  | CreateYearFolder year => (create_year_folder year fs).1
  | CreateTrackDate year => (create_track_date year fs).1
  | ManageTracking year date m updates =>
      (manage_tracking_by_date year date m updates fs).1
  end.

(** Every ledger of the file system is well formed. *)
Definition ledgers_ok (fs : filesystem) : Prop :=
  ∀ year ws, tracking_file fs year = Some ws → ledger_ok ws.

(** Every row below the header has a date. *)
Definition dated (ws : worksheet) : Prop :=
  ∀ r, 2 ≤ r ≤ length ws → cell_value ws r 1 ≠ None.

Definition ledgers_dated (fs : filesystem) : Prop :=
  ∀ year ws, tracking_file fs year = Some ws → dated ws.

(** A request that cannot touch a date cell: any request but a POST whose
    body has a ['date'] member; the date of the URL of a POST is not
    empty. *)
Definition keeps_dates (req : request) : Prop :=
  match req with
  | ManageTracking _ date POST updates => date ≠ "" ∧ no_date_key updates
  | _ => True
  end.

End Rows.

(** ** What a run of a driver leaves in a slot *)

Module Outcome.
Import Py Openpyxl Main Requests Ledger DataDownloader.

(** The value of the slot [k] of [d] after the passes over [dates] of the
    driver of [src/data_downloader.py], started on [fs]. *)
Definition reconciled (download : string → string → value) (fs : filesystem)
    (year : string) (dates : list string) (d k : string) : value :=
  if decide (d ∈ dates ∧ k ∈ download_tasks
             ∧ truthy (read_slot fs year d k) = false
             ∧ truthy (download k d) = true)
  then download k d
  else read_slot fs year d k.

(** The value of the slot [k] of [d] after a loop of
    [src/download_main.py] over [dates] for that slot: the loop records the
    text of whatever the download returned, and an empty text is read back
    as an empty slot. *)
Definition polled (download : string → string → value) (fs : filesystem)
    (year : string) (dates : list string) (k d : string) : value :=
  if decide (d ∈ dates ∧ truthy (read_slot fs year d k) = false)
  then stored (Some (str (download k d)))
  else read_slot fs year d k.

(** The slots of the eight loops. *)
Definition script_slots : list string := "file_1" :: Script.late_keys.

End Outcome.

(** ** The span of a calendar *)

Module Spans.
Import Datetime.
Local Open Scope Z_scope.

(** The last day of the calendar of [year], asked on [today]. *)
Definition last_day (today year : Z) : Z :=
  if year =? year_of today then today - 1 else ymd2ord year 12 31.

End Spans.

(** * The ledger service *)

Module LedgerFacts.
Import Py Openpyxl Main Ledger.

(** ** Cells, rows and columns of a worksheet *)

(** Reading a list padded up to length [n]. *)
Lemma lookup_extend {A : Type} (l : list A) (n : nat) (x : A) (i : nat) :
  (l ++ replicate (n - length l) x) !! i
  = match l !! i with
    | Some y => Some y
    | None => if decide (i < n) then Some x else None
    end.
Proof.
  destruct (l !! i) as [y|] eqn:Hi.
  - by rewrite lookup_app_l_Some with (x := y).
  - apply lookup_ge_None in Hi. rewrite lookup_app_r by done.
    case_decide.
    + apply lookup_replicate_2. lia.
    + apply lookup_ge_None. rewrite length_replicate. lia.
Qed.

Lemma set_cell_lookup (ws : worksheet) r c s i :
  1 ≤ r →
  set_cell ws r c s !! i
  = if decide (i = r - 1)
    then Some (<[c - 1 := Some s]>
                 (default [] (ws !! i)
                  ++ replicate (c - length (default [] (ws !! i))) None))
    else match ws !! i with
         | Some row => Some row
         | None => if decide (i < r) then Some [] else None
         end.
Proof.
  intros Hr. unfold set_cell.
  rewrite list_lookup_alter, !lookup_extend.
  destruct (decide (i = r - 1)) as [->|Hi].
  - rewrite decide_True by done.
    destruct (ws !! (r - 1)); simpl; [done|].
    by rewrite decide_True by lia.
  - by rewrite decide_False by done.
Qed.

Lemma length_set_cell (ws : worksheet) r c s :
  length (set_cell ws r c s) = Nat.max (length ws) r.
Proof.
  unfold set_cell. rewrite length_alter, length_app, length_replicate. lia.
Qed.

(** [set_cell] changes the cell it names and no other. *)
Lemma cell_value_set_cell (ws : worksheet) r c s r' c' :
  1 ≤ r → 1 ≤ c → 1 ≤ r' → 1 ≤ c' →
  cell_value (set_cell ws r c s) r' c'
  = if decide (r' = r ∧ c' = c) then Some s else cell_value ws r' c'.
Proof.
  intros Hr Hc Hr' Hc'. unfold cell_value.
  rewrite set_cell_lookup by done.
  destruct (decide (r' - 1 = r - 1)) as [Heq|Hne].
  - assert (r' = r) as -> by lia.
    destruct (decide (c' = c)) as [->|Hcne].
    + rewrite decide_True by done.
      rewrite list_lookup_insert_eq; [done|].
      rewrite length_app, length_replicate.
      lia.
    + rewrite decide_False by tauto.
      rewrite list_lookup_insert_ne by lia.
      rewrite lookup_extend.
      destruct (ws !! (r - 1)) as [row|]; simpl.
      * destruct (row !! (c' - 1)); [done|]. by case_decide.
      * by case_decide.
  - destruct (decide (r' = r ∧ c' = c)) as [[-> _]|_]; [lia|].
    destruct (ws !! (r' - 1)); [done|]. by case_decide.
Qed.

Lemma ncols_set_cell (ws : worksheet) r c s r' :
  1 ≤ r → 1 ≤ r' →
  ncols (set_cell ws r c s) r'
  = if decide (r' = r) then Nat.max (ncols ws r) c else ncols ws r'.
Proof.
  intros Hr Hr'. unfold ncols. rewrite set_cell_lookup by done.
  destruct (decide (r' - 1 = r - 1)) as [Heq|Hne].
  - assert (r' = r) as -> by lia. rewrite decide_True by done.
    rewrite length_insert, length_app, length_replicate.
    destruct (ws !! (r - 1)); simpl; lia.
  - destruct (decide (r' = r)) as [->|_]; [lia|].
    destruct (ws !! (r' - 1)); [done|]. by case_decide.
Qed.

Lemma length_save (ws : worksheet) : length (save ws) = length ws.
Proof. unfold save. by rewrite length_map. Qed.

Lemma cell_value_save (ws : worksheet) r c :
  cell_value (save ws) r c = stored (cell_value ws r c).
Proof.
  unfold cell_value, save.
  rewrite !list_lookup_fmap.
  destruct (ws !! (r - 1)) as [row|]; simpl; [|done].
  rewrite list_lookup_fmap. by destruct (row !! (c - 1)).
Qed.

Lemma ncols_save (ws : worksheet) r : ncols (save ws) r = ncols ws r.
Proof.
  unfold ncols, save. rewrite list_lookup_fmap.
  destruct (ws !! (r - 1)); simpl; [by rewrite length_map|done].
Qed.

(** Two worksheets with the same number of rows, the same row lengths and
    the same cells are equal. *)
Lemma worksheet_ext (ws1 ws2 : worksheet) :
  length ws1 = length ws2 →
  (∀ r, 1 ≤ r → ncols ws1 r = ncols ws2 r) →
  (∀ r c, 1 ≤ r → 1 ≤ c → cell_value ws1 r c = cell_value ws2 r c) →
  ws1 = ws2.
Proof.
  intros Hlen Hcols Hcells. apply list_eq. intros i.
  specialize (Hcols (S i) ltac:(lia)).
  unfold ncols in Hcols. simpl in Hcols. rewrite Nat.sub_0_r in Hcols.
  destruct (ws1 !! i) as [row1|] eqn:H1, (ws2 !! i) as [row2|] eqn:H2.
  - f_equal. apply list_eq. intros j.
    specialize (Hcells (S i) (S j) ltac:(lia) ltac:(lia)).
    unfold cell_value in Hcells. simpl in Hcells.
    rewrite !Nat.sub_0_r, H1, H2 in Hcells.
    destruct (row1 !! j) as [x|] eqn:Hx, (row2 !! j) as [y|] eqn:Hy; try congruence.
    + apply lookup_lt_Some in Hx. apply lookup_ge_None in Hy. lia.
    + apply lookup_lt_Some in Hy. apply lookup_ge_None in Hx. lia.
  - apply lookup_lt_Some in H1. apply lookup_ge_None in H2. lia.
  - apply lookup_lt_Some in H2. apply lookup_ge_None in H1. lia.
  - done.
Qed.

Lemma max_list_le (ns : list nat) n : max_list ns ≤ n ↔ Forall (λ m, m ≤ n) ns.
Proof.
  induction ns as [|m ns IH]; simpl.
  - split; [constructor | lia].
  - rewrite Forall_cons, <- IH. lia.
Qed.

(** [max_column] is the least bound, from 1 on, of the row lengths. *)
Lemma max_column_le (ws : worksheet) n :
  max_column ws ≤ n ↔ 1 ≤ n ∧ ∀ r, 1 ≤ r → ncols ws r ≤ n.
Proof.
  unfold max_column.
  assert (max_list (length <$> ws) ≤ n ↔ ∀ r, 1 ≤ r → ncols ws r ≤ n) as Hm.
  { rewrite max_list_le, Forall_fmap, Forall_lookup. unfold ncols. split.
    - intros H r Hr. destruct (ws !! (r - 1)) eqn:E; [|lia]. by apply (H _ _ E).
    - intros H i row Hi. specialize (H (S i) ltac:(lia)).
      simpl in H. rewrite Nat.sub_0_r, Hi in H. done. }
  rewrite <- Hm. lia.
Qed.

Lemma cell_value_ncols (ws : worksheet) r c :
  1 ≤ c → cell_value ws r c ≠ None → c ≤ ncols ws r.
Proof.
  unfold cell_value, ncols. intros Hc Hv.
  destruct (ws !! (r - 1)) as [row|]; [|done].
  destruct (row !! (c - 1)) eqn:E; [|done].
  apply lookup_lt_Some in E. lia.
Qed.

Lemma cell_value_max_column (ws : worksheet) r c :
  1 ≤ r → 1 ≤ c → cell_value ws r c ≠ None → c ≤ max_column ws.
Proof.
  intros Hr Hc Hv. apply cell_value_ncols in Hv; [|done].
  pose proof (proj1 (max_column_le ws (max_column ws)) (le_n _)) as [_ H].
  specialize (H r Hr). lia.
Qed.

Lemma max_column_ge_1 (ws : worksheet) : 1 ≤ max_column ws.
Proof. unfold max_column. lia. Qed.

(** ** The header row and its columns *)

Lemma header_map_headers_row :
  header_map headers_row
  = <[Some "file_11" := 12]> (<[Some "file_10" := 11]> (<[Some "file_9" := 10]>
    (<[Some "file_8" := 9]> (<[Some "file_7" := 8]> (<[Some "file_6" := 7]>
    (<[Some "file_5" := 6]> (<[Some "file_4" := 5]> (<[Some "file_3" := 4]>
    (<[Some "file_2" := 3]> (<[Some "file_1" := 2]> (<[Some "date" := 1]> ∅))))))))))).
Proof. reflexivity. Qed.

(** The column of a key is the position of the key in the header row. *)
Lemma slot_col_spec k c :
  slot_col k = Some c ↔ headers_row !! (c - 1) = Some (Some k) ∧ 1 ≤ c.
Proof.
  unfold slot_col. rewrite header_map_headers_row.
  rewrite !lookup_insert, lookup_empty.
  repeat case_decide; simplify_eq.
  all: split; [intros Heq; simplify_eq; (split; [reflexivity | lia]) | ].
  all: intros [Hh Hc]; do 13 (try destruct c as [|c]); simpl in Hh; try lia;
    try discriminate; try congruence.
Qed.

Lemma slot_col_range k c : slot_col k = Some c → 1 ≤ c ≤ 12.
Proof.
  intros [Hh Hc]%slot_col_spec. apply lookup_lt_Some in Hh. simpl in Hh. lia.
Qed.

Lemma slot_col_date : slot_col "date" = Some 1.
Proof. reflexivity. Qed.

Lemma slot_col_1 k : slot_col k = Some 1 → k = "date".
Proof. intros [Hh _]%slot_col_spec. simpl in Hh. congruence. Qed.

Lemma slot_col_inj k1 k2 c : slot_col k1 = Some c → slot_col k2 = Some c → k1 = k2.
Proof. intros [H1 _]%slot_col_spec [H2 _]%slot_col_spec. congruence. Qed.

Lemma headers_ok_max_column ws : headers_ok ws → max_column ws = 12.
Proof.
  unfold headers_ok, row_values. intros H.
  apply (f_equal length) in H. by rewrite length_fmap, length_seq in H.
Qed.

Lemma row_values_lookup (ws : worksheet) r i :
  i < max_column ws → row_values ws r !! i = Some (cell_value ws r (S i)).
Proof.
  intros Hi. unfold row_values.
  by rewrite list_lookup_fmap, lookup_seq_lt.
Qed.

Lemma headers_ok_cell ws c :
  headers_ok ws → 1 ≤ c ≤ 12 → Some (cell_value ws 1 c) = headers_row !! (c - 1).
Proof.
  intros H Hc. pose proof (headers_ok_max_column _ H) as Hm.
  unfold headers_ok in H. rewrite <- H.
  rewrite row_values_lookup by lia. do 2 f_equal. lia.
Qed.

Lemma row_values_12 (ws : worksheet) r :
  max_column ws = 12 →
  row_values ws r
  = [cell_value ws r 1; cell_value ws r 2; cell_value ws r 3; cell_value ws r 4;
     cell_value ws r 5; cell_value ws r 6; cell_value ws r 7; cell_value ws r 8;
     cell_value ws r 9; cell_value ws r 10; cell_value ws r 11; cell_value ws r 12].
Proof. unfold row_values. by intros ->. Qed.

Lemma headers_ok_intro (ws ws' : worksheet) :
  headers_ok ws →
  max_column ws' = 12 →
  (∀ c, 1 ≤ c ≤ 12 → cell_value ws' 1 c = cell_value ws 1 c) →
  headers_ok ws'.
Proof.
  intros H Hm Hc. pose proof (headers_ok_max_column _ H) as Hm0.
  unfold headers_ok in *. rewrite <- H.
  rewrite !row_values_12 by done.
  rewrite !Hc by lia. done.
Qed.

Lemma headers_ok_length ws : headers_ok ws → 1 ≤ length ws.
Proof.
  intros H. pose proof (headers_ok_cell ws 1 H ltac:(lia)) as Hc.
  simpl in Hc. unfold cell_value in Hc. simpl in Hc.
  destruct ws; [discriminate | simpl; lia].
Qed.

Lemma headers_ok_max_row ws : headers_ok ws → max_row ws = length ws.
Proof. intros H%headers_ok_length. unfold max_row. lia. Qed.

(** The dictionary of a row gives, for each key of the header, the cell of
    its column. *)
Lemma row_dict_lookup ws r key :
  max_column ws = 12 →
  row_dict ws r !! key
  = match key with
    | Some k => cell_value ws r <$> slot_col k
    | None => None
    end.
Proof.
  intros Hm. unfold row_dict, slot_col.
  rewrite row_values_12 by done. rewrite header_map_headers_row.
  unfold dict_of_items, headers_row. simpl.
  destruct key as [k|].
  - rewrite !lookup_insert. rewrite ?lookup_insert. rewrite ?lookup_empty.
    repeat case_decide; simplify_eq; done.
  - rewrite !lookup_insert, lookup_empty.
    repeat case_decide; simplify_eq; done.
Qed.

Lemma row_dict_date ws r :
  max_column ws = 12 →
  dict_get (row_dict ws r) (Some "date") (Some "") = cell_value ws r 1.
Proof. intros Hm. unfold dict_get. by rewrite row_dict_lookup. Qed.

Lemma row_dict_nonempty ws r : max_column ws = 12 → row_dict ws r ≠ ∅.
Proof.
  intros Hm He. pose proof (row_dict_lookup ws r (Some "date") Hm) as H.
  rewrite He, lookup_empty in H. discriminate.
Qed.

(** ** The search loop *)

Lemma search_rows_cons hs date idx row rest :
  search_rows hs date idx (row :: rest)
  = if decide (str (dict_get (dict_of_items (zip hs row)) (Some "date") (Some ""))
               = date)
    then Some (idx, dict_of_items (zip hs row))
    else search_rows hs date (S idx) rest.
Proof. reflexivity. Qed.

(** On a ledger the search loop is [first_match]. *)
Lemma search_rows_first_match ws date idx n :
  max_column ws = 12 →
  search_rows headers_row date idx (row_values ws <$> seq idx n)
  = (λ r, (r, row_dict ws r)) <$> first_match ws date idx n.
Proof.
  intros Hm. revert idx. induction n as [|n IH]; intros idx; [done|].
  change (seq idx (S n)) with (idx :: seq (S idx) n).
  rewrite fmap_cons, search_rows_cons.
  fold (row_dict ws idx). rewrite row_dict_date by done.
  cbn [first_match]. unfold date_text. case_decide; [done|]. apply IH.
Qed.

(** What [first_match] finds is the first matching row of the range. *)
Lemma first_match_Some ws date idx n r :
  first_match ws date idx n = Some r
  ↔ idx ≤ r < idx + n ∧ date_text ws r = date
    ∧ ∀ j, idx ≤ j < r → date_text ws j ≠ date.
Proof.
  revert idx. induction n as [|n IH]; intros idx; simpl.
  - split; [done | lia].
  - case_decide as Hd.
    + split.
      * intros [= <-]. split; [lia|]. split; [done|]. lia.
      * intros (Hr & _ & Hj). f_equal.
        destruct (decide (idx = r)) as [|Hne]; [done|].
        exfalso. apply (Hj idx); [lia | done].
    + rewrite IH. split.
      * intros (Hr & Ht & Hj). split; [lia|]. split; [done|].
        intros j Hjr. destruct (decide (j = idx)) as [->|]; [done|].
        apply Hj. lia.
      * intros (Hr & Ht & Hj).
        assert (r ≠ idx) by congruence.
        split; [lia|]. split; [done|]. intros j Hjr. apply Hj. lia.
Qed.

Lemma first_match_None ws date idx n :
  first_match ws date idx n = None
  ↔ ∀ j, idx ≤ j < idx + n → date_text ws j ≠ date.
Proof.
  revert idx. induction n as [|n IH]; intros idx; simpl.
  - split; [lia | done].
  - case_decide as Hd.
    + split; [done|]. intros H. exfalso. apply (H idx); [lia | done].
    + rewrite IH. split.
      * intros H j Hj. destruct (decide (j = idx)) as [->|]; [done|].
        apply H. lia.
      * intros H j Hj. apply H. lia.
Qed.

(** ** Saving *)

Lemma stored_ok_cells ws :
  stored_ok ws ↔ ∀ r c, 1 ≤ r → 1 ≤ c → cell_value ws r c ≠ Some "".
Proof.
  unfold stored_ok. rewrite Forall_lookup. split.
  - intros H r c Hr Hc. unfold cell_value.
    destruct (ws !! (r - 1)) as [row|] eqn:E; [|done].
    destruct (row !! (c - 1)) as [v|] eqn:E'; [|done].
    specialize (H _ _ E). rewrite Forall_lookup in H. by apply (H _ _ E').
  - intros H i row Hi. apply Forall_lookup. intros j v Hj.
    specialize (H (S i) (S j) ltac:(lia) ltac:(lia)).
    unfold cell_value in H. simpl in H. by rewrite !Nat.sub_0_r, Hi, Hj in H.
Qed.

Lemma stored_stored v : stored (stored v) = stored v.
Proof. by destruct v as [[|]|]. Qed.

Lemma stored_ne v : stored v ≠ Some "".
Proof. by destruct v as [[|]|]. Qed.

Lemma stored_id v : v ≠ Some "" → stored v = v.
Proof. by destruct v as [[|]|]. Qed.

Lemma stored_ok_save ws : stored_ok (save ws).
Proof.
  apply stored_ok_cells. intros r c _ _. rewrite cell_value_save. apply stored_ne.
Qed.

(** Saving changes nothing in a sheet that reads as a saved file. *)
Lemma save_id ws : stored_ok ws → save ws = ws.
Proof.
  intros H. apply worksheet_ext.
  - apply length_save.
  - intros. apply ncols_save.
  - intros r c Hr Hc. rewrite cell_value_save. apply stored_id.
    by apply stored_ok_cells.
Qed.

Lemma max_column_save ws : max_column (save ws) = max_column ws.
Proof.
  apply Nat.le_antisymm; apply max_column_le;
    (split; [apply max_column_ge_1|]); intros r Hr.
  - rewrite ncols_save. by apply (max_column_le ws (max_column ws)).
  - rewrite <- ncols_save. by apply (max_column_le (save ws) (max_column (save ws))).
Qed.

Lemma headers_ok_save ws : headers_ok ws → headers_ok (save ws).
Proof.
  intros H. apply (headers_ok_intro ws); [done| |].
  - rewrite max_column_save. by apply headers_ok_max_column.
  - intros c Hc. rewrite cell_value_save. apply stored_id.
    pose proof (headers_ok_cell ws c H Hc) as Hh. intros He. rewrite He in Hh.
    destruct Hc as [Hc1 Hc2].
    do 13 (try destruct c as [|c]); simpl in Hh; try lia; discriminate.
Qed.

Lemma ledger_ok_save ws : headers_ok ws → ledger_ok (save ws).
Proof. intros H. split; [by apply headers_ok_save | apply stored_ok_save]. Qed.

(** ** The handlers on a ledger *)

Lemma update_row_write_all ws idx updates :
  update_row ws (header_map headers_row) idx updates
  = (write_all ws idx updates, changes updates).
Proof.
  unfold update_row, write_all, changes.
  assert (∀ acc : worksheet * nat,
    foldl (λ acc kv,
             match header_map headers_row !! Some kv.1 with
             | Some col_idx => (cell acc.1 idx col_idx kv.2, S acc.2)
             | None => acc
             end) acc updates
    = (foldl (λ acc kv, write_slot acc idx kv) acc.1 updates,
       acc.2 + length (filter (λ kv, known kv = true) updates))) as H.
  { induction updates as [|kv ups IH]; intros [w n]; cbn [foldl fst snd].
    - rewrite filter_nil. cbn [length]. f_equal. lia.
    - rewrite IH.
      change (write_slot w idx kv)
        with (match header_map headers_row !! Some kv.1 with
              | Some c => cell w idx c kv.2
              | None => w
              end).
      destruct (header_map headers_row !! Some kv.1) as [c|] eqn:E;
        cbn [fst snd].
      + rewrite filter_cons_True.
        2:{ unfold known, slot_col. rewrite E. by apply bool_decide_eq_true. }
        cbn [length]. f_equal. lia.
      + rewrite filter_cons_False; [done|].
        unfold known, slot_col. rewrite E. rewrite bool_decide_eq_true.
        intros [? ?]. discriminate. }
  rewrite H. cbn [fst snd]. done.
Qed.

Lemma append_row_write_all ws date updates :
  headers_ok ws →
  append_row ws (header_map headers_row) date updates
  = write_all (set_cell ws (length ws + 1) 1 date) (length ws + 1) updates.
Proof.
  intros H. unfold append_row. rewrite headers_ok_max_row by done.
  change (header_map headers_row !! Some "date") with (Some 1).
  done.
Qed.

Lemma search_find_row ws date :
  headers_ok ws →
  search_rows (row_values ws 1) date 2 (iter_rows ws 2)
  = (λ r, (r, row_dict ws r)) <$> find_row ws date.
Proof.
  intros H. rewrite H. unfold iter_rows, find_row.
  replace (S (max_row ws) - 2) with (max_row ws - 1) by lia.
  apply search_rows_first_match. by apply headers_ok_max_column.
Qed.

(** The POST branch of the handler, on a ledger. *)
Lemma manage_post year date updates fs ws :
  isdigit year = true → tracking_file fs year = Some ws → headers_ok ws →
  updates ≠ [] →
  manage_tracking_by_date year date POST updates fs
  = (<[year := Some (post_sheet ws date updates)]> fs,
     post_response ws date updates).
Proof.
  intros Hy Hf Hok Hne. unfold manage_tracking_by_date.
  rewrite Hy, Hf. simpl. rewrite search_find_row by done.
  destruct updates as [|kv ups]; [done|].
  unfold post_sheet, post_response, write_tracking. rewrite Hok.
  destruct (find_row ws date) as [idx|]; simpl.
  - by rewrite update_row_write_all.
  - by rewrite append_row_write_all.
Qed.

(** The GET branch of the handler, on a ledger. *)
Lemma manage_get year date updates fs ws :
  isdigit year = true → tracking_file fs year = Some ws → headers_ok ws →
  manage_tracking_by_date year date GET updates fs = (fs, get_response ws date).
Proof.
  intros Hy Hf Hok. unfold manage_tracking_by_date.
  rewrite Hy, Hf. simpl. rewrite search_find_row by done.
  unfold get_response.
  destruct (find_row ws date) as [r|]; simpl; [|done].
  rewrite decide_False; [done|].
  by apply row_dict_nonempty, headers_ok_max_column.
Qed.

Lemma find_row_Some ws date r :
  headers_ok ws →
  find_row ws date = Some r
  ↔ 2 ≤ r ≤ length ws ∧ date_text ws r = date
    ∧ ∀ j, 2 ≤ j < r → date_text ws j ≠ date.
Proof.
  intros H. unfold find_row. rewrite first_match_Some.
  rewrite headers_ok_max_row by done.
  pose proof (headers_ok_length _ H). split; intros (? & ? & ?); (split; [lia|done]).
Qed.

Lemma find_row_None ws date :
  headers_ok ws →
  find_row ws date = None ↔ ∀ j, 2 ≤ j ≤ length ws → date_text ws j ≠ date.
Proof.
  intros H. unfold find_row. rewrite first_match_None.
  rewrite headers_ok_max_row by done.
  pose proof (headers_ok_length _ H). split; intros Hj j ?; apply Hj; lia.
Qed.

(** ** Writing cells keeps the header *)

Lemma max_column_set_cell ws r c s :
  max_column ws = 12 → 1 ≤ r → 1 ≤ c ≤ 12 → cell_value ws 1 12 ≠ None → 2 ≤ r →
  max_column (set_cell ws r c s) = 12.
Proof.
  intros Hm Hr Hc Hh Hr2. apply Nat.le_antisymm.
  - apply max_column_le. split; [lia|]. intros r' Hr'.
    rewrite ncols_set_cell by lia.
    pose proof (proj1 (max_column_le ws 12) ltac:(lia)) as [_ Hn].
    case_decide; [subst; specialize (Hn r Hr) | specialize (Hn r' Hr')]; lia.
  - apply (cell_value_max_column _ 1); [lia..|].
    rewrite cell_value_set_cell by lia. rewrite decide_False by lia. done.
Qed.

(** Writing below the header row, within its columns, keeps the header. *)
Lemma headers_ok_set_cell ws r c s :
  headers_ok ws → 2 ≤ r → 1 ≤ c ≤ 12 → headers_ok (set_cell ws r c s).
Proof.
  intros H Hr Hc. apply (headers_ok_intro ws); [done| |].
  - apply max_column_set_cell; [by apply headers_ok_max_column|lia..| |lia].
    pose proof (headers_ok_cell ws 12 H ltac:(lia)) as Hh. simpl in Hh.
    intros He. rewrite He in Hh. discriminate.
  - intros c' Hc'. rewrite cell_value_set_cell by lia.
    by rewrite decide_False by lia.
Qed.

Lemma headers_ok_write_slot ws r kv :
  headers_ok ws → 2 ≤ r → headers_ok (write_slot ws r kv).
Proof.
  intros H Hr. unfold write_slot.
  destruct (slot_col kv.1) as [c|] eqn:E; [|done].
  destruct kv.2 as [s|]; simpl; [|done].
  apply headers_ok_set_cell; [done..|]. by apply slot_col_range in E.
Qed.

Lemma headers_ok_write_all ws r updates :
  headers_ok ws → 2 ≤ r → headers_ok (write_all ws r updates).
Proof.
  intros H Hr. revert ws H. unfold write_all.
  induction updates as [|kv ups IH]; intros ws H; simpl; [done|].
  apply IH. by apply headers_ok_write_slot.
Qed.

Lemma length_write_slot ws r kv :
  1 ≤ r ≤ length ws → length (write_slot ws r kv) = length ws.
Proof.
  intros Hr. unfold write_slot.
  destruct (slot_col kv.1) as [c|]; [|done].
  destruct kv.2 as [s|]; simpl; [|done].
  rewrite length_set_cell. lia.
Qed.

Lemma length_write_all ws r updates :
  1 ≤ r ≤ length ws → length (write_all ws r updates) = length ws.
Proof.
  revert ws. unfold write_all.
  induction updates as [|kv ups IH]; intros ws Hr; simpl; [done|].
  rewrite IH; rewrite length_write_slot; done.
Qed.

Lemma cell_value_write_slot ws r kv r' c' :
  1 ≤ r → 1 ≤ r' → 1 ≤ c' →
  r' ≠ r ∨ slot_col kv.1 ≠ Some c' ∨ kv.2 = None →
  cell_value (write_slot ws r kv) r' c' = cell_value ws r' c'.
Proof.
  intros Hr Hr' Hc' Hfr. unfold write_slot.
  destruct (slot_col kv.1) as [c|] eqn:E; [|done].
  destruct kv.2 as [s|]; simpl; [|done].
  rewrite cell_value_set_cell; [|done|apply slot_col_range in E; lia|done..].
  rewrite decide_False; [done|]. intros [-> ->].
  destruct Hfr as [?|[?|?]]; done.
Qed.

(** The update loop leaves alone the other rows, and in its row the columns
    that no key of the body names with a value. *)
Lemma cell_value_write_all ws r updates r' c' :
  1 ≤ r → 1 ≤ r' → 1 ≤ c' →
  r' ≠ r ∨ Forall (λ kv, slot_col kv.1 ≠ Some c' ∨ kv.2 = None) updates →
  cell_value (write_all ws r updates) r' c' = cell_value ws r' c'.
Proof.
  intros Hr Hr' Hc'. revert ws. unfold write_all.
  induction updates as [|kv ups IH]; intros ws Hfr; simpl; [done|].
  rewrite IH.
  - apply cell_value_write_slot; [done..|].
    destruct Hfr as [?|Hf]; [by left|right]. by inversion Hf.
  - destruct Hfr as [?|Hf]; [by left|right]. by inversion Hf.
Qed.

(** ** The sheet after a POST *)

Lemma post_sheet_base ws date updates :
  post_sheet ws date updates
  = save (write_all (base_sheet ws date) (target_row ws date) updates).
Proof. unfold post_sheet, base_sheet, target_row. by destruct (find_row ws date). Qed.

Lemma target_row_range ws date :
  headers_ok ws → 2 ≤ target_row ws date ≤ length (base_sheet ws date).
Proof.
  intros H. unfold target_row, base_sheet.
  destruct (find_row ws date) as [idx|] eqn:E.
  - apply find_row_Some in E; [lia|done].
  - rewrite length_set_cell. pose proof (headers_ok_length _ H). lia.
Qed.

Lemma length_base_sheet ws date :
  length (base_sheet ws date)
  = match find_row ws date with Some _ => length ws | None => length ws + 1 end.
Proof.
  unfold base_sheet. destruct (find_row ws date); [done|].
  rewrite length_set_cell. lia.
Qed.

Lemma headers_ok_base_sheet ws date : headers_ok ws → headers_ok (base_sheet ws date).
Proof.
  intros H. unfold base_sheet. destruct (find_row ws date); [done|].
  apply headers_ok_set_cell; [done| |lia].
  pose proof (headers_ok_length _ H). lia.
Qed.

Lemma cell_value_base_sheet ws date r c :
  1 ≤ r → 1 ≤ c →
  cell_value (base_sheet ws date) r c
  = if decide (find_row ws date = None ∧ r = length ws + 1 ∧ c = 1)
    then Some date else cell_value ws r c.
Proof.
  intros Hr Hc. unfold base_sheet.
  destruct (find_row ws date) as [idx|] eqn:E.
  - rewrite decide_False; [done|]. by intros [? _].
  - rewrite cell_value_set_cell by lia.
    destruct (decide (r = length ws + 1 ∧ c = 1)) as [Hd|Hd].
    + by rewrite decide_True.
    + rewrite decide_False; [done|]. tauto.
Qed.

(** A POST leaves a ledger. *)
Lemma ledger_ok_post_sheet ws date updates :
  headers_ok ws → ledger_ok (post_sheet ws date updates).
Proof.
  intros H. rewrite post_sheet_base. apply ledger_ok_save.
  apply headers_ok_write_all; [by apply headers_ok_base_sheet|].
  by apply target_row_range.
Qed.

Lemma length_post_sheet ws date updates :
  headers_ok ws →
  length (post_sheet ws date updates) = length (base_sheet ws date).
Proof.
  intros H. rewrite post_sheet_base, length_save, length_write_all; [done|].
  pose proof (target_row_range ws date H). lia.
Qed.

Lemma cell_value_post_sheet_frame ws date updates r c :
  headers_ok ws → 1 ≤ r → 1 ≤ c →
  r ≠ target_row ws date
  ∨ Forall (λ kv : string * value, slot_col kv.1 ≠ Some c ∨ kv.2 = None) updates →
  cell_value (post_sheet ws date updates) r c
  = stored (cell_value (base_sheet ws date) r c).
Proof.
  intros H Hr Hc Hfr. rewrite post_sheet_base, cell_value_save.
  rewrite cell_value_write_all; [done| |done..].
  pose proof (target_row_range ws date H). lia.
Qed.

Lemma no_date_key_col1 updates :
  no_date_key updates →
  Forall (λ kv : string * value, slot_col kv.1 ≠ Some 1 ∨ kv.2 = None) updates.
Proof.
  intros Hnd. eapply Forall_impl; [exact Hnd|].
  intros kv Hk. left. intros Hc. by apply slot_col_1 in Hc.
Qed.

Lemma date_text_post_old ws date updates j :
  ledger_ok ws → no_date_key updates → 1 ≤ j ≤ length ws →
  date_text (post_sheet ws date updates) j = date_text ws j.
Proof.
  intros [H Hs] Hnd Hj. unfold date_text. f_equal.
  rewrite cell_value_post_sheet_frame; [|done|lia|lia|].
  2:{ right. by apply no_date_key_col1. }
  rewrite cell_value_base_sheet by lia.
  rewrite decide_False by lia.
  apply stored_id. apply stored_ok_cells; [done|lia..].
Qed.

Lemma date_text_post_new ws date updates :
  ledger_ok ws → no_date_key updates → date ≠ "" → find_row ws date = None →
  date_text (post_sheet ws date updates) (length ws + 1) = date.
Proof.
  intros [H Hs] Hnd Hd Hf. unfold date_text.
  rewrite cell_value_post_sheet_frame; [|done|lia|lia|].
  2:{ right. by apply no_date_key_col1. }
  rewrite cell_value_base_sheet by lia.
  rewrite decide_True by done.
  simpl. by destruct date.
Qed.

(** After a POST without a date key the row of [date] is found where the
    request wrote. *)
Lemma find_row_post_same ws date updates :
  ledger_ok ws → no_date_key updates → date ≠ "" →
  find_row (post_sheet ws date updates) date = Some (target_row ws date).
Proof.
  intros Hok Hnd Hd. pose proof Hok as [H Hs].
  pose proof (ledger_ok_post_sheet ws date updates H) as [H' _].
  pose proof (target_row_range ws date H) as Ht.
  apply find_row_Some; [done|].
  rewrite length_post_sheet by done.
  split; [lia|].
  unfold target_row in *. rewrite length_base_sheet in Ht.
  destruct (find_row ws date) as [idx|] eqn:E.
  - apply find_row_Some in E as (Hr & Htxt & Hmin); [|done].
    split.
    + rewrite date_text_post_old; [done..|lia].
    + intros j Hj. rewrite date_text_post_old; [|done..|lia]. by apply Hmin.
  - split.
    + by apply date_text_post_new.
    + intros j Hj. rewrite date_text_post_old; [|done..|lia].
      apply (proj1 (find_row_None ws date H) E). lia.
Qed.

(** A POST without a date key does not move the row of another date. *)
Lemma find_row_post_other ws date updates d' :
  ledger_ok ws → no_date_key updates → date ≠ "" → d' ≠ date →
  find_row (post_sheet ws date updates) d' = find_row ws d'.
Proof.
  intros Hok Hnd Hd Hne. pose proof Hok as [H Hs].
  pose proof (ledger_ok_post_sheet ws date updates H) as [H' _].
  pose proof (length_post_sheet ws date updates H) as Hlen.
  rewrite length_base_sheet in Hlen.
  destruct (find_row ws d') as [r|] eqn:E.
  - apply find_row_Some in E as (Hr & Htxt & Hmin); [|done].
    apply find_row_Some; [done|]. split; [destruct (find_row ws date); lia|].
    split.
    + rewrite date_text_post_old; [done..|lia].
    + intros j Hj. rewrite date_text_post_old; [|done..|lia]. by apply Hmin.
  - apply find_row_None; [done|]. intros j Hj.
    destruct (decide (j ≤ length ws)) as [Hle|Hgt].
    + rewrite date_text_post_old; [|done..|lia].
      apply (proj1 (find_row_None ws d' H) E). lia.
    + destruct (find_row ws date) eqn:E'; [lia|].
      assert (j = length ws + 1) as -> by lia.
      rewrite date_text_post_new by done. congruence.
Qed.

(** ** A body with one slot *)

Lemma cell_value_post_single ws date k c s r' c' :
  headers_ok ws → slot_col k = Some c → 1 ≤ r' → 1 ≤ c' →
  cell_value (post_sheet ws date [(k, Some s)]) r' c'
  = if decide (r' = target_row ws date ∧ c' = c)
    then stored (Some s)
    else stored (cell_value (base_sheet ws date) r' c').
Proof.
  intros H Hk Hr Hc. rewrite post_sheet_base, cell_value_save.
  pose proof (target_row_range ws date H) as Ht.
  pose proof (slot_col_range _ _ Hk) as Hcr.
  unfold write_all, write_slot. simpl. rewrite Hk.
  rewrite cell_value_set_cell by lia.
  by case_decide.
Qed.

(** Writing the same slot again after a save changes nothing. *)
Lemma save_write_slot_idem (ws : worksheet) r kv :
  1 ≤ r →
  save (write_slot (save (write_slot ws r kv)) r kv) = save (write_slot ws r kv).
Proof.
  intros Hr. unfold write_slot.
  destruct (slot_col kv.1) as [c|] eqn:Hk.
  2:{ apply save_id, stored_ok_save. }
  destruct kv.2 as [s|]; simpl.
  2:{ apply save_id, stored_ok_save. }
  pose proof (slot_col_range _ _ Hk) as Hc.
  apply worksheet_ext.
  - rewrite !length_save, !length_set_cell, length_save, length_set_cell. lia.
  - intros r' Hr'. rewrite !ncols_save, !ncols_set_cell, ncols_save, ncols_set_cell by lia.
    destruct (decide (r' = r)) as [->|Hne].
    + rewrite decide_True by done. lia.
    + rewrite ncols_save, ncols_set_cell by lia. by rewrite decide_False.
  - intros r' c' Hr' Hc'.
    rewrite !cell_value_save, cell_value_set_cell by lia.
    rewrite (cell_value_set_cell ws) by lia.
    case_decide; [done|].
    rewrite cell_value_save, cell_value_set_cell by lia.
    rewrite decide_False by done. apply stored_stored.
Qed.

Lemma post_sheet_idem ws date kv :
  ledger_ok ws → date ≠ "" → kv.1 ≠ "date" →
  post_sheet (post_sheet ws date [kv]) date [kv] = post_sheet ws date [kv].
Proof.
  intros Hok Hd Hk. pose proof Hok as [H Hs].
  assert (no_date_key [kv]) as Hnd by (by constructor).
  unfold post_sheet at 1. rewrite find_row_post_same by done.
  rewrite post_sheet_base. unfold write_all. simpl.
  apply save_write_slot_idem.
  pose proof (target_row_range ws date H). lia.
Qed.

(** ** Reading rows through the service *)

Lemma tracking_file_lookup fs year ws :
  tracking_file fs year = Some ws ↔ fs !! year = Some (Some ws).
Proof.
  unfold tracking_file. destruct (fs !! year) as [[w|]|]; split; congruence.
Qed.

Lemma tracking_file_insert fs year ws :
  tracking_file (<[year := Some ws]> fs) year = Some ws.
Proof. apply tracking_file_lookup. apply lookup_insert_eq. Qed.

Lemma tracking_file_insert_ne fs year y o :
  y ≠ year → tracking_file (<[year := o]> fs) y = tracking_file fs y.
Proof. intros Hne. unfold tracking_file. by rewrite lookup_insert_ne. Qed.

Lemma get_row_find fs year date ws :
  isdigit year = true → tracking_file fs year = Some ws → headers_ok ws →
  get_row fs year date = (λ r, row_dict ws r) <$> find_row ws date.
Proof.
  intros Hy Hf H. unfold get_row. rewrite (manage_get _ _ _ _ ws) by done.
  unfold get_response. by destruct (find_row ws date).
Qed.

Lemma get_row_isdigit fs year date d : get_row fs year date = Some d → isdigit year = true.
Proof.
  unfold get_row, manage_tracking_by_date.
  destruct (isdigit year); [done|]. simpl. discriminate.
Qed.

Lemma find_row_nonempty ws date r :
  ledger_ok ws → find_row ws date = Some r → date ≠ "".
Proof.
  intros [H Hs] (Hr & Ht & _)%find_row_Some; [|done]. intros ->.
  unfold date_text in Ht.
  pose proof (proj1 (stored_ok_cells ws) Hs r 1 ltac:(lia) ltac:(lia)) as Hc.
  destruct (cell_value ws r 1) as [s|]; simpl in Ht; [|discriminate].
  by subst s.
Qed.

(** Claim C1.  Upsert is idempotent: on a year whose ledger exists, a POST
    of the body [{slot: v}] for [date], sent a second time, leaves the file
    system, and so the row of the ledger, exactly as the first one left it.
    [slot] is a slot key, not ['date'], and [date] is a segment of the URL,
    hence not empty. *)
Theorem update_status_idempotent fs year date slot v ws :
  tracking_file fs year = Some ws → ledger_ok ws → date ≠ "" → slot ≠ "date" →
  let once := (manage_tracking_by_date year date POST [(slot, v)] fs).1 in
  (manage_tracking_by_date year date POST [(slot, v)] once).1 = once.
Proof.
  intros Hf Hok Hd Hs once. subst once.
  destruct (isdigit year) eqn:Hy.
  2:{ unfold manage_tracking_by_date. by rewrite !Hy. }
  pose proof Hok as [H _].
  rewrite (manage_post _ _ _ _ ws Hy Hf H); [|discriminate]. cbn [fst].
  rewrite (manage_post _ _ _ _ (post_sheet ws date [(slot, v)]));
    [|done|apply tracking_file_insert|by apply ledger_ok_post_sheet|discriminate].
  cbn [fst]. rewrite insert_insert_eq.
  by rewrite (post_sheet_idem ws date (slot, v)).
Qed.

(** Claim C1 on a new ledger. *)
Lemma update_status_idempotent_witness :
  let once :=
    (manage_tracking_by_date "2026" "2025-10-01" POST
       [("file_1", Some "cm.csv")] fresh_ledger).1 in
  (manage_tracking_by_date "2026" "2025-10-01" POST
     [("file_1", Some "cm.csv")] once).1 = once.
Proof.
  apply (update_status_idempotent fresh_ledger "2026" "2025-10-01" "file_1"
           (Some "cm.csv") [headers_row]).
  - reflexivity.
  - split; [reflexivity | repeat constructor; discriminate].
  - discriminate.
  - discriminate.
Defined.

(** Claim C2.  A partial update preserves the other slots: when the row of
    [date] reads as [d] and has the slot [a], a POST of [{a: x'}] with a
    non-empty string [x'] answers 200 and the row then reads as [d] with [a]
    set to [x']; every other member keeps the value it had, and the request
    says nothing about them. *)
Theorem partial_update_keeps_other_slots fs year date ws a x x' d :
  tracking_file fs year = Some ws → ledger_ok ws →
  get_row fs year date = Some d → d !! Some a = Some x →
  a ≠ "date" → x' ≠ "" →
  let r := manage_tracking_by_date year date POST [(a, Some x')] fs in
  status_code r.2 = 200
  ∧ get_row r.1 year date = Some (<[Some a := Some x']> d).
Proof.
  intros Hf Hok Hg Ha Had Hx r. subst r.
  pose proof Hok as [H Hs].
  pose proof (get_row_isdigit _ _ _ _ Hg) as Hy.
  rewrite (get_row_find _ _ _ ws) in Hg by done.
  destruct (find_row ws date) as [idx|] eqn:Hfind; [|done].
  simpl in Hg. injection Hg as <-.
  pose proof (find_row_nonempty _ _ _ Hok Hfind) as Hd.
  pose proof (headers_ok_max_column _ H) as Hm.
  rewrite row_dict_lookup in Ha by done.
  destruct (slot_col a) as [c|] eqn:Hc; [|done].
  rewrite (manage_post _ _ _ _ ws Hy Hf H); [|discriminate]. cbn [fst snd].
  split. { unfold post_response. by rewrite Hfind. }
  assert (no_date_key [(a, Some x')]) as Hnd by (by constructor).
  pose proof (ledger_ok_post_sheet ws date [(a, Some x')] H) as [H' _].
  rewrite (get_row_find _ _ _ (post_sheet ws date [(a, Some x')]));
    [|done|apply tracking_file_insert|done].
  rewrite find_row_post_same by done.
  unfold target_row. rewrite Hfind. simpl. f_equal.
  pose proof (proj1 (find_row_Some ws date idx H) Hfind) as (Hr & _ & _).
  apply map_eq. intros key.
  rewrite row_dict_lookup by (by apply headers_ok_max_column).
  destruct key as [k|].
  2:{ rewrite lookup_insert_ne by done. by rewrite row_dict_lookup. }
  destruct (decide (k = a)) as [->|Hne].
  - rewrite lookup_insert_eq, Hc. simpl. f_equal.
    pose proof (slot_col_range _ _ Hc).
    rewrite (cell_value_post_single ws date a c) by (done || lia).
    unfold target_row. rewrite Hfind. rewrite decide_True by done.
    by destruct x'.
  - rewrite lookup_insert_ne by congruence.
    rewrite row_dict_lookup by done.
    destruct (slot_col k) as [c'|] eqn:Hc'; [|done]. simpl. f_equal.
    pose proof (slot_col_range _ _ Hc').
    rewrite (cell_value_post_single ws date a c) by (done || lia).
    unfold target_row. rewrite Hfind.
    rewrite decide_False.
    2:{ intros [_ ->]. apply Hne. by apply (slot_col_inj _ _ c). }
    rewrite cell_value_base_sheet by lia.
    rewrite decide_False by (intros [? _]; congruence).
    apply stored_id. apply stored_ok_cells; [done|lia..].
Qed.

(** Claim C2 on a row that holds [file_1]. *)
Lemma partial_update_keeps_other_slots_witness :
  let r := manage_tracking_by_date "2026" "2025-10-01" POST
             [("file_2", Some "fo.csv")] one_row_ledger in
  status_code r.2 = 200
  ∧ get_row r.1 "2026" "2025-10-01"
    = Some (<[Some "file_2" := Some "fo.csv"]>
              (row_dict one_row_sheet 2)).
Proof.
  apply (partial_update_keeps_other_slots one_row_ledger "2026" "2025-10-01"
           one_row_sheet "file_2" None "fo.csv").
  - reflexivity.
  - split; [reflexivity | repeat constructor; discriminate].
  - reflexivity.
  - reflexivity.
  - discriminate.
  - discriminate.
Defined.

(** ** The date column *)

(** One POST without a date key: no row is lost, date cells stay, dates
    stay unique. *)
Lemma post_sheet_dates ws date updates :
  ledger_ok ws → date ≠ "" → no_date_key updates →
  let ws' := post_sheet ws date updates in
  ledger_ok ws' ∧ length ws ≤ length ws'
  ∧ (∀ r, 1 ≤ r ≤ length ws → cell_value ws' r 1 = cell_value ws r 1)
  ∧ (dates_unique ws → dates_unique ws').
Proof.
  intros Hok Hd Hnd ws'. subst ws'. pose proof Hok as [H Hs].
  pose proof (length_post_sheet ws date updates H) as Hlen.
  rewrite length_base_sheet in Hlen.
  split; [by apply ledger_ok_post_sheet|].
  split; [destruct (find_row ws date); lia|].
  split.
  - intros r Hr.
    rewrite cell_value_post_sheet_frame; [|done|lia|lia|].
    2:{ right. by apply no_date_key_col1. }
    rewrite cell_value_base_sheet by lia. rewrite decide_False by lia.
    apply stored_id. apply stored_ok_cells; [done|lia..].
  - intros Hu i j Hi Hj Heq.
    destruct (decide (i ≤ length ws)) as [Hil|Hig];
      destruct (decide (j ≤ length ws)) as [Hjl|Hjg].
    + rewrite !date_text_post_old in Heq by (done || lia).
      apply Hu; [lia..|done].
    + destruct (find_row ws date) eqn:E; [lia|].
      assert (j = length ws + 1) as -> by lia.
      rewrite date_text_post_new in Heq by done.
      rewrite date_text_post_old in Heq by (done || lia).
      exfalso. apply (proj1 (find_row_None ws date H) E i); [lia|done].
    + destruct (find_row ws date) eqn:E; [lia|].
      assert (i = length ws + 1) as -> by lia.
      rewrite date_text_post_new in Heq by done.
      rewrite date_text_post_old in Heq by (done || lia).
      exfalso. apply (proj1 (find_row_None ws date H) E j); [lia|done].
    + destruct (find_row ws date); lia.
Qed.

Lemma manage_post_sheet year date updates fs ws :
  tracking_file fs year = Some ws → headers_ok ws →
  ∃ ws', tracking_file (manage_tracking_by_date year date POST updates fs).1 year
         = Some ws'
         ∧ (ws' = ws ∨ ws' = post_sheet ws date updates).
Proof.
  intros Hf H. destruct (isdigit year) eqn:Hy.
  2:{ exists ws. split; [|by left].
      unfold manage_tracking_by_date. by rewrite Hy. }
  destruct updates as [|kv ups].
  { exists ws. split; [|by left].
    unfold manage_tracking_by_date. rewrite Hy, Hf. done. }
  rewrite (manage_post _ _ _ _ ws Hy Hf H); [|discriminate].
  eexists. split; [apply tracking_file_insert|by right].
Qed.




(** Claim C8 as stated fails: a string of five digits is not a well-formed
    4-digit number, yet its folder is created. *)
Lemma five_digit_year_accepted :
  ¬ (∀ (year : string) (fs : filesystem),
       spec_valid_year year = false →
       create_year_folder year fs = (fs, Response 400 "error" Message)).
Proof.
  intros H. specialize (H "20245" ∅ eq_refl).
  apply (f_equal fst) in H. 
  apply (f_equal (λ m : filesystem, m !! "20245")) in H.
  vm_compute in H. discriminate H.
Qed.

(** Claim C8, amended.  A year that is not a non-empty string of digits is
    answered 400 with status ["error"], and nothing is created. *)
Theorem create_year_folder_rejects_non_digits year fs :
  isdigit year = false →
  create_year_folder year fs = (fs, Response 400 "error" Message).
Proof. intros Hy. unfold create_year_folder. by rewrite Hy. Qed.

(** Claim C8, amended, on a year with a letter. *)
Lemma create_year_folder_rejects_non_digits_witness :
  create_year_folder "20a4" ∅ = (∅, Response 400 "error" Message).
Proof.
  apply (create_year_folder_rejects_non_digits "20a4" ∅). reflexivity.
Defined.

(** Any string of digits is accepted, whatever its length: the folder
    exists after the call, which answers 201 or 200. *)
Lemma create_year_folder_accepts_digits year fs :
  isdigit year = true →
  folder_exists (create_year_folder year fs).1 year = true
  ∧ (status_code (create_year_folder year fs).2 = 201
     ∨ status_code (create_year_folder year fs).2 = 200).
Proof.
  intros Hy. unfold create_year_folder. rewrite Hy. cbn [negb].
  destruct (folder_exists fs year) eqn:He; cbn [negb fst snd status_code].
  - split; [done | by right].
  - split; [|by left]. unfold folder_exists, makedirs.
    apply bool_decide_eq_true. rewrite lookup_insert_eq. by eexists.
Qed.

Example isdigit_examples :
  (isdigit "2024", isdigit "07", isdigit "20245", isdigit "", isdigit "20a4")
  = (true, true, true, false, false).
Proof. reflexivity. Qed.



(** ** Keys that name no column *)

(** The update loop does the same on the body without its unknown keys. *)
Lemma write_all_known ws r updates :
  write_all ws r updates = write_all ws r (filter (λ kv, known kv = true) updates).
Proof.
  revert ws. unfold write_all.
  induction updates as [|kv ups IH]; intros ws; [done|].
  cbn [foldl]. destruct (known kv) eqn:Hk.
  - rewrite filter_cons_True by done. cbn [foldl]. apply IH.
  - rewrite filter_cons_False by congruence.
    assert (write_slot ws r kv = ws) as ->; [|apply IH].
    unfold write_slot. unfold known in Hk.
    apply bool_decide_eq_false in Hk.
    destruct (slot_col kv.1); [|done]. exfalso. apply Hk. eauto.
Qed.

Lemma changes_known updates :
  changes (filter (λ kv, known kv = true) updates) = changes updates.
Proof.
  unfold changes. f_equal.
  induction updates as [|kv ups IH]; [done|].
  destruct (known kv) eqn:Hk.
  - rewrite filter_cons_True by done. rewrite filter_cons_True by done. by f_equal.
  - by rewrite filter_cons_False by congruence.
Qed.

Lemma post_sheet_known ws date updates :
  post_sheet ws date updates
  = post_sheet ws date (filter (λ kv, known kv = true) updates).
Proof.
  unfold post_sheet.
  destruct (find_row ws date); by rewrite (write_all_known _ _ updates).
Qed.

Lemma set_cell_new_row (ws : worksheet) s :
  set_cell ws (length ws + 1) 1 s = ws ++ [[Some s]].
Proof.
  unfold set_cell.
  replace (length ws + 1 - length ws) with 1 by lia.
  replace (length ws + 1 - 1) with (length ws + 0) by lia.
  cbn [replicate]. rewrite alter_app_r. done.
Qed.

Lemma save_app (ws1 ws2 : worksheet) : save (ws1 ++ ws2) = save ws1 ++ save ws2.
Proof. unfold save. apply map_app. Qed.



(** ** The value of a slot *)

Lemma cell_value_beyond (ws : worksheet) r c :
  length ws < r → cell_value ws r c = None.
Proof.
  intros Hr. unfold cell_value.
  rewrite (proj2 (lookup_ge_None ws (r - 1))); [done|lia].
Qed.

Lemma read_slot_status fs year date k ws :
  isdigit year = true → tracking_file fs year = Some ws → headers_ok ws →
  read_slot fs year date k = slot_status ws date k.
Proof.
  intros Hy Hf H. unfold read_slot, slot_status.
  rewrite (get_row_find _ _ _ ws) by done.
  destruct (find_row ws date) as [r|]; simpl.
  - unfold dict_get. rewrite row_dict_lookup by (by apply headers_ok_max_column).
    by destruct (slot_col k).
  - unfold dict_get. by rewrite lookup_empty.
Qed.

(** A POST of one slot with a non-empty string changes the value read for
    that slot of that date, and no other slot. *)
Lemma slot_status_post_single ws date k c s d' k' :
  ledger_ok ws → date ≠ "" → slot_col k = Some c → k ≠ "date" → s ≠ "" →
  k' ≠ "date" →
  slot_status (post_sheet ws date [(k, Some s)]) d' k'
  = if decide (d' = date ∧ k' = k) then Some s else slot_status ws d' k'.
Proof.
  intros Hok Hd Hk Hkd Hs Hk'. pose proof Hok as [H Hst].
  assert (no_date_key [(k, Some s)]) as Hnd by (by constructor).
  pose proof (target_row_range ws date H) as Ht.
  rewrite length_base_sheet in Ht.
  unfold slot_status.
  destruct (slot_col k') as [c'|] eqn:Hc'.
  2:{ rewrite decide_False by (intros [_ ->]; congruence).
      by destruct (find_row _ d'), (find_row ws d'). }
  pose proof (slot_col_range _ _ Hc') as Hc'r.
  assert (c' ≠ 1) as Hc1 by (intros ->; by apply slot_col_1 in Hc').
  destruct (decide (d' = date)) as [->|Hne].
  - rewrite find_row_post_same by done.
    rewrite (cell_value_post_single ws date k c) by (done || lia).
    destruct (decide (k' = k)) as [->|Hkne].
    + assert (c' = c) as -> by congruence.
      rewrite !decide_True by done. by destruct s.
    + rewrite decide_False.
      2:{ intros [_ ->]. apply Hkne. by apply (slot_col_inj _ _ c). }
      rewrite decide_False by tauto.
      rewrite cell_value_base_sheet by lia. rewrite decide_False by lia.
      unfold target_row in *.
      destruct (find_row ws date) as [idx|] eqn:E.
      * apply stored_id. apply stored_ok_cells; [done|lia..].
      * rewrite cell_value_beyond by lia. done.
  - rewrite decide_False by tauto.
    rewrite find_row_post_other by done.
    destruct (find_row ws d') as [r|] eqn:E; [|done].
    apply find_row_Some in E as (Hr & Htxt & _); [|done].
    rewrite (cell_value_post_single ws date k c) by (done || lia).
    rewrite decide_False.
    2:{ intros [-> _]. unfold target_row in *.
        destruct (find_row ws date) as [idx|] eqn:E'; [|lia].
        apply find_row_Some in E' as (_ & Htxt' & _); [|done]. congruence. }
    rewrite cell_value_base_sheet by lia. rewrite decide_False by lia.
    apply stored_id. apply stored_ok_cells; [done|lia..].
Qed.

(** A null value is not written: the slot keeps what it holds. *)
Example null_leaves_slot :
  read_slot (manage_tracking_by_date "2026" "2025-10-01" POST
               [("file_1", None)] one_row_ledger).1
    "2026" "2025-10-01" "file_1"
  = Some "cm.csv".
Proof. reflexivity. Qed.

(** The empty string is written, and reads as an empty cell afterwards. *)
Example empty_string_clears_slot :
  read_slot (manage_tracking_by_date "2026" "2025-10-01" POST
               [("file_1", Some "")] one_row_ledger).1
    "2026" "2025-10-01" "file_1"
  = None.
Proof. reflexivity. Qed.

(** Claim C3 as stated fails on the store: a POST that gives the empty
    string to a filled slot leaves the slot empty. *)
Lemma filled_slot_emptied_by_empty_string :
  ¬ (∀ (fs : filesystem) (year date : string)
       (updates : list (string * value)) (k : string),
       truthy (read_slot fs year date k) = true →
       truthy (read_slot (manage_tracking_by_date year date POST updates fs).1
                 year date k) = true).
Proof.
  intros H.
  specialize (H one_row_ledger "2026" "2025-10-01" [("file_1", Some "")] "file_1").
  vm_compute in H. specialize (H eq_refl). discriminate H.
Qed.

End LedgerFacts.

(** * The drivers *)

Module DriverFacts.
Import Py Openpyxl Main Requests DataDownloader Ledger Passes LedgerFacts.

(** ** One pass of [process_date] *)

(** What [process_date] keeps of the answer is the row a client reads. *)
Lemma files_status_get_row year date w :
  match get_tracking_status year date w with
  | Some (Some d) => d
  | _ => ∅
  end = default ∅ (get_row (files w) year date).
Proof.
  unfold get_tracking_status, get, get_row, manage_tracking_by_date.
  destruct (isdigit year); [|done]. cbn [negb].
  destruct (tracking_file (files w) year) as [ws|]; [|done].
  destruct (search_rows _ _ _ _) as [[idx d]|]; [|done].
  by destruct (decide (d = ∅)).
Qed.

(** [process_date] decides from the status read at the start: it calls the
    downloader for the pending slots, in order, and posts the results that
    count as true. *)
Lemma process_date_unfold download year date w :
  process_date download year date w
  = let ks := pending (files w) year date download_tasks in
    let got := fetched download date ks in
    World (post_results download year date got (files w))
          (posted w ++ (result_post download year date <$> got))
          (invoked w ++ ((λ k, (k, date)) <$> ks)).
Proof.
  unfold process_date. rewrite files_status_get_row.
  unfold pending, read_slot.
  generalize (default ∅ (get_row (files w) year date)). intros fstat.
  generalize download_tasks. intros tasks.
  match goal with |- foldl ?f _ _ = _ => set (step := f) end.
  revert w.
  induction tasks as [|k tasks IH]; intros [fs ps inv].
  - cbn. by rewrite !app_nil_r.
  - change (foldl step (World fs ps inv) (k :: tasks))
      with (foldl step (step (World fs ps inv) k) tasks).
    rewrite IH. clear IH. subst step. cbv beta.
    destruct (truthy (dict_get fstat (Some k) None)) eqn:Hst; cbv iota.
    + by rewrite filter_cons_False by congruence.
    + rewrite filter_cons_True by done.
      unfold call. cbv iota beta.
      destruct (truthy (download k date)) eqn:Hdl; cbv iota.
      * unfold update_tracking_status, post.
        cbn [fst snd files posted invoked].
        unfold fetched. rewrite filter_cons_True by done.
        cbn [foldl fmap list_fmap]. f_equal.
        -- by rewrite <- app_assoc.
        -- by rewrite <- app_assoc.
      * cbn [files posted invoked].
        unfold fetched. rewrite filter_cons_False by congruence.
        cbn [foldl fmap list_fmap]. f_equal.
        by rewrite <- app_assoc.
Qed.

Lemma task_known k :
  k ∈ download_tasks → k ≠ "date" ∧ ∃ c, slot_col k = Some c.
Proof.
  unfold download_tasks. intros Hk.
  repeat (apply elem_of_cons in Hk as [->|Hk]; [split; [done|by eexists]|]).
  by apply elem_of_nil in Hk.
Qed.

Lemma truthy_str v : truthy v = true → ∃ s, v = Some s ∧ s ≠ "" ∧ str v = s.
Proof.
  destruct v as [s|]; [|done]. simpl. intros Hs. exists s.
  split; [done|]. split; [|done]. intros ->. done.
Qed.

(** The slots read after the posts of a pass. *)
Lemma post_results_spec download year date ks fs ws :
  isdigit year = true → tracking_file fs year = Some ws → ledger_ok ws →
  date ≠ "" → Forall (λ k, k ∈ download_tasks) ks →
  Forall (λ k, truthy (download k date) = true) ks →
  ∃ ws', tracking_file (post_results download year date ks fs) year = Some ws'
    ∧ ledger_ok ws'
    ∧ ∀ d' k', k' ≠ "date" →
        slot_status ws' d' k'
        = if decide (d' = date ∧ k' ∈ ks) then download k' date
          else slot_status ws d' k'.
Proof.
  intros Hy Hf Hok Hd Hks Hdl. revert fs ws Hf Hok.
  induction ks as [|k ks IH]; intros fs ws Hf Hok.
  - exists ws. split; [done|]. split; [done|]. intros d' k' _.
    rewrite decide_False; [done|]. intros [_ Hin]. by apply elem_of_nil in Hin.
  - apply Forall_cons in Hks as [Hk Hks]. apply Forall_cons in Hdl as [Hdk Hdl].
    destruct (task_known k Hk) as [Hkd [c Hc]].
    destruct (truthy_str _ Hdk) as (s & Hv & Hs & Hstr).
    pose proof Hok as [H _].
    unfold post_results. cbn [foldl].
    rewrite (manage_post _ _ _ _ ws Hy Hf H); [|discriminate]. cbn [fst].
    rewrite Hstr.
    destruct (IH Hks Hdl (<[year := Some (post_sheet ws date [(k, Some s)])]> fs)
                (post_sheet ws date [(k, Some s)]))
      as (ws' & Hf' & Hok' & Hst').
    { apply tracking_file_insert. }
    { by apply ledger_ok_post_sheet. }
    exists ws'. split; [exact Hf'|]. split; [exact Hok'|].
    intros d' k' Hk'. rewrite Hst' by done.
    rewrite (slot_status_post_single ws date k c) by done.
    destruct (decide (d' = date ∧ k' ∈ ks)) as [[-> Hin]|Hn1].
    + rewrite decide_True; [done|]. split; [done|]. by right.
    + destruct (decide (d' = date ∧ k' = k)) as [[-> ->]|Hn2].
      * rewrite decide_True; [done|]. split; [done|]. by left.
      * rewrite decide_False; [done|]. intros [-> Hin].
        apply elem_of_cons in Hin as [->|Hin]; tauto.
Qed.

(** One pass over [date]: the calls made, the bodies posted, and the slots
    read afterwards. *)
Lemma process_date_spec download year date w ws :
  isdigit year = true → tracking_file (files w) year = Some ws → ledger_ok ws →
  date ≠ "" →
  let w' := process_date download year date w in
  let ks := pending (files w) year date download_tasks in
  let got := fetched download date ks in
  invoked w' = invoked w ++ ((λ k, (k, date)) <$> ks)
  ∧ posted w' = posted w ++ (result_post download year date <$> got)
  ∧ ∃ ws', tracking_file (files w') year = Some ws' ∧ ledger_ok ws'
      ∧ ∀ d' k', k' ≠ "date" →
          read_slot (files w') year d' k'
          = if decide (d' = date ∧ k' ∈ got) then download k' date
            else read_slot (files w) year d' k'.
Proof.
  intros Hy Hf Hok Hd w' ks got. subst w'.
  rewrite process_date_unfold. cbn [files posted invoked]. fold ks. fold got.
  split; [done|]. split; [done|].
  destruct (post_results_spec download year date got (files w) ws)
    as (ws' & Hf' & Hok' & Hst'); [done..| | |].
  { subst got ks. unfold fetched, pending. apply Forall_forall.
    intros k Hk. apply list_elem_of_filter in Hk as [_ Hk].
    by apply list_elem_of_filter in Hk as [_ Hk]. }
  { subst got. unfold fetched. apply Forall_forall.
    intros k Hk. by apply list_elem_of_filter in Hk as [Hk _]. }
  exists ws'. split; [done|]. split; [done|]. intros d' k' Hk'.
  rewrite (read_slot_status _ _ _ _ ws') by (done || apply Hok').
  rewrite (read_slot_status _ _ _ _ ws) by (done || apply Hok).
  by apply Hst'.
Qed.

Lemma read_slot_truthy_isdigit fs year date k :
  truthy (read_slot fs year date k) = true → isdigit year = true.
Proof.
  unfold read_slot. destruct (get_row fs year date) as [d|] eqn:E.
  - intros _. by apply get_row_isdigit in E.
  - simpl. unfold dict_get. by rewrite lookup_empty.
Qed.

(** One pass keeps every filled slot and posts non-empty strings only. *)
Lemma process_date_keeps_filled download year date w ws :
  isdigit year = true → tracking_file (files w) year = Some ws → ledger_ok ws →
  date ≠ "" →
  let w' := process_date download year date w in
  (∃ ws', tracking_file (files w') year = Some ws' ∧ ledger_ok ws')
  ∧ (∃ new, posted w' = posted w ++ new ∧ Forall nonempty_payload new)
  ∧ ∀ d' k', k' ≠ "date" → truthy (read_slot (files w) year d' k') = true →
      read_slot (files w') year d' k' = read_slot (files w) year d' k'.
Proof.
  intros Hy Hf Hok Hd w'.
  destruct (process_date_spec download year date w ws Hy Hf Hok Hd)
    as (_ & Hp & ws' & Hf' & Hok' & Hrd).
  fold w' in Hp, Hf', Hrd.
  split; [by exists ws'|]. split.
  - eexists. split; [exact Hp|]. apply Forall_fmap, Forall_forall.
    intros k Hk. unfold fetched in Hk. apply list_elem_of_filter in Hk as [Hk _].
    unfold nonempty_payload, result_post. simpl. constructor; [|constructor].
    cbn [snd]. destruct (truthy_str _ Hk) as (s & Hv & Hs & Hstr).
    rewrite Hstr. by rewrite Hv in Hk.
  - intros d' k' Hk' Htr. rewrite Hrd by done.
    rewrite decide_False; [done|]. intros [-> Hin].
    unfold fetched in Hin. apply list_elem_of_filter in Hin as [_ Hin].
    unfold pending in Hin. apply list_elem_of_filter in Hin as [Hin _].
    congruence.
Qed.

(** Claim C3, amended.  The driver [process_date] keeps filled slots: over a
    pass on any dates, a slot that reads as non-empty before the pass reads
    the same after it, and every body the pass posts carries non-empty
    strings only. *)
Theorem filled_slots_survive_passes download year dates w ws d' k' :
  tracking_file (files w) year = Some ws → ledger_ok ws →
  Forall (λ d, d ≠ "") dates → k' ≠ "date" →
  truthy (read_slot (files w) year d' k') = true →
  let w' := run_dates download year dates w in
  read_slot (files w') year d' k' = read_slot (files w) year d' k'
  ∧ ∃ new, posted w' = posted w ++ new ∧ Forall nonempty_payload new.
Proof.
  intros Hf Hok Hdates Hk' Htr w'. subst w'.
  pose proof (read_slot_truthy_isdigit _ _ _ _ Htr) as Hy.
  revert w ws Hf Hok Htr.
  induction Hdates as [|date dates Hd _ IH]; intros w ws Hf Hok Htr.
  { split; [done|]. exists []. by rewrite app_nil_r. }
  unfold run_dates. cbn [foldl].
  destruct (process_date_keeps_filled download year date w ws Hy Hf Hok Hd)
    as ((ws1 & Hf1 & Hok1) & (new1 & Hp1 & Hn1) & Hkeep).
  specialize (Hkeep d' k' Hk' Htr).
  destruct (IH (process_date download year date w) ws1 Hf1 Hok1)
    as (Hrd & new & Hp & Hn).
  { by rewrite Hkeep. }
  split.
  - unfold run_dates in Hrd. by rewrite Hrd.
  - exists (new1 ++ new). split.
    + unfold run_dates in Hp. by rewrite Hp, Hp1, app_assoc.
    + by apply Forall_app.
Qed.

(** Claim C3, amended, on a pass over two dates where every download
    fails. *)
Lemma filled_slots_survive_passes_witness :
  let w' := run_dates no_data "2026" ["2025-10-01"; "2025-10-02"] one_row_world in
  read_slot (files w') "2026" "2025-10-01" "file_1"
  = read_slot (files one_row_world) "2026" "2025-10-01" "file_1"
  ∧ ∃ new, posted w' = posted one_row_world ++ new
           ∧ Forall nonempty_payload new.
Proof.
  apply (filled_slots_survive_passes no_data "2026" ["2025-10-01"; "2025-10-02"]
           one_row_world one_row_sheet "2025-10-01" "file_1").
  - reflexivity.
  - split; [reflexivity | repeat constructor; discriminate].
  - repeat constructor; discriminate.
  - discriminate.
  - reflexivity.
Defined.

(** Claim C6.  In the loops of [download_main.py], when the slot reads as
    empty and the downloader returns [None], the body of the loop still calls
    the downloader once and posts an update for the slot, with the text
    ["None"]; the slot then reads as that string, which counts as filled. *)
Theorem failed_download_writes_placeholder download file_key year date w ws :
  isdigit year = true → tracking_file (files w) year = Some ws → ledger_ok ws →
  date ≠ "" → file_key ≠ "date" → slot_col file_key ≠ None →
  truthy (read_slot (files w) year date file_key) = false →
  download file_key date = None →
  ∃ w', DownloadMain.loop_body download file_key year date w = Some w'
    ∧ invoked w' = invoked w ++ [(file_key, date)]
    ∧ posted w' = posted w ++ [(year, date, [(file_key, Some "None")])]
    ∧ read_slot (files w') year date file_key = Some "None"
    ∧ truthy (read_slot (files w') year date file_key) = true.
Proof.
  intros Hy Hf Hok Hd Hkd Hkn Hempty Hdl. pose proof Hok as [H _].
  destruct (slot_col file_key) as [c|] eqn:Hc; [clear Hkn|done].
  assert (∀ w1 : world, files w1 = files w →
    read_slot (post year date [(file_key, Some "None")] w1).1.(files)
      year date file_key = Some "None") as Hafter.
  { intros w1 Hw1. unfold post. cbn [fst files]. rewrite Hw1.
    rewrite (manage_post _ _ _ _ ws Hy Hf H); [|discriminate]. cbn [fst].
    rewrite (read_slot_status _ _ _ _ (post_sheet ws date [(file_key, Some "None")]));
      [|done|apply tracking_file_insert|by apply ledger_ok_post_sheet].
    rewrite (slot_status_post_single ws date file_key c) by done.
    by rewrite decide_True. }
  unfold DownloadMain.loop_body, get.
  rewrite (manage_get _ _ _ _ ws Hy Hf H). cbn [snd].
  rewrite (read_slot_status _ _ _ _ ws Hy Hf H) in Hempty.
  unfold slot_status in Hempty. rewrite Hc in Hempty.
  unfold get_response.
  destruct (find_row ws date) as [r|] eqn:Hfind; cbn [status_code body Nat.eqb].
  - rewrite row_dict_lookup by (by apply headers_ok_max_column).
    rewrite Hc. cbn [fmap option_fmap option_map]. rewrite Hempty.
    unfold call. rewrite Hdl. cbn [str].
    eexists. split; [reflexivity|]. split; [done|]. split; [done|].
    rewrite Hafter by done. done.
  - unfold call. rewrite Hdl. cbn [str].
    eexists. split; [reflexivity|]. split; [done|]. split; [done|].
    rewrite Hafter by done. done.
Qed.

(** Claim C6 on a new ledger. *)
Lemma failed_download_writes_placeholder_witness :
  ∃ w', DownloadMain.loop_body no_data "file_1" "2026" "2025-10-01" fresh_world
        = Some w'
    ∧ invoked w' = invoked fresh_world ++ [("file_1", "2025-10-01")]
    ∧ posted w'
      = posted fresh_world ++ [("2026", "2025-10-01", [("file_1", Some "None")])]
    ∧ read_slot (files w') "2026" "2025-10-01" "file_1" = Some "None"
    ∧ truthy (read_slot (files w') "2026" "2025-10-01" "file_1") = true.
Proof.
  apply (failed_download_writes_placeholder no_data "file_1" "2026" "2025-10-01"
           fresh_world [headers_row]).
  - reflexivity.
  - reflexivity.
  - split; [reflexivity | repeat constructor; discriminate].
  - discriminate.
  - discriminate.
  - discriminate.
  - reflexivity.
  - reflexivity.
Defined.

(** Claim C7.  With [process_date], for a slot [k] of its tasks that reads
    as empty: a first pass whose download returns [None] calls the
    downloader, posts nothing for [k] and leaves it empty; a second pass
    whose download returns the path [p] calls the downloader again and
    leaves [k] reading [p]; a third pass, whatever its downloader, does not
    call it for [k], posts nothing for [k] and leaves [p] in place. *)
Theorem retry_fills_and_filled_is_terminal
    download1 download2 download3 year date k p w ws :
  isdigit year = true → tracking_file (files w) year = Some ws → ledger_ok ws →
  date ≠ "" → k ∈ download_tasks →
  truthy (read_slot (files w) year date k) = false →
  download1 k date = None → download2 k date = Some p → p ≠ "" →
  let w1 := process_date download1 year date w in
  let w2 := process_date download2 year date w1 in
  let w3 := process_date download3 year date w2 in
  (∃ calls posts,
      invoked w1 = invoked w ++ calls ∧ (k, date) ∈ calls
      ∧ posted w1 = posted w ++ posts
      ∧ (∀ v, ¬ ((year, date, [(k, v)]) ∈ posts))
      ∧ truthy (read_slot (files w1) year date k) = false)
  ∧ (∃ calls, invoked w2 = invoked w1 ++ calls ∧ (k, date) ∈ calls
      ∧ read_slot (files w2) year date k = Some p)
  ∧ (∃ calls posts,
      invoked w3 = invoked w2 ++ calls ∧ ¬ ((k, date) ∈ calls)
      ∧ posted w3 = posted w2 ++ posts
      ∧ (∀ v, ¬ ((year, date, [(k, v)]) ∈ posts))
      ∧ read_slot (files w3) year date k = Some p).
Proof.
  intros Hy Hf Hok Hd Hk Hempty Hdl1 Hdl2 Hp w1 w2 w3.
  destruct (task_known k Hk) as [Hkd _].
  destruct (process_date_spec download1 year date w ws Hy Hf Hok Hd)
    as (Hi1 & Hp1 & ws1 & Hf1 & Hok1 & Hrd1). fold w1 in Hi1, Hp1, Hf1, Hrd1.
  destruct (process_date_spec download2 year date w1 ws1 Hy Hf1 Hok1 Hd)
    as (Hi2 & Hp2 & ws2 & Hf2 & Hok2 & Hrd2). fold w2 in Hi2, Hp2, Hf2, Hrd2.
  destruct (process_date_spec download3 year date w2 ws2 Hy Hf2 Hok2 Hd)
    as (Hi3 & Hp3 & ws3 & Hf3 & Hok3 & Hrd3). fold w3 in Hi3, Hp3, Hf3, Hrd3.
  assert (k ∉ fetched download1 date (pending (files w) year date download_tasks))
    as Hnot1.
  { unfold fetched. rewrite list_elem_of_filter, Hdl1. by intros [? _]. }
  assert (read_slot (files w1) year date k = read_slot (files w) year date k)
    as Hsame1.
  { rewrite Hrd1 by done. rewrite decide_False; [done|]. by intros [_ ?]. }
  assert (k ∈ pending (files w1) year date download_tasks) as Hpend2.
  { unfold pending. apply list_elem_of_filter. split; [|done]. by rewrite Hsame1. }
  assert (read_slot (files w2) year date k = Some p) as Hfilled2.
  { rewrite Hrd2 by done. rewrite decide_True; [done|]. split; [done|].
    unfold fetched. apply list_elem_of_filter. split; [|done].
    rewrite Hdl2. simpl. by destruct p. }
  assert (k ∉ pending (files w2) year date download_tasks) as Hnot3.
  { unfold pending. rewrite list_elem_of_filter, Hfilled2. simpl.
    destruct p; [done|]. by intros [? _]. }
  split; [|split].
  - eexists _, _. split; [exact Hi1|]. split.
    { apply list_elem_of_fmap. exists k. split; [done|].
      unfold pending. by apply list_elem_of_filter. }
    split; [exact Hp1|]. split; [|by rewrite Hsame1].
    intros v Hin. apply list_elem_of_fmap in Hin as (k0 & Heq & Hin).
    unfold result_post in Heq. by simplify_eq.
  - eexists. split; [exact Hi2|]. split; [|done].
    apply list_elem_of_fmap. by exists k.
  - eexists _, _. split; [exact Hi3|]. split.
    { intros Hin. apply list_elem_of_fmap in Hin as (k0 & Heq & Hin).
      by simplify_eq. }
    split; [exact Hp3|]. split.
    + intros v Hin. apply list_elem_of_fmap in Hin as (k0 & Heq & Hin).
      unfold result_post in Heq. simplify_eq.
      unfold fetched in Hin. by apply list_elem_of_filter in Hin as [_ Hin].
    + rewrite Hrd3 by done. rewrite decide_False; [done|]. intros [_ Hin].
      unfold fetched in Hin. by apply list_elem_of_filter in Hin as [_ Hin].
Qed.

(** Claim C7 on a new ledger. *)
Lemma retry_fills_and_filled_is_terminal_witness :
  let w1 := process_date no_data "2026" "2025-10-01" fresh_world in
  let w2 := process_date (always "cm.csv") "2026" "2025-10-01" w1 in
  let w3 := process_date no_data "2026" "2025-10-01" w2 in
  (∃ calls posts,
      invoked w1 = invoked fresh_world ++ calls
      ∧ ("file_1", "2025-10-01") ∈ calls
      ∧ posted w1 = posted fresh_world ++ posts
      ∧ (∀ v, ¬ (("2026", "2025-10-01", [("file_1", v)]) ∈ posts))
      ∧ truthy (read_slot (files w1) "2026" "2025-10-01" "file_1") = false)
  ∧ (∃ calls, invoked w2 = invoked w1 ++ calls
      ∧ ("file_1", "2025-10-01") ∈ calls
      ∧ read_slot (files w2) "2026" "2025-10-01" "file_1" = Some "cm.csv")
  ∧ (∃ calls posts,
      invoked w3 = invoked w2 ++ calls
      ∧ ¬ (("file_1", "2025-10-01") ∈ calls)
      ∧ posted w3 = posted w2 ++ posts
      ∧ (∀ v, ¬ (("2026", "2025-10-01", [("file_1", v)]) ∈ posts))
      ∧ read_slot (files w3) "2026" "2025-10-01" "file_1" = Some "cm.csv").
Proof.
  apply (retry_fills_and_filled_is_terminal no_data (always "cm.csv") no_data
           "2026" "2025-10-01" "file_1" "cm.csv" fresh_world [headers_row]).
  - reflexivity.
  - reflexivity.
  - split; [reflexivity | repeat constructor; discriminate].
  - discriminate.
  - repeat constructor.
  - reflexivity.
  - reflexivity.
  - reflexivity.
  - discriminate.
Defined.

End DriverFacts.

(** * The calendar *)

Module CalendarFacts.
Import Datetime Calendar Days.
Local Open Scope Z_scope.

(** ** Ordinals of October 1 and December 31 *)

Lemma fixed_days_cycle : forallb fixed_days_ok (seqZ 1 400) = true.
Proof. vm_compute. reflexivity. Qed.

(** The calendar repeats every 400 years, that is every 146097 days. *)
Lemma is_leap_400 y : is_leap (y + 400) = is_leap y.
Proof.
  unfold is_leap.
  replace ((y + 400) mod 4) with (y mod 4) by (Z.div_mod_to_equations; lia).
  replace ((y + 400) mod 100) with (y mod 100) by (Z.div_mod_to_equations; lia).
  replace ((y + 400) mod 400) with (y mod 400) by (Z.div_mod_to_equations; lia).
  done.
Qed.

Lemma ymd2ord_400 y m d : ymd2ord (y + 400) m d = ymd2ord y m d + 146097.
Proof.
  unfold ymd2ord, days_before_year, days_before_month.
  rewrite is_leap_400. cbv zeta.
  Z.div_mod_to_equations. lia.
Qed.

Lemma ord2ymd_400 n y m d :
  ord2ymd n = (y, m, d) → ord2ymd (n + 146097) = (y + 400, m, d).
Proof.
  unfold ord2ymd.
  replace ((n + 146097 - 1) / 146097) with ((n - 1) / 146097 + 1)
    by (Z.div_mod_to_equations; lia).
  replace ((n + 146097 - 1) mod 146097) with ((n - 1) mod 146097)
    by (Z.div_mod_to_equations; lia).
  cbv zeta.
  repeat match goal with
         | |- context [if ?b then _ else _] => destruct b
         end;
    intros [= <- <- <-]; f_equal; f_equal; lia.
Qed.

Lemma fixed_days_shift (a : nat) y :
  1 ≤ y ≤ 400 →
  ord2ymd (ymd2ord (y + 400 * Z.of_nat a) 10 1) = (y + 400 * Z.of_nat a, 10, 1)
  ∧ ord2ymd (ymd2ord (y + 400 * Z.of_nat a) 12 31)
    = (y + 400 * Z.of_nat a, 12, 31).
Proof.
  intros Hy. induction a as [|a [IH1 IH2]].
  - replace (y + 400 * Z.of_nat 0) with y by lia.
    pose proof (proj1 (forallb_forall fixed_days_ok (seqZ 1 400))
                  fixed_days_cycle y) as H.
    assert (fixed_days_ok y = true) as Hok.
    { apply H. apply list_elem_of_In, elem_of_seqZ. lia. }
    unfold fixed_days_ok in Hok.
    destruct (ord2ymd (ymd2ord y 10 1)) as [[y1 m1] d1].
    destruct (ord2ymd (ymd2ord y 12 31)) as [[y2 m2] d2].
    repeat (apply andb_prop in Hok as [Hok ?]).
    split; repeat f_equal; lia.
  - replace (y + 400 * Z.of_nat (S a)) with (y + 400 * Z.of_nat a + 400) by lia.
    rewrite !ymd2ord_400. split; by apply ord2ymd_400.
Qed.

(** October 1 and December 31 of any year convert to an ordinal and back. *)
Lemma fixed_days y :
  1 ≤ y →
  ord2ymd (ymd2ord y 10 1) = (y, 10, 1) ∧ ord2ymd (ymd2ord y 12 31) = (y, 12, 31).
Proof.
  intros Hy.
  pose proof (fixed_days_shift (Z.to_nat ((y - 1) / 400)) ((y - 1) mod 400 + 1)) as H.
  replace ((y - 1) mod 400 + 1 + 400 * Z.of_nat (Z.to_nat ((y - 1) / 400))) with y
    in H by (Z.div_mod_to_equations; lia).
  apply H. Z.div_mod_to_equations. lia.
Qed.

(** ** The loop over the days *)

(** [date(y, m, d)] succeeds on valid components. *)
Lemma new_valid y m d :
  1 ≤ y ≤ 9999 → 1 ≤ m ≤ 12 → 1 ≤ d ≤ days_in_month y m →
  new y m d = Some (ymd2ord y m d).
Proof.
  intros Hy Hm Hd. unfold new, MINYEAR, MAXYEAR.
  repeat (rewrite (proj2 (Z.leb_le _ _)) by lia). done.
Qed.

Lemma ymd2ord_bounds y :
  1 ≤ y ≤ 9998 → 1 ≤ ymd2ord y 10 1 ∧ ymd2ord y 12 31 < MAXORDINAL.
Proof.
  intros Hy. unfold ymd2ord, days_before_year, days_before_month, MAXORDINAL.
  change (2 <? 10) with true. change (2 <? 12) with true.
  change (DAYS_BEFORE_MONTH 10) with 273. change (DAYS_BEFORE_MONTH 12) with 334.
  destruct (is_leap y); cbn [andb]; cbv zeta; Z.div_mod_to_equations; lia.
Qed.

(** With fuel for every test of its condition, the loop returns the days
    from [cur] to [end_date], printed, after what was collected. *)
Lemma dates_loop_spec fuel cur end_date acc :
  1 ≤ cur → end_date < MAXORDINAL →
  (Z.to_nat (end_date - cur + 1) < fuel)%nat →
  dates_loop fuel cur end_date acc
  = Returned (acc ++ (strftime <$> date_range cur end_date)).
Proof.
  unfold date_range. revert cur acc.
  induction fuel as [|fuel IH]; intros cur acc Hcur Hend Hfuel; [lia|].
  cbn [dates_loop]. unfold le.
  destruct (Z.leb_spec cur end_date) as [Hle|Hgt].
  - unfold add_days.
    rewrite (proj2 (Z.ltb_lt 0 (cur + 1))) by lia.
    rewrite (proj2 (Z.leb_le (cur + 1) MAXORDINAL)) by lia.
    cbn [andb]. rewrite IH by lia.
    rewrite (seqZ_cons cur) by lia. rewrite fmap_cons.
    rewrite <- app_assoc. cbn [app].
    replace (Z.succ cur) with (cur + 1) by lia.
    replace (Z.pred (end_date - cur + 1)) with (end_date - (cur + 1) + 1) by lia.
    done.
  - rewrite seqZ_nil by lia. by rewrite app_nil_r.
Qed.

(** ** The year of a day *)

Lemma days_before_year_leap y :
  days_before_year (y + 1)
  = days_before_year y + 365 + (if is_leap y then 1 else 0).
Proof.
  unfold days_before_year, is_leap. cbv zeta.
  replace (y + 1 - 1) with y by lia.
  destruct (Z.eqb_spec (y mod 4) 0), (Z.eqb_spec (y mod 100) 0),
    (Z.eqb_spec (y mod 400) 0); cbn [andb orb negb];
    Z.div_mod_to_equations; lia.
Qed.

(** The day [today] lies in the year [year_of today]. *)
Lemma year_of_bounds today :
  1 ≤ today →
  days_before_year (year_of today) < today
  ≤ days_before_year (year_of today) + 366.
Proof.
  intros Ht. unfold year_of, ord2ymd, days_before_year.
  set (n := today - 1).
  set (n400 := n / 146097). set (r1 := n mod 146097).
  set (n100 := r1 / 36524). set (r2 := r1 mod 36524).
  set (n4 := r2 / 1461). set (r3 := r2 mod 1461).
  set (n1 := r3 / 365). set (r4 := r3 mod 365).
  assert (Hn : 0 ≤ n) by (unfold n; lia).
  assert (H1 : n = 146097 * n400 + r1 ∧ 0 ≤ r1 < 146097)
    by (unfold n400, r1; split; [apply Z.div_mod; lia | apply Z.mod_pos_bound; lia]).
  assert (H2 : r1 = 36524 * n100 + r2 ∧ 0 ≤ r2 < 36524)
    by (unfold n100, r2; split; [apply Z.div_mod; lia | apply Z.mod_pos_bound; lia]).
  assert (H3 : r2 = 1461 * n4 + r3 ∧ 0 ≤ r3 < 1461)
    by (unfold n4, r3; split; [apply Z.div_mod; lia | apply Z.mod_pos_bound; lia]).
  assert (H4 : r3 = 365 * n1 + r4 ∧ 0 ≤ r4 < 365)
    by (unfold n1, r4; split; [apply Z.div_mod; lia | apply Z.mod_pos_bound; lia]).
  clearbody n400 r1 n100 r2 n4 r3 n1 r4.
  assert (0 ≤ n400) by lia. assert (0 ≤ n100 ≤ 4) by lia.
  assert (0 ≤ n4 ≤ 24) by lia. assert (0 ≤ n1 ≤ 4) by lia.
  assert (Hy : ∀ y, (∃ a b c : Z, y = 400 * n400 + 100 * a + 4 * b + c
                       ∧ 0 ≤ a ≤ 3 ∧ 0 ≤ b ≤ 24 ∧ 0 ≤ c ≤ 3
                       ∧ 36524 * a + 1461 * b + 365 * c ≤ r1
                         ≤ 36524 * a + 1461 * b + 365 * c + 365) →
               y * 365 + y / 4 - y / 100 + y / 400 < today
               ≤ y * 365 + y / 4 - y / 100 + y / 400 + 366).
  { intros y (a & b & c & -> & Ha & Hb & Hc & Hle).
    replace ((400 * n400 + 100 * a + 4 * b + c) / 400) with n400
      by (apply Z.div_unique with (100 * a + 4 * b + c); lia).
    replace ((400 * n400 + 100 * a + 4 * b + c) / 100) with (4 * n400 + a)
      by (apply Z.div_unique with (4 * b + c); lia).
    replace ((400 * n400 + 100 * a + 4 * b + c) / 4) with (100 * n400 + 25 * a + b)
      by (apply Z.div_unique with c; lia).
    unfold n in *. lia. }
  destruct ((n1 =? 4) || (n100 =? 4)) eqn:E.
  - cbn [fst snd]. apply Hy.
    apply orb_true_iff in E as [E|E]; apply Z.eqb_eq in E.
    + destruct (decide (n100 = 4)) as [E4|E4].
      * exists 3, 24, 3. lia.
      * exists n100, n4, 3. lia.
    + exists 3, 24, 3. lia.
  - apply orb_false_iff in E as [E1 E2].
    apply Z.eqb_neq in E1. apply Z.eqb_neq in E2.
    match goal with |- context [if ?c then _ else _] => destruct c end;
      cbn [fst snd]; apply Hy; exists n100, n4, n1; lia.
Qed.

(** A day after the first days of the year 1000 is in the year 1000 or in
    a later one. *)
Lemma year_of_from_1000 d : days_before_year 1000 + 1 < d → 1000 ≤ year_of d.
Proof.
  intros Hd. change (days_before_year 1000) with 364877 in Hd.
  pose proof (year_of_bounds d ltac:(lia)) as [_ Hup].
  destruct (Z.le_gt_cases 1000 (year_of d)) as [|Hlt]; [done|]. exfalso.
  revert Hup. generalize (year_of d) Hlt. intros y Hy.
  unfold days_before_year. cbv zeta. Z.div_mod_to_equations. lia.
Qed.

Lemma october_from_1000 y : 1000 ≤ y → days_before_year 1000 + 1 < ymd2ord y 10 1.
Proof.
  intros Hy. change (days_before_year 1000) with 364877.
  unfold ymd2ord, days_before_year, days_before_month.
  change (2 <? 10) with true. change (DAYS_BEFORE_MONTH 10) with 273.
  destruct (is_leap y); cbn [andb]; cbv zeta; Z.div_mod_to_equations; lia.
Qed.

(** ** The text of a date *)

Lemma is_decimal_digit n : is_decimal (digit n) = true.
Proof.
  unfold is_decimal, digit.
  assert (0 ≤ n mod 10 < 10) as Hm by (apply Z.mod_pos_bound; lia).
  rewrite nat_ascii_embedding by lia.
  apply andb_true_iff. split; apply Nat.leb_le; lia.
Qed.

(** From the year 1000 on a date is printed as [YYYY-MM-DD]. *)
Lemma iso_date_strftime d : 1000 ≤ year_of d → iso_date (strftime d) = true.
Proof.
  intros Hy. unfold strftime, year_digits.
  rewrite (proj2 (Z.ltb_ge (year_of d) 10)) by lia.
  rewrite (proj2 (Z.ltb_ge (year_of d) 100)) by lia.
  rewrite (proj2 (Z.ltb_ge (year_of d) 1000)) by lia.
  unfold four_digits, two_digits, iso_date.
  cbv beta iota delta [String.append].
  by rewrite !is_decimal_digit.
Qed.




(** The calendar of 2026, asked in 2027, has 457 days. *)
Example calendar_2026 :
  match get_year_dates 500 (ymd2ord 2027 1 15) 2026 with
  | Returned c => Some (range_start c, range_end c, total_days c)
  | _ => None
  end = Some ("2025-10-01", "2026-12-31", 457%nat).
Proof. vm_compute. reflexivity. Qed.

(** Asked on 2026-11-03, the calendar of 2026 ends on 2026-11-02. *)
Example calendar_current_year :
  match get_year_dates 500 (ymd2ord 2026 11 3) 2026 with
  | Returned c => Some (range_start c, range_end c, is_current_year c)
  | _ => None
  end = Some ("2025-10-01", "2026-11-02", true).
Proof. vm_compute. reflexivity. Qed.

(** The calendar of the year 1000 starts in the year 999, whose dates have
    three digits for the year; that of 1001 is all [YYYY-MM-DD]. *)
Example calendar_around_1000 :
  (match get_year_dates 500 (ymd2ord 2026 11 3) 1000 with
   | Returned c => Some (range_start c, range_end c, total_days c)
   | _ => None
   end,
   match get_year_dates 500 (ymd2ord 2026 11 3) 1001 with
   | Returned c => Some (range_start c, range_end c, total_days c)
   | _ => None
   end)
  = (Some ("999-10-01", "1000-12-31", 457%nat),
     Some ("1000-10-01", "1001-12-31", 457%nat)).
Proof. vm_compute. reflexivity. Qed.

(** Outside the years 2 to 9998 the handler answers 400: year 1 has no year
    before it, and for 9999 the step past December 31 overflows. *)
Example calendar_out_of_range :
  get_year_dates 500 (ymd2ord 2026 11 3) 1 = Raised
  ∧ get_year_dates 500 (ymd2ord 2026 11 3) 9999 = Raised.
Proof. split; vm_compute; reflexivity. Qed.

End CalendarFacts.

(** * The listing and what requests leave alone *)

Module ListingFacts.
Import Py Openpyxl Main Ledger Listing FileList Rows LedgerFacts.

Lemma dict_of_items_empty {B : Type} (items : list (value * B)) :
  dict_of_items items = ∅ → items = [].
Proof.
  destruct items as [|kv items _] using rev_ind; [done|].
  destruct kv as [k v]. unfold dict_of_items. rewrite foldl_app. cbn [foldl fst snd].
  intros He. apply (f_equal (lookup k)) in He.
  by rewrite lookup_insert_eq, lookup_empty in He.
Qed.

Lemma length_row_values (ws : worksheet) r : length (row_values ws r) = max_column ws.
Proof. unfold row_values. by rewrite length_fmap, length_seq. Qed.

Lemma row_dict_of_nonempty (ws : worksheet) r :
  dict_of_items (zip (row_values ws 1) (row_values ws r)) ≠ ∅.
Proof.
  intros He%dict_of_items_empty.
  apply (f_equal length) in He. rewrite length_zip, !length_row_values in He.
  pose proof (max_column_ge_1 ws). simpl in He. lia.
Qed.

Lemma search_rows_first headers date idx rows :
  snd <$> search_rows headers date idx rows
  = first_with_date date ((λ row, dict_of_items (zip headers row)) <$> rows).
Proof.
  revert idx. unfold first_with_date.
  induction rows as [|row rows IH]; intros idx; [done|].
  rewrite search_rows_cons, fmap_cons.
  case_decide as Hd.
  - by rewrite filter_cons_True.
  - rewrite filter_cons_False by done. apply IH.
Qed.

Lemma search_rows_nonempty (ws : worksheet) date idx rs i d :
  search_rows (row_values ws 1) date idx (row_values ws <$> rs) = Some (i, d) →
  d ≠ ∅.
Proof.
  revert idx. induction rs as [|r rs IH]; intros idx; [done|].
  rewrite fmap_cons, search_rows_cons. case_decide.
  - intros [= <- <-]. apply row_dict_of_nonempty.
  - apply IH.
Qed.

(** Property X1.  What a GET on [/api/<year>/tracking/<date>] returns is the
    first dictionary of the listing of [/api/<year>/tracking] whose date
    prints as [date]; it returns no row when the listing fails or has no such
    dictionary.  This holds on every file system, whatever the sheet holds. *)
Theorem get_row_is_first_listed fs year date :
  get_row fs year date = first_with_date date (listed fs year).
Proof.
  unfold get_row, listed, manage_tracking_by_date, read_tracking_sheet.
  destruct (isdigit year); [|done]. cbn [negb].
  destruct (tracking_file fs year) as [ws|]; [|done].
  cbn [listing_data default id].
  rewrite <- search_rows_first with (idx := 2).
  unfold iter_rows.
  destruct (search_rows _ _ _ _) as [[i d]|] eqn:E; [|done].
  apply search_rows_nonempty in E. by rewrite decide_False.
Qed.

Lemma listed_ledger fs year ws :
  isdigit year = true → tracking_file fs year = Some ws → headers_ok ws →
  listed fs year = row_dict ws <$> seq 2 (length ws - 1).
Proof.
  intros Hy Hf H. unfold listed, read_tracking_sheet. rewrite Hy, Hf.
  cbn [negb listing_data default id]. rewrite H. unfold iter_rows.
  rewrite headers_ok_max_row by done.
  replace (S (length ws) - 2) with (length ws - 1) by lia.
  by rewrite <- list_fmap_compose.
Qed.

Lemma row_dict_ext (ws ws' : worksheet) r r' :
  max_column ws = 12 → max_column ws' = 12 →
  (∀ c, 1 ≤ c ≤ 12 → cell_value ws' r' c = cell_value ws r c) →
  row_dict ws' r' = row_dict ws r.
Proof.
  intros Hm Hm' Hc. unfold row_dict. rewrite !row_values_12 by done.
  by rewrite !Hc by lia.
Qed.

Lemma row_dict_post_other ws date updates r :
  ledger_ok ws → 2 ≤ r ≤ length ws → r ≠ target_row ws date →
  row_dict (post_sheet ws date updates) r = row_dict ws r.
Proof.
  intros [H Hs] Hr Hne.
  pose proof (ledger_ok_post_sheet ws date updates H) as [H' _].
  apply row_dict_ext; [by apply headers_ok_max_column..|].
  intros c Hc.
  rewrite cell_value_post_sheet_frame; [|done|lia|lia|by left].
  rewrite cell_value_base_sheet by lia. rewrite decide_False by lia.
  apply stored_id. apply stored_ok_cells; [done|lia..].
Qed.

Lemma target_row_text ws date r :
  headers_ok ws → 2 ≤ r ≤ length ws → date_text ws r ≠ date →
  r ≠ target_row ws date.
Proof.
  intros H Hr Ht. unfold target_row.
  destruct (find_row ws date) as [idx|] eqn:E; [|lia].
  apply find_row_Some in E as (_ & Hd & _); [|done]. congruence.
Qed.

Lemma row_dict_date_text ws r :
  max_column ws = 12 →
  str (dict_get (row_dict ws r) (Some "date") (Some "")) = date_text ws r.
Proof. intros Hm. by rewrite row_dict_date. Qed.



(** ** POST and then GET *)

Lemma row_dict_save_write_slot W r kv :
  headers_ok W → 2 ≤ r →
  row_dict (save (write_slot W r kv)) r
  = match slot_col kv.1, kv.2 with
    | Some _, Some s => <[Some kv.1 := stored (Some s)]> (row_dict (save W) r)
    | _, _ => row_dict (save W) r
    end.
Proof.
  intros H Hr.
  assert (max_column (save W) = 12) as Hm0
    by by apply headers_ok_max_column, headers_ok_save.
  assert (max_column (save (write_slot W r kv)) = 12) as Hm1
    by by apply headers_ok_max_column, headers_ok_save, headers_ok_write_slot.
  destruct kv as [k v]. unfold write_slot in *. cbn [fst snd] in *.
  destruct (slot_col k) as [c|] eqn:Ec; [destruct v as [s|]|]; try done.
  cbn [cell] in *. pose proof (slot_col_range _ _ Ec) as Hc.
  apply map_eq. intros key. rewrite row_dict_lookup by done.
  destruct key as [k'|].
  - destruct (decide (k' = k)) as [->|Hne].
    + rewrite lookup_insert_eq, Ec. cbn [fmap option_fmap option_map].
      rewrite cell_value_save, cell_value_set_cell by lia.
      by rewrite decide_True.
    + rewrite lookup_insert_ne by congruence. rewrite row_dict_lookup by done.
      destruct (slot_col k') as [c'|] eqn:Ec'; [|done].
      pose proof (slot_col_range _ _ Ec') as Hc'.
      cbn [fmap option_fmap option_map]. f_equal.
      rewrite !cell_value_save, cell_value_set_cell by lia.
      rewrite decide_False; [done|]. intros [_ ->]. apply Hne.
      by eapply slot_col_inj.
  - rewrite lookup_insert_ne by done. by rewrite row_dict_lookup.
Qed.

Lemma row_dict_save_write_all W r updates :
  headers_ok W → 2 ≤ r →
  row_dict (save (write_all W r updates)) r
  = apply_updates (row_dict (save W) r) updates.
Proof.
  intros H Hr. revert W H. unfold write_all, apply_updates.
  induction updates as [|kv updates IH]; intros W H; [done|].
  cbn [foldl]. rewrite IH by by apply headers_ok_write_slot.
  by rewrite row_dict_save_write_slot.
Qed.

Lemma row_dict_new_row ws date :
  headers_ok ws → date ≠ "" →
  row_dict (save (set_cell ws (length ws + 1) 1 date)) (length ws + 1)
  = blank_row date.
Proof.
  intros H Hd. pose proof (headers_ok_length _ H) as Hl.
  assert (max_column (save (set_cell ws (length ws + 1) 1 date)) = 12) as Hm.
  { apply headers_ok_max_column, headers_ok_save, headers_ok_set_cell;
      [done|lia..]. }
  unfold row_dict, blank_row. rewrite row_values_12 by done.
  rewrite !cell_value_save, !cell_value_set_cell by lia.
  rewrite decide_True by done.
  repeat (rewrite decide_False by (intros [_ [=]])).
  rewrite !cell_value_beyond by lia.
  rewrite (stored_id (Some date)) by congruence. done.
Qed.

Lemma row_dict_base ws date :
  ledger_ok ws → date ≠ "" →
  row_dict (save (base_sheet ws date)) (target_row ws date)
  = default (blank_row date) (row_dict ws <$> find_row ws date).
Proof.
  intros [H Hs] Hd. unfold base_sheet, target_row.
  destruct (find_row ws date) as [r|]; cbn [fmap option_fmap option_map default].
  - by rewrite save_id.
  - by apply row_dict_new_row.
Qed.

(** Property X3.  POST and then GET.  On a ledger, after a POST of [updates]
    (no ['date'] member) on [date], GET returns the row that was there, or the
    row of [date] with every slot empty when there was none, with the members
    of [updates] written into it in order: a member whose key is no column, or
    whose value is null, is skipped, and an empty string reads back as an empty
    slot. *)
Theorem post_then_get year date updates fs ws :
  isdigit year = true → tracking_file fs year = Some ws → ledger_ok ws →
  date ≠ "" → updates ≠ [] → no_date_key updates →
  get_row (manage_tracking_by_date year date POST updates fs).1 year date
  = Some (apply_updates (default (blank_row date) (get_row fs year date)) updates).
Proof.
  intros Hy Hf Hok Hd Hne Hnd. pose proof Hok as [H Hs].
  rewrite (manage_post _ _ _ _ ws Hy Hf H Hne). cbn [fst].
  pose proof (ledger_ok_post_sheet ws date updates H) as [H' _].
  rewrite (get_row_find _ _ _ _ Hy (tracking_file_insert _ _ _) H').
  rewrite (get_row_find _ _ _ ws Hy Hf H).
  rewrite find_row_post_same by done. cbn [fmap option_fmap option_map]. f_equal.
  rewrite post_sheet_base.
  pose proof (target_row_range ws date H) as Hr.
  rewrite row_dict_save_write_all by (by apply headers_ok_base_sheet || lia).
  by rewrite row_dict_base.
Qed.

(** Property X3 for a new date, with an unknown key and a null among the members. *)
Lemma post_then_get_witness :
  get_row (manage_tracking_by_date "2026" "2025-10-02" POST
             [("file_2", Some "fo.csv"); ("size", Some "12"); ("file_3", None)]
             one_row_ledger).1 "2026" "2025-10-02"
  = Some (apply_updates
            (default (blank_row "2025-10-02")
               (get_row one_row_ledger "2026" "2025-10-02"))
            [("file_2", Some "fo.csv"); ("size", Some "12"); ("file_3", None)]).
Proof.
  apply (post_then_get "2026" "2025-10-02" _ one_row_ledger one_row_sheet).
  - reflexivity.
  - reflexivity.
  - split; [reflexivity|]. repeat constructor; discriminate.
  - discriminate.
  - discriminate.
  - repeat constructor; discriminate.
Defined.

(** ** What a request leaves alone *)

Lemma get_row_tracking_file fs1 fs2 year date :
  tracking_file fs1 year = tracking_file fs2 year →
  get_row fs1 year date = get_row fs2 year date.
Proof.
  unfold get_row, manage_tracking_by_date. intros ->.
  destruct (isdigit year); [|done]. cbn [negb].
  destruct (tracking_file fs2 year) as [ws|]; [|done].
  destruct (search_rows _ _ _ _) as [[i d]|]; [|done].
  by case_decide.
Qed.

Lemma manage_effect year date m updates fs :
  let r := manage_tracking_by_date year date m updates fs in
  (r.1 = fs
   ∧ (m = GET ∨ (status_code r.2 ≠ 200 ∧ status_code r.2 ≠ 201)))
  ∨ (m = POST ∧ isdigit year = true ∧ updates ≠ []
     ∧ (status_code r.2 = 200 ∨ status_code r.2 = 201)
     ∧ ∃ ws ws', tracking_file fs year = Some ws
                 ∧ r.1 = <[year := Some ws']> fs).
Proof.
  unfold manage_tracking_by_date.
  destruct (isdigit year); cbn [negb]; [|left; split; [done|right; done]].
  destruct (tracking_file fs year) as [ws|]; [|left; split; [done|right; done]].
  destruct m; [destruct (search_rows _ _ _ _) as [[idx d]|]|].
  - case_decide; left; split; done || by left.
  - left; split; done || by left.
  - destruct updates as [|kv updates]; [left; split; [done|right; done]|].
    right. split; [done|]. split; [done|]. split; [done|].
    destruct (search_rows _ _ _ _) as [[idx d]|].
    + destruct (update_row _ _ _ _) as [ws' n]. cbn [fst snd status_code].
      split; [by left|]. by eexists _, _.
    + cbn [fst snd status_code]. split; [by right|]. by eexists _, _.
Qed.

(** Property X4.  What a request on the tracking endpoint never does: a
    GET changes nothing; a request answered with a code other than 200 and 201
    changes nothing; nothing is written when the year has no ledger; and in
    every case the folders and ledgers of the other years are untouched, and no
    folder and no ledger is created or removed. *)
Theorem tracking_requests_write_only_their_ledger year date m updates fs :
  let r := manage_tracking_by_date year date m updates fs in
  (m = GET → r.1 = fs)
  ∧ (status_code r.2 ≠ 200 → status_code r.2 ≠ 201 → r.1 = fs)
  ∧ (tracking_file fs year = None → r.1 = fs)
  ∧ (∀ y, y ≠ year → r.1 !! y = fs !! y)
  ∧ (∀ y, folder_exists r.1 y = folder_exists fs y)
  ∧ (∀ y, is_Some (tracking_file r.1 y) ↔ is_Some (tracking_file fs y)).
Proof.
  intros r. subst r.
  destruct (manage_effect year date m updates fs)
    as [[-> Hc]|(-> & Hy & Hne & Hc & ws & ws' & Hf & ->)].
  { repeat split; done. }
  split; [done|]. split; [intros; lia|]. split; [by rewrite Hf|].
  split; [intros y Hy'; by rewrite lookup_insert_ne|].
  apply tracking_file_lookup in Hf.
  split; intros y; destruct (decide (y = year)) as [->|Hy'].
  - unfold folder_exists. rewrite lookup_insert_eq, Hf.
    by rewrite !bool_decide_eq_true_2.
  - unfold folder_exists. by rewrite lookup_insert_ne.
  - unfold tracking_file. rewrite lookup_insert_eq, Hf. split; by eexists.
  - unfold tracking_file. by rewrite lookup_insert_ne.
Qed.

(** Property X4 for a POST on a row of the ledger of 2026. *)
Lemma tracking_requests_write_only_their_ledger_witness :
  let r := manage_tracking_by_date "2026" "2025-10-01" POST
             [("file_1", Some "a")] one_row_ledger in
  (POST = GET → r.1 = one_row_ledger)
  ∧ (status_code r.2 ≠ 200 → status_code r.2 ≠ 201 → r.1 = one_row_ledger)
  ∧ (tracking_file one_row_ledger "2026" = None → r.1 = one_row_ledger)
  ∧ (∀ y, y ≠ "2026" → r.1 !! y = one_row_ledger !! y)
  ∧ (∀ y, folder_exists r.1 y = folder_exists one_row_ledger y)
  ∧ (∀ y, is_Some (tracking_file r.1 y)
          ↔ is_Some (tracking_file one_row_ledger y)).
Proof.
  apply (tracking_requests_write_only_their_ledger "2026" "2025-10-01" POST
           [("file_1", Some "a")] one_row_ledger).
Defined.

(** Property X5.  A POST on [date] of [year] (a non-empty date, a body
    without ['date'] member, the ledger of the year well formed if there is
    one) leaves the row that GET returns for every other date, and for every
    other year, as it was. *)
Theorem post_leaves_other_rows year date updates fs year' date' :
  (∀ ws, tracking_file fs year = Some ws → ledger_ok ws) →
  date ≠ "" → no_date_key updates → (year', date') ≠ (year, date) →
  get_row (manage_tracking_by_date year date POST updates fs).1 year' date'
  = get_row fs year' date'.
Proof.
  intros Hok Hd Hnd Hne.
  destruct (manage_effect year date POST updates fs)
    as [[-> _]|(_ & Hy & Hu & _ & ws & ws0 & Hf & _)]; [done|].
  destruct (Hok ws Hf) as [H Hs].
  rewrite (manage_post _ _ _ _ ws Hy Hf H Hu). cbn [fst].
  destruct (decide (year' = year)) as [->|Hy'].
  - assert (date' ≠ date) as Hd' by congruence.
    pose proof (ledger_ok_post_sheet ws date updates H) as [H' _].
    rewrite (get_row_find _ _ _ _ Hy (tracking_file_insert _ _ _) H').
    rewrite (get_row_find _ _ _ ws Hy Hf H).
    rewrite find_row_post_other by done.
    destruct (find_row ws date') as [r|] eqn:E; [|done].
    cbn [fmap option_fmap option_map]. f_equal.
    apply find_row_Some in E as (Hr & Ht & _); [|done].
    apply row_dict_post_other; [done..|].
    apply target_row_text; [done..|]. congruence.
  - apply get_row_tracking_file. by apply tracking_file_insert_ne.
Qed.

(** Property X5 the row of 2025-10-01 after a POST on 2025-10-02. *)
Lemma post_leaves_other_rows_witness :
  get_row (manage_tracking_by_date "2026" "2025-10-02" POST
             [("file_2", Some "fo.csv")] one_row_ledger).1 "2026" "2025-10-01"
  = get_row one_row_ledger "2026" "2025-10-01".
Proof.
  apply (post_leaves_other_rows "2026" "2025-10-02" _ one_row_ledger).
  - intros ws [= <-]. split; [reflexivity|]. repeat constructor; discriminate.
  - discriminate.
  - repeat constructor; discriminate.
  - discriminate.
Defined.

(** ** The two creation endpoints *)

Lemma folder_exists_lookup fs year :
  folder_exists fs year = match fs !! year with Some _ => true | None => false end.
Proof.
  unfold folder_exists. destruct (fs !! year).
  - by rewrite bool_decide_eq_true_2.
  - by rewrite bool_decide_eq_false_2 by (by intros [? ?]).
Qed.

Lemma create_year_folder_eq year fs :
  isdigit year = true →
  create_year_folder year fs
  = match fs !! year with
    | Some _ => (fs, Response 200 "ignored" Message)
    | None => (<[year := None]> fs, Response 201 "success" Message)
    end.
Proof.
  intros Hy. unfold create_year_folder, makedirs.
  rewrite Hy, folder_exists_lookup. by destruct (fs !! year).
Qed.

Lemma create_year_folder_bad year fs :
  isdigit year = false →
  create_year_folder year fs = (fs, Response 400 "error" Message).
Proof. intros Hy. unfold create_year_folder. by rewrite Hy. Qed.

Lemma create_track_date_eq year fs :
  isdigit year = true →
  create_track_date year fs
  = match fs !! year with
    | Some (Some _) => (fs, Response 200 "ignored" Message)
    | _ => (<[year := Some [headers_row]]> fs, Response 201 "success" Message)
    end.
Proof.
  intros Hy. unfold create_track_date, makedirs, write_tracking, tracking_file.
  rewrite Hy, folder_exists_lookup. cbn [negb].
  destruct (fs !! year) as [[ws|]|] eqn:E; cbn [negb].
  - by rewrite E.
  - by rewrite E.
  - by rewrite lookup_insert_eq, insert_insert_eq.
Qed.

Lemma create_track_date_bad year fs :
  isdigit year = false →
  create_track_date year fs = (fs, Response 400 "error" Message).
Proof. intros Hy. unfold create_track_date. by rewrite Hy. Qed.

Lemma tracking_file_create_year_folder year fs y :
  tracking_file (create_year_folder year fs).1 y = tracking_file fs y.
Proof.
  destruct (isdigit year) eqn:Hy; [|by rewrite create_year_folder_bad].
  rewrite create_year_folder_eq by done.
  destruct (fs !! year) as [o|] eqn:E; [done|]. cbn [fst].
  unfold tracking_file. destruct (decide (y = year)) as [->|Hne].
  - by rewrite lookup_insert_eq, E.
  - by rewrite lookup_insert_ne.
Qed.

Lemma ledger_ok_headers_row : ledger_ok [headers_row].
Proof. split; [reflexivity|]. repeat constructor; discriminate. Qed.

Lemma tracking_file_create_track_date year fs :
  isdigit year = true →
  tracking_file (create_track_date year fs).1 year
  = Some (default [headers_row] (tracking_file fs year)).
Proof.
  intros Hy. rewrite create_track_date_eq by done. unfold tracking_file.
  destruct (fs !! year) as [[ws|]|] eqn:E; cbn [fst];
    by rewrite ?E, ?lookup_insert_eq.
Qed.

Lemma tracking_file_create_track_date_ne year fs y :
  y ≠ year →
  tracking_file (create_track_date year fs).1 y = tracking_file fs y.
Proof.
  intros Hne. destruct (isdigit year) eqn:Hy; [|by rewrite create_track_date_bad].
  rewrite create_track_date_eq by done. unfold tracking_file.
  destruct (fs !! year) as [[ws|]|] eqn:E; cbn [fst];
    by rewrite ?lookup_insert_ne.
Qed.

(** Property X6.  [create_year_folder] never touches a ledger: after it
    every year has the tracking file it had and the other folders are as they
    were; the folder of [year] exists exactly when [year] is made of digits or
    the folder existed before; and a second call changes nothing and answers
    200 'ignored', or 400 when the year is not made of digits. *)
Theorem create_year_folder_keeps_ledgers year fs :
  let r := create_year_folder year fs in
  (∀ y, tracking_file r.1 y = tracking_file fs y)
  ∧ (∀ y, y ≠ year → r.1 !! y = fs !! y)
  ∧ folder_exists r.1 year = isdigit year || folder_exists fs year
  ∧ create_year_folder year r.1
    = (r.1, if isdigit year then Response 200 "ignored" Message
            else Response 400 "error" Message).
Proof.
  cbv zeta. split; [apply tracking_file_create_year_folder|].
  destruct (isdigit year) eqn:Hy.
  - rewrite !create_year_folder_eq by done. rewrite !folder_exists_lookup.
    destruct (fs !! year) as [o|] eqn:E; cbn [fst orb].
    + by rewrite E.
    + rewrite lookup_insert_eq. split; [|done].
      intros y Hne. by rewrite lookup_insert_ne.
  - rewrite !create_year_folder_bad by done. done.
Qed.

(** Property X6 on a ledger of 2026. *)
Lemma create_year_folder_keeps_ledgers_witness :
  let r := create_year_folder "2026" one_row_ledger in
  (∀ y, tracking_file r.1 y = tracking_file one_row_ledger y)
  ∧ (∀ y, y ≠ "2026" → r.1 !! y = one_row_ledger !! y)
  ∧ folder_exists r.1 "2026"
    = isdigit "2026" || folder_exists one_row_ledger "2026"
  ∧ create_year_folder "2026" r.1
    = (r.1, if isdigit "2026" then Response 200 "ignored" Message
            else Response 400 "error" Message).
Proof. apply (create_year_folder_keeps_ledgers "2026" one_row_ledger). Defined.


(** ** An invariant of the service *)

Lemma serve_ledgers fs req :
  ledgers_ok fs →
  ledgers_ok (serve fs req)
  ∧ ∀ y, is_Some (tracking_file fs y) → is_Some (tracking_file (serve fs req) y).
Proof.
  intros Hok. destruct req as [year|year|year date m updates]; cbn [serve].
  - split.
    + intros y ws. rewrite tracking_file_create_year_folder. apply Hok.
    + intros y. by rewrite tracking_file_create_year_folder.
  - destruct (isdigit year) eqn:Hy;
      [|by rewrite create_track_date_bad by done].
    split.
    + intros y ws. destruct (decide (y = year)) as [->|Hne].
      * rewrite tracking_file_create_track_date by done. intros [= <-].
        destruct (tracking_file fs year) as [ws|] eqn:E; cbn [default].
        -- by apply (Hok year).
        -- apply ledger_ok_headers_row.
      * rewrite tracking_file_create_track_date_ne by done. apply Hok.
    + intros y Hf. destruct (decide (y = year)) as [->|Hne].
      * rewrite tracking_file_create_track_date by done. by eexists.
      * by rewrite tracking_file_create_track_date_ne.
  - destruct (manage_effect year date m updates fs)
      as [[-> _]|(-> & Hy & Hu & _ & ws & ws0 & Hf & _)]; [done|].
    destruct (Hok _ _ Hf) as [H Hs].
    rewrite (manage_post _ _ _ _ ws Hy Hf H Hu). cbn [fst]. split.
    + intros y ws1. destruct (decide (y = year)) as [->|Hne].
      * rewrite tracking_file_insert. intros [= <-].
        by apply ledger_ok_post_sheet.
      * rewrite tracking_file_insert_ne by done. apply Hok.
    + intros y Hf1. destruct (decide (y = year)) as [->|Hne].
      * rewrite tracking_file_insert. by eexists.
      * by rewrite tracking_file_insert_ne.
Qed.

(** A POST without ['date'] member on a ledger whose rows have a date: the
    rows keep their date, and the row it adds has one. *)
Lemma post_sheet_dated ws date updates :
  ledger_ok ws → dated ws → date ≠ "" → no_date_key updates →
  let ws' := post_sheet ws date updates in
  dated ws' ∧ length ws ≤ length ws'
  ∧ ∀ r, 1 ≤ r ≤ length ws → cell_value ws' r 1 = cell_value ws r 1.
Proof.
  intros Hok Hdt Hd Hnd ws'. pose proof Hok as [H Hs].
  assert (∀ r, 1 ≤ r →
            cell_value ws' r 1 = stored (cell_value (base_sheet ws date) r 1))
    as Hcell.
  { intros r Hr. unfold ws'. apply cell_value_post_sheet_frame; [done..|].
    right. by apply no_date_key_col1. }
  assert (∀ r, 1 ≤ r ≤ length ws → cell_value ws' r 1 = cell_value ws r 1)
    as Hold.
  { intros r Hr. rewrite Hcell, cell_value_base_sheet by lia.
    rewrite decide_False by lia.
    apply stored_id. apply stored_ok_cells; [done|lia..]. }
  pose proof (length_post_sheet ws date updates H) as Hlen.
  rewrite length_base_sheet in Hlen. fold ws' in Hlen.
  split; [|split; [destruct (find_row ws date); lia|done]].
  intros r Hr. destruct (decide (r ≤ length ws)) as [Hle|Hgt].
  - rewrite Hold by lia. apply Hdt. lia.
  - destruct (find_row ws date) as [idx|] eqn:E; [lia|].
    assert (r = length ws + 1) as -> by lia.
    rewrite Hcell, cell_value_base_sheet by lia.
    rewrite decide_True by done. by destruct date.
Qed.

Lemma serve_dated fs req :
  ledgers_ok fs → ledgers_dated fs → keeps_dates req →
  ledgers_dated (serve fs req)
  ∧ ∀ y ws, tracking_file fs y = Some ws →
      ∃ ws', tracking_file (serve fs req) y = Some ws' ∧ length ws ≤ length ws'
             ∧ ∀ r, 1 ≤ r ≤ length ws → cell_value ws' r 1 = cell_value ws r 1.
Proof.
  intros Hok Hdt Hk.
  assert (∀ fs', (∀ y, tracking_file fs' y = tracking_file fs y) →
            ledgers_dated fs'
            ∧ ∀ y ws, tracking_file fs y = Some ws →
                ∃ ws', tracking_file fs' y = Some ws' ∧ length ws ≤ length ws'
                  ∧ ∀ r, 1 ≤ r ≤ length ws →
                      cell_value ws' r 1 = cell_value ws r 1) as Hsame.
  { intros fs' Hfs. split.
    - intros y ws. rewrite Hfs. apply Hdt.
    - intros y ws Hf. exists ws. by rewrite Hfs. }
  destruct req as [year|year|year date m updates]; cbn [serve].
  - apply Hsame. intros y. apply tracking_file_create_year_folder.
  - destruct (isdigit year) eqn:Hy;
      [|rewrite create_track_date_bad by done; by apply Hsame].
    destruct (tracking_file fs year) as [ws0|] eqn:E.
    + apply Hsame. intros y. destruct (decide (y = year)) as [->|Hne].
      * by rewrite tracking_file_create_track_date, E.
      * by apply tracking_file_create_track_date_ne.
    + split.
      * intros y ws. destruct (decide (y = year)) as [->|Hne].
        -- rewrite tracking_file_create_track_date, E by done.
           intros [= <-] r Hr. cbn in Hr. lia.
        -- rewrite tracking_file_create_track_date_ne by done. apply Hdt.
      * intros y ws Hf. exists ws.
        destruct (decide (y = year)) as [->|Hne]; [congruence|].
        by rewrite tracking_file_create_track_date_ne.
  - destruct (manage_effect year date m updates fs)
      as [[-> _]|(-> & Hy & Hu & _ & ws & ws0 & Hf & _)]; [by apply Hsame|].
    cbn [keeps_dates] in Hk. destruct Hk as [Hd Hnd].
    pose proof (Hok _ _ Hf) as Hokw. destruct Hokw as [H Hs].
    rewrite (manage_post _ _ _ _ ws Hy Hf H Hu). cbn [fst].
    destruct (post_sheet_dated ws date updates (Hok _ _ Hf) (Hdt _ _ Hf) Hd Hnd)
      as (Hdt' & Hlen & Hcells).
    split.
    + intros y ws1. destruct (decide (y = year)) as [->|Hne].
      * rewrite tracking_file_insert. by intros [= <-].
      * rewrite tracking_file_insert_ne by done. apply Hdt.
    + intros y ws1 Hf1. destruct (decide (y = year)) as [->|Hne].
      * rewrite tracking_file_insert. eexists. split; [done|].
        assert (ws1 = ws) as -> by congruence. done.
      * rewrite tracking_file_insert_ne by done. by eauto.
Qed.

Lemma serve_all_ledgers reqs fs :
  ledgers_ok fs →
  ledgers_ok (foldl serve fs reqs)
  ∧ ∀ y, is_Some (tracking_file fs y)
         → is_Some (tracking_file (foldl serve fs reqs) y).
Proof.
  revert fs. induction reqs as [|req reqs IH]; intros fs Hok; cbn [foldl]; [done|].
  destruct (serve_ledgers fs req Hok) as [Hok1 Hex1].
  destruct (IH _ Hok1) as [Hok2 Hex2]. split; [done|].
  intros y Hf. by apply Hex2, Hex1.
Qed.

Lemma serve_all_dated reqs fs :
  ledgers_ok fs → ledgers_dated fs → Forall keeps_dates reqs →
  ledgers_dated (foldl serve fs reqs)
  ∧ ∀ y ws, tracking_file fs y = Some ws →
      ∃ ws', tracking_file (foldl serve fs reqs) y = Some ws'
             ∧ length ws ≤ length ws'
             ∧ ∀ r, 1 ≤ r ≤ length ws → cell_value ws' r 1 = cell_value ws r 1.
Proof.
  intros Hok Hdt Hks. revert fs Hok Hdt.
  induction Hks as [|req reqs Hk Hks IH]; intros fs Hok Hdt; cbn [foldl].
  - split; [done|]. by eauto.
  - destruct (serve_ledgers fs req Hok) as [Hok1 _].
    destruct (serve_dated fs req Hok Hdt Hk) as [Hdt1 Hrows1].
    destruct (IH _ Hok1 Hdt1) as [Hdt2 Hrows2]. split; [done|].
    intros y ws Hf. destruct (Hrows1 _ _ Hf) as (ws1 & Hf1 & Hl1 & Hc1).
    destruct (Hrows2 _ _ Hf1) as (ws2 & Hf2 & Hl2 & Hc2).
    exists ws2. split; [done|]. split; [lia|].
    intros r Hr. rewrite Hc2 by lia. by apply Hc1.
Qed.

(** Property X8.  Well-formed ledgers are an invariant of the service:
    after any sequence of requests to the three endpoints that write, every
    ledger still has the header row that [create_track_date] wrote and no cell
    holding the empty string, and every ledger that existed still exists.
    When moreover every row of every ledger has a date, and no POST of the
    sequence carries a ['date'] member (the date of its URL is not empty), no
    row is lost: every row still has a date, and every ledger has at least as
    many rows as before, the old ones with the date they had. *)
Theorem service_keeps_ledgers reqs fs :
  ledgers_ok fs →
  let fs' := foldl serve fs reqs in
  ledgers_ok fs'
  ∧ (∀ y, is_Some (tracking_file fs y) → is_Some (tracking_file fs' y))
  ∧ (ledgers_dated fs → Forall keeps_dates reqs →
     ledgers_dated fs'
     ∧ ∀ y ws, tracking_file fs y = Some ws →
         ∃ ws', tracking_file fs' y = Some ws' ∧ length ws ≤ length ws'
                ∧ ∀ r, 1 ≤ r ≤ length ws →
                    cell_value ws' r 1 = cell_value ws r 1).
Proof.
  intros Hok fs'. destruct (serve_all_ledgers reqs fs Hok) as [Hok' Hex].
  split; [done|]. split; [done|]. intros Hdt Hks.
  by apply serve_all_dated.
Qed.

(** Property X8 on the ledger of one row, whose row has a date, for the
    creation of a ledger and two POSTs without ['date'] member. *)
Lemma service_keeps_ledgers_witness :
  let reqs := [CreateTrackDate "2025";
               ManageTracking "2026" "2025-10-02" POST [("file_1", Some "a")];
               ManageTracking "2026" "2025-10-01" POST [("file_2", Some "")]] in
  let fs' := foldl serve one_row_ledger reqs in
  ledgers_ok fs'
  ∧ (∀ y, is_Some (tracking_file one_row_ledger y)
          → is_Some (tracking_file fs' y))
  ∧ ledgers_dated fs'
  ∧ ∀ y ws, tracking_file one_row_ledger y = Some ws →
      ∃ ws', tracking_file fs' y = Some ws' ∧ length ws ≤ length ws'
             ∧ ∀ r, 1 ≤ r ≤ length ws →
                 cell_value ws' r 1 = cell_value ws r 1.
Proof.
  intros reqs fs'.
  assert (∀ y ws, tracking_file one_row_ledger y = Some ws → ws = one_row_sheet)
    as Hone.
  { intros y ws Hf. unfold one_row_ledger, tracking_file in Hf.
    destruct (decide (y = "2026")) as [->|Hne].
    - rewrite lookup_singleton_eq in Hf. by injection Hf as <-.
    - by rewrite lookup_singleton_ne in Hf. }
  destruct (service_keeps_ledgers reqs one_row_ledger) as (Hok & Hex & Hrows).
  - intros y ws Hf. rewrite (Hone _ _ Hf).
    split; [reflexivity|]. repeat constructor; discriminate.
  - split; [exact Hok|]. split; [exact Hex|]. apply Hrows.
    + intros y ws Hf r Hr. rewrite (Hone _ _ Hf) in *. cbn in Hr.
      assert (r = 2) as -> by lia. discriminate.
    + repeat constructor; cbn; discriminate.
Defined.

(** ** The listing and its readers *)

Lemma file_2_items_rows (ws : worksheet) rs :
  max_column ws = 12 →
  file_2_items (row_dict ws <$> rs) = (λ r, cell_value ws r 3) <$> rs.
Proof.
  intros Hm. unfold file_2_items.
  induction rs as [|r rs IH]; [done|].
  rewrite !fmap_cons. cbn [omap list_omap]. rewrite row_dict_lookup by done.
  change (slot_col "file_2") with (Some 3). cbn [fmap option_fmap option_map].
  f_equal. apply IH.
Qed.

Lemma read_tracking_sheet_code year fs :
  listing_code (read_tracking_sheet year fs)
  = if isdigit year
    then match tracking_file fs year with Some _ => 200 | None => 404 end
    else 400.
Proof.
  unfold read_tracking_sheet.
  destruct (isdigit year); [|done]. by destruct (tracking_file fs year).
Qed.

Lemma fetch_file_list_ledger year fs ws :
  isdigit year = true → tracking_file fs year = Some ws → headers_ok ws →
  fetch_file_list year fs
  = Some ((λ r, cell_value ws r 3) <$> seq 2 (length ws - 1)).
Proof.
  intros Hy Hf H. unfold fetch_file_list.
  rewrite read_tracking_sheet_code, Hy, Hf. cbn [Nat.eqb]. f_equal.
  change (default [] (listing_data (read_tracking_sheet year fs)))
    with (listed fs year).
  rewrite (listed_ledger _ _ ws) by done.
  by apply file_2_items_rows, headers_ok_max_column.
Qed.

(** Property X9.  [fetch_file_list] returns [None] exactly when the year
    is not made of digits or has no ledger; otherwise, on a ledger, it returns
    one entry per row below the header, in row order: the value of the
    [file_2] cell of the row, [None] for an empty cell.  No row is skipped. *)
Theorem fetch_file_list_reads_the_column year fs :
  match fetch_file_list year fs with
  | None => isdigit year = false ∨ tracking_file fs year = None
  | Some l =>
      ∃ ws, isdigit year = true ∧ tracking_file fs year = Some ws
            ∧ (headers_ok ws →
               l = (λ r, cell_value ws r 3) <$> seq 2 (length ws - 1))
  end.
Proof.
  destruct (isdigit year) eqn:Hy; [destruct (tracking_file fs year) as [ws|] eqn:Hf|].
  - unfold fetch_file_list at 1. rewrite read_tracking_sheet_code, Hy, Hf.
    cbn [Nat.eqb]. exists ws. split; [done|]. split; [done|]. intros H.
    pose proof (fetch_file_list_ledger _ _ _ Hy Hf H) as E.
    unfold fetch_file_list in E. rewrite read_tracking_sheet_code, Hy, Hf in E.
    cbn [Nat.eqb] in E. by injection E.
  - unfold fetch_file_list. rewrite read_tracking_sheet_code, Hy, Hf. by right.
  - unfold fetch_file_list. rewrite read_tracking_sheet_code, Hy. by left.
Qed.

(** Property X9 on the ledger of one row. *)
Lemma fetch_file_list_reads_the_column_witness :
  match fetch_file_list "2026" one_row_ledger with
  | None => isdigit "2026" = false ∨ tracking_file one_row_ledger "2026" = None
  | Some l =>
      ∃ ws, isdigit "2026" = true ∧ tracking_file one_row_ledger "2026" = Some ws
            ∧ (headers_ok ws →
               l = (λ r, cell_value ws r 3) <$> seq 2 (length ws - 1))
  end.
Proof. apply (fetch_file_list_reads_the_column "2026" one_row_ledger). Defined.

(** Property X10.  A ledger just created by [create_track_date] is empty
    for every reader: the listing answers 200 with no row, [fetch_file_list]
    returns the empty list, and a GET on any date answers 404. *)
Theorem new_ledger_is_empty year fs :
  isdigit year = true → tracking_file fs year = None →
  let fs' := (create_track_date year fs).1 in
  read_tracking_sheet year fs' = Listing 200 "success" (Some [])
  ∧ fetch_file_list year fs' = Some []
  ∧ ∀ date, (manage_tracking_by_date year date GET [] fs').2
            = Response 404 "error" Message.
Proof.
  intros Hy Hf fs'.
  assert (tracking_file fs' year = Some [headers_row]) as Hf'.
  { subst fs'. by rewrite tracking_file_create_track_date, Hf. }
  split; [|split].
  - unfold read_tracking_sheet. by rewrite Hy, Hf'.
  - by rewrite (fetch_file_list_ledger _ _ [headers_row]).
  - intros date. by rewrite (manage_get _ _ _ _ [headers_row]).
Qed.

(** Property X10 for 2026 on an empty [Nse_files]. *)
Lemma new_ledger_is_empty_witness :
  let fs' := (create_track_date "2026" ∅).1 in
  read_tracking_sheet "2026" fs' = Listing 200 "success" (Some [])
  ∧ fetch_file_list "2026" fs' = Some []
  ∧ ∀ date, (manage_tracking_by_date "2026" date GET [] fs').2
            = Response 404 "error" Message.
Proof. apply (new_ledger_is_empty "2026" ∅); reflexivity. Defined.

End ListingFacts.

(** * Passes over the dates *)

Module PassFacts.
Import Py Openpyxl Main Requests DataDownloader Ledger Passes.
Import Listing FileList Rows Outcome LedgerFacts DriverFacts ListingFacts.

Lemma get_row_no_ledger fs year date :
  isdigit year = false ∨ tracking_file fs year = None →
  get_row fs year date = None.
Proof.
  unfold get_row, manage_tracking_by_date. intros [Hy|Hf].
  - by rewrite Hy.
  - rewrite Hf. by destruct (isdigit year).
Qed.

Lemma post_no_ledger year date updates fs :
  isdigit year = false ∨ tracking_file fs year = None →
  (manage_tracking_by_date year date POST updates fs).1 = fs.
Proof.
  intros Hn.
  destruct (manage_effect year date POST updates fs)
    as [[-> _]|(_ & Hy & _ & _ & ws & ws' & Hf & _)]; [done|].
  destruct Hn; congruence.
Qed.

Lemma post_results_no_ledger download year date ks fs :
  isdigit year = false ∨ tracking_file fs year = None →
  post_results download year date ks fs = fs.
Proof.
  intros Hn. unfold post_results.
  induction ks as [|k ks IH]; [done|].
  cbn [foldl]. by rewrite post_no_ledger.
Qed.

Lemma elem_of_pending fs year date tasks k :
  k ∈ pending fs year date tasks
  ↔ truthy (read_slot fs year date k) = false ∧ k ∈ tasks.
Proof. unfold pending. by rewrite list_elem_of_filter. Qed.

Lemma elem_of_fetched download date ks k :
  k ∈ fetched download date ks ↔ truthy (download k date) = true ∧ k ∈ ks.
Proof. unfold fetched. by rewrite list_elem_of_filter. Qed.

Lemma filter_ext_in {A : Type} (P Q : A → Prop)
    `{!∀ x, Decision (P x), !∀ x, Decision (Q x)} (l : list A) :
  (∀ x, x ∈ l → P x ↔ Q x) → filter P l = filter Q l.
Proof.
  induction l as [|a l IH]; intros Hpq; [done|].
  rewrite !filter_cons. rewrite IH by (intros x Hx; apply Hpq; by right).
  apply decide_ext, Hpq. by left.
Qed.

(** Property X11.  Without a ledger (a year not made of digits, or no
    tracking file) a pass of [process_date] calls the five downloaders, in the
    order of the tasks, posts every result it gets, and records nothing: the
    file system is unchanged. *)
Theorem pass_without_ledger download year date w :
  isdigit year = false ∨ tracking_file (files w) year = None →
  let w' := process_date download year date w in
  files w' = files w
  ∧ invoked w' = invoked w ++ ((λ k, (k, date)) <$> download_tasks)
  ∧ posted w'
    = posted w
      ++ (result_post download year date <$> fetched download date download_tasks).
Proof.
  intros Hn. rewrite process_date_unfold. cbv zeta. cbn [files invoked posted].
  assert (pending (files w) year date download_tasks = download_tasks) as ->.
  { unfold pending. rewrite (filter_ext_in _ (λ _, True)).
    - by induction download_tasks as [|k ks IH]; [|rewrite filter_cons_True, IH].
    - intros k _. unfold read_slot. by rewrite get_row_no_ledger. }
  by rewrite post_results_no_ledger.
Qed.

(** Property X11 on an empty [Nse_files]. *)
Lemma pass_without_ledger_witness :
  let w := World ∅ [] [] in
  let w' := process_date (always "cm.csv") "2026" "2025-10-01" w in
  files w' = files w
  ∧ invoked w'
    = invoked w ++ ((λ k, (k, "2025-10-01")) <$> download_tasks)
  ∧ posted w'
    = posted w
      ++ (result_post (always "cm.csv") "2026" "2025-10-01"
            <$> fetched (always "cm.csv") "2025-10-01" download_tasks).
Proof.
  apply (pass_without_ledger (always "cm.csv") "2026" "2025-10-01" (World ∅ [] [])).
  right. reflexivity.
Defined.

(** Property X12.  On a ledger, a second pass of [process_date] over the
    same date with the same downloader posts nothing and leaves the file system
    as the first pass left it; it calls again exactly the downloaders of the
    slots that were pending and whose download gave no result. *)
Theorem second_pass_changes_nothing download year date w ws :
  isdigit year = true → tracking_file (files w) year = Some ws → ledger_ok ws →
  date ≠ "" →
  let w1 := process_date download year date w in
  let w2 := process_date download year date w1 in
  files w2 = files w1
  ∧ posted w2 = posted w1
  ∧ invoked w2
    = invoked w1
      ++ ((λ k, (k, date))
            <$> filter (λ k, truthy (download k date) = false)
                  (pending (files w) year date download_tasks)).
Proof.
  intros Hy Hf Hok Hd w1 w2.
  destruct (process_date_spec download year date w ws Hy Hf Hok Hd)
    as (_ & _ & ws1 & Hf1 & Hok1 & Hread).
  fold w1 in Hf1, Hread.
  assert (pending (files w1) year date download_tasks
          = filter (λ k, truthy (download k date) = false)
              (pending (files w) year date download_tasks)) as Hp.
  { unfold pending. rewrite list_filter_filter. apply filter_ext_in.
    intros k Hk. destruct (task_known k Hk) as [Hkd _].
    rewrite Hread by done.
    destruct (decide (date = date ∧ k ∈ _)) as [[_ Hg]|Hg].
    - apply elem_of_fetched in Hg as [Hdl _]. split; [congruence|].
      intros [? _]. congruence.
    - split; [|by intros [_ ?]]. intros Hr. split; [|done].
      destruct (truthy (download k date)) eqn:Hdl; [|done].
      exfalso. apply Hg. split; [done|].
      apply elem_of_fetched. split; [done|]. by apply elem_of_pending. }
  subst w2. rewrite (process_date_unfold download year date w1). cbv zeta.
  cbn [files posted invoked]. rewrite Hp.
  assert (fetched download date
            (filter (λ k, truthy (download k date) = false)
               (pending (files w) year date download_tasks)) = []) as ->.
  { unfold fetched. rewrite list_filter_filter.
    rewrite (filter_ext_in _ (λ _, False)).
    - generalize (pending (files w) year date download_tasks).
      by intros l; induction l as [|k ks IH];
        [|rewrite filter_cons_False by tauto].
    - intros k _. split; [intros [? ?]; congruence|done]. }
  cbn [fmap list_fmap]. by rewrite app_nil_r.
Qed.

(** Property X12 on a new ledger. *)
Lemma second_pass_changes_nothing_witness :
  let w1 := process_date (always "cm.csv") "2026" "2025-10-01" fresh_world in
  let w2 := process_date (always "cm.csv") "2026" "2025-10-01" w1 in
  files w2 = files w1
  ∧ posted w2 = posted w1
  ∧ invoked w2
    = invoked w1
      ++ ((λ k, (k, "2025-10-01"))
            <$> filter (λ k, truthy (always "cm.csv" k "2025-10-01") = false)
                  (pending (files fresh_world) "2026" "2025-10-01"
                     download_tasks)).
Proof.
  apply (second_pass_changes_nothing (always "cm.csv") "2026" "2025-10-01"
           fresh_world [headers_row]).
  - reflexivity.
  - reflexivity.
  - split; [reflexivity|]. repeat constructor; discriminate.
  - discriminate.
Defined.

Lemma run_dates_cons download year date dates w :
  run_dates download year (date :: dates) w
  = run_dates download year dates (process_date download year date w).
Proof. done. Qed.

Lemma run_dates_spec download year dates w ws :
  isdigit year = true → tracking_file (files w) year = Some ws → ledger_ok ws →
  Forall (λ d, d ≠ "") dates →
  let w' := run_dates download year dates w in
  (∃ ws', tracking_file (files w') year = Some ws' ∧ ledger_ok ws')
  ∧ ∀ d k, k ≠ "date" →
      read_slot (files w') year d k
      = reconciled download (files w) year dates d k.
Proof.
  intros Hy Hf Hok Hds. cbv zeta. revert w ws Hf Hok.
  induction Hds as [|date dates Hd Hds IH]; intros w ws Hf Hok.
  - split; [by eauto|]. intros d k _. unfold reconciled.
    rewrite decide_False; [done|]. intros [Hin _]. by apply elem_of_nil in Hin.
  - rewrite run_dates_cons.
    destruct (process_date_spec download year date w ws Hy Hf Hok Hd)
      as (_ & _ & ws1 & Hf1 & Hok1 & Hread).
    destruct (IH _ _ Hf1 Hok1) as [Hled Hfin]. split; [done|].
    intros d k Hk. rewrite Hfin by done. unfold reconciled.
    rewrite !Hread by done.
    set (got := fetched download date (pending (files w) year date download_tasks)).
    assert (∀ k, k ∈ got ↔ truthy (download k date) = true
                 ∧ truthy (read_slot (files w) year date k) = false
                 ∧ k ∈ download_tasks) as Hgot.
    { intros k0. unfold got. by rewrite elem_of_fetched, elem_of_pending. }
    destruct (decide (d = date ∧ k ∈ got)) as [[-> Hg]|Hg].
    + apply Hgot in Hg as (Hdl & Hr & Hin).
      rewrite (decide_True (P := date ∈ date :: dates ∧ _)); [|by repeat split; [left|..]].
      rewrite decide_False; [done|]. intros (_ & _ & Hc & _). congruence.
    + destruct (decide (d ∈ dates ∧ _)) as [(Hin & Hkt & Hr & Hdl)|Hn].
      * rewrite decide_True; [done|]. by repeat split; [right|..].
      * rewrite decide_False; [done|]. intros (Hin & Hkt & Hr & Hdl).
        apply elem_of_cons in Hin as [->|Hin].
        -- apply Hg. split; [done|]. by apply Hgot.
        -- by apply Hn.
Qed.

(** Property X13.  After [run_dates] over [dates] on a ledger, the slot
    [k] of a date [d] holds the result of the download when [d] is one of the
    dates, [k] one of the five tasks, the slot read as empty before the run and
    the download gave a result; in every other case it holds what it held
    before.  Dates may repeat in the list. *)
Theorem run_dates_reconciles download year dates w ws :
  isdigit year = true → tracking_file (files w) year = Some ws → ledger_ok ws →
  Forall (λ d, d ≠ "") dates →
  let w' := run_dates download year dates w in
  (∃ ws', tracking_file (files w') year = Some ws' ∧ ledger_ok ws')
  ∧ ∀ d k, k ≠ "date" →
      read_slot (files w') year d k
      = reconciled download (files w) year dates d k.
Proof. apply run_dates_spec. Qed.

(** Property X13 for two dates on the ledger of one row. *)
Lemma run_dates_reconciles_witness :
  let w' := run_dates (always "cm.csv") "2026" ["2025-10-01"; "2025-10-02"]
              one_row_world in
  (∃ ws', tracking_file (files w') "2026" = Some ws' ∧ ledger_ok ws')
  ∧ ∀ d k, k ≠ "date" →
      read_slot (files w') "2026" d k
      = reconciled (always "cm.csv") (files one_row_world) "2026"
          ["2025-10-01"; "2025-10-02"] d k.
Proof.
  apply (run_dates_reconciles (always "cm.csv") "2026" _ one_row_world
           one_row_sheet).
  - reflexivity.
  - reflexivity.
  - split; [reflexivity|]. repeat constructor; discriminate.
  - repeat constructor; discriminate.
Defined.

Lemma NoDup_download_tasks : NoDup download_tasks.
Proof. unfold download_tasks. by apply (bool_decide_unpack _). Qed.

(** Property X14.  The downloader calls of [run_dates] on a ledger: each
    call is for one of the five tasks and one of the dates, on a slot that read
    as empty before the run; and when no date repeats in the list, no
    downloader is called twice for the same date. *)
Theorem run_dates_calls download year dates w ws :
  isdigit year = true → tracking_file (files w) year = Some ws → ledger_ok ws →
  Forall (λ d, d ≠ "") dates →
  ∃ calls, invoked (run_dates download year dates w) = invoked w ++ calls
    ∧ (∀ k d, (k, d) ∈ calls →
         k ∈ download_tasks ∧ d ∈ dates
         ∧ truthy (read_slot (files w) year d k) = false)
    ∧ (NoDup dates → NoDup calls).
Proof.
  intros Hy Hf Hok Hds. revert w ws Hf Hok.
  induction Hds as [|date dates Hd Hds IH]; intros w ws Hf Hok.
  - exists []. split; [by rewrite app_nil_r|]. split; [|by constructor].
    intros k d Hin. by apply elem_of_nil in Hin.
  - rewrite run_dates_cons.
    destruct (process_date_spec download year date w ws Hy Hf Hok Hd)
      as (Hinv & _ & ws1 & Hf1 & Hok1 & Hread).
    destruct (IH _ _ Hf1 Hok1) as (calls1 & Hinv1 & Hin1 & Hnd1).
    set (ks := pending (files w) year date download_tasks) in *.
    exists (((λ k, (k, date)) <$> ks) ++ calls1).
    split; [by rewrite Hinv1, Hinv, <- app_assoc|].
    assert (∀ k d, (k, d) ∈ (λ k, (k, date)) <$> ks →
              d = date ∧ k ∈ download_tasks
              ∧ truthy (read_slot (files w) year d k) = false) as Hpairs.
    { intros k d Hin. apply list_elem_of_fmap in Hin as (k0 & [= -> ->] & Hk0).
      apply elem_of_pending in Hk0 as [? ?]. done. }
    split.
    + intros k d Hin. apply elem_of_app in Hin as [Hin|Hin].
      * destruct (Hpairs _ _ Hin) as (-> & Hk & Hr).
        split; [done|]. split; [by left|done].
      * destruct (Hin1 _ _ Hin) as (Hk & Hd' & Hr).
        split; [done|]. split; [by right|].
        destruct (task_known k Hk) as [Hkd _]. rewrite Hread in Hr by done.
        destruct (decide (d = date ∧ k ∈ _)) as [[_ Hg]|_]; [|done].
        apply elem_of_fetched in Hg as [Hdl _]. congruence.
    + intros Hnd. apply NoDup_cons in Hnd as [Hnin Hnd].
      apply NoDup_app. split; [|split; [|by apply Hnd1]].
      * apply NoDup_fmap_2; [by intros ? ? [=]|].
        apply NoDup_filter, NoDup_download_tasks.
      * intros [k d] Hin Hin'. destruct (Hpairs _ _ Hin) as (-> & _).
        destruct (Hin1 _ _ Hin') as (_ & ? & _). done.
Qed.

(** Property X14 for two dates on the ledger of one row. *)
Lemma run_dates_calls_witness :
  ∃ calls,
    invoked (run_dates no_data "2026" ["2025-10-01"; "2025-10-02"] one_row_world)
    = invoked one_row_world ++ calls
    ∧ (∀ k d, (k, d) ∈ calls →
         k ∈ download_tasks ∧ d ∈ ["2025-10-01"; "2025-10-02"]
         ∧ truthy (read_slot (files one_row_world) "2026" d k) = false)
    ∧ (NoDup ["2025-10-01"; "2025-10-02"] → NoDup calls).
Proof.
  apply (run_dates_calls no_data "2026" _ one_row_world one_row_sheet).
  - reflexivity.
  - reflexivity.
  - split; [reflexivity|]. repeat constructor; discriminate.
  - repeat constructor; discriminate.
Defined.

(** A second call through the cache, for the year of the first, returns
    what the first returned, whatever has been written in between. *)
Lemma cached_fetch_file_list_again year c fs fs' :
  (cached_fetch_file_list year (cached_fetch_file_list year c fs).1 fs').2
  = (cached_fetch_file_list year c fs).2.
Proof.
  unfold cached_fetch_file_list.
  destruct c as [[y result]|]; [destruct (decide (y = year)) as [->|Hne]|];
    cbn [fst snd]; by rewrite ?decide_True.
Qed.



(** The reader of the script on the ledger of one row: a path recorded for
    the date of the row is fetched by a first call, and not by a call that
    follows a call made before the driver wrote. *)
Example stale_file_list :
  let w' := update_tracking_status "2026" "2025-10-01" "file_2" "fo.csv"
              one_row_world in
  let first := cached_fetch_file_list "2026" None (files one_row_world) in
  fetch_file_list "2026" (files w') = Some [Some "fo.csv"]
  ∧ first.2 = fetch_file_list "2026" (files one_row_world)
  ∧ (cached_fetch_file_list "2026" first.1 (files w')).2 = first.2
  ∧ first.2 ≠ Some [Some "fo.csv"].
Proof. vm_compute. repeat split; done. Qed.

End PassFacts.

(** * The workflows from the calendar to the ledger *)

Module WorkflowFacts.
Import Py Openpyxl Main Datetime Calendar Requests DataDownloader Ledger Passes Days.
Import Spans.
Import Listing FileList Urls Workflow Rows Outcome.
Import LedgerFacts DriverFacts CalendarFacts ListingFacts PassFacts.
Local Open Scope Z_scope.

(** ** The text of a year *)

Lemma isdigit_char_digit n : isdigit_char (digit n) = true.
Proof.
  unfold isdigit_char, digit.
  assert (0 ≤ n mod 10 < 10) as Hm by (apply Z.mod_pos_bound; lia).
  rewrite nat_ascii_embedding by lia.
  apply orb_true_iff. left. apply orb_true_iff. left. apply orb_true_iff. left.
  apply andb_true_iff. split; apply Nat.leb_le; lia.
Qed.

Lemma all_digits_digits_to fuel n acc :
  all_digits acc = true → all_digits (digits_to fuel n acc) = true.
Proof.
  revert n acc. induction fuel as [|fuel IH]; intros n acc Hacc; [done|].
  cbn [digits_to].
  assert (all_digits (String (digit n) acc) = true) as Hacc'
    by (cbn [all_digits]; by rewrite isdigit_char_digit).
  destruct (n <? 10); [done|]. by apply IH.
Qed.

Lemma digits_to_nonempty fuel n acc : acc ≠ "" → digits_to fuel n acc ≠ "".
Proof.
  revert n acc. induction fuel as [|fuel IH]; intros n acc Hacc; [done|].
  cbn [digits_to]. destruct (n <? 10); [done|]. by apply IH.
Qed.

Lemma isdigit_int_str n : 0 ≤ n → isdigit (int_str n) = true.
Proof.
  intros Hn. unfold int_str. rewrite (proj2 (Z.ltb_ge n 0)) by lia.
  pose proof (all_digits_digits_to (S (Z.to_nat (Z.log2 n))) n "" eq_refl) as Ha.
  assert (digits_to (S (Z.to_nat (Z.log2 n))) n "" ≠ "") as Hne.
  { cbn [digits_to]. destruct (n <? 10); [done|]. by apply digits_to_nonempty. }
  unfold isdigit. by destruct (digits_to _ _ _).
Qed.

Lemma isdigit_int_str_neg n : n < 0 → isdigit (int_str n) = false.
Proof.
  intros Hn. unfold int_str. by rewrite (proj2 (Z.ltb_lt n 0)) by lia.
Qed.

Example int_str_examples :
  (int_str 2026, int_str 0, int_str 7, int_str 10, int_str 9999, int_str (-15))
  = ("2026", "0", "7", "10", "9999", "-15")%string.
Proof. reflexivity. Qed.

(** ** The calendar of a valid year *)

Lemma calendar_span today year :
  1 ≤ today → 2 ≤ year →
  let span := last_day today year - ymd2ord (year - 1) 10 1 + 1 in
  92 ≤ span ≤ 458
  ∧ (year ≠ year_of today → span = if is_leap year then 458 else 457).
Proof.
  intros Ht Hy. cbv zeta. unfold last_day.
  pose proof (days_before_year_leap (year - 1)) as Hs.
  replace (year - 1 + 1) with year in Hs by lia.
  assert (ymd2ord (year - 1) 10 1
          = days_before_year (year - 1) + 274
            + (if is_leap (year - 1) then 1 else 0)) as Hstart.
  { unfold ymd2ord, days_before_month. change (2 <? 10) with true.
    change (DAYS_BEFORE_MONTH 10) with 273.
    destruct (is_leap (year - 1)); cbn [andb]; lia. }
  assert (ymd2ord year 12 31
          = days_before_year year + 365 + (if is_leap year then 1 else 0)) as Hend.
  { unfold ymd2ord, days_before_month. change (2 <? 12) with true.
    change (DAYS_BEFORE_MONTH 12) with 334.
    destruct (is_leap year); cbn [andb]; lia. }
  destruct (Z.eqb_spec year (year_of today)) as [Heq|Hne].
  - split; [|done]. pose proof (year_of_bounds today Ht) as Hb.
    rewrite <- Heq in Hb. destruct (is_leap (year - 1)); lia.
  - split; [|intros _]; destruct (is_leap (year - 1)), (is_leap year); lia.
Qed.

Lemma get_year_dates_returns fuel today year :
  1 ≤ today ≤ MAXORDINAL → 2 ≤ year ≤ 9998 → (460 ≤ fuel)%nat →
  let ds := strftime <$> date_range (ymd2ord (year - 1) 10 1) (last_day today year) in
  get_year_dates fuel today year
  = Returned {| requested_year := year;
                is_current_year := (year =? year_of today);
                range_start := strftime (ymd2ord (year - 1) 10 1);
                range_end := strftime (last_day today year);
                total_days := length ds;
                dates := ds |}.
Proof.
  intros Htoday Hyear Hfuel.
  destruct (ymd2ord_bounds (year - 1) ltac:(lia)) as [Hs1 _].
  destruct (ymd2ord_bounds year ltac:(lia)) as [_ He1].
  destruct (calendar_span today year ltac:(lia) ltac:(lia)) as [Hspan _].
  unfold get_year_dates. rewrite new_valid by (cbn; lia).
  assert ((if year =? year_of today then add_days today (-1)
           else new year 12 31) = Some (last_day today year)) as ->.
  { unfold last_day in *. destruct (Z.eqb_spec year (year_of today)) as [Heq|Hne].
    - unfold add_days.
      rewrite (proj2 (Z.ltb_lt 0 (today + -1))) by lia.
      rewrite (proj2 (Z.leb_le (today + -1) MAXORDINAL)) by lia.
      cbn [andb]. f_equal; lia.
    - apply new_valid; cbn; lia. }
  assert (last_day today year < MAXORDINAL) as Hend.
  { unfold last_day. destruct (year =? year_of today); lia. }
  rewrite dates_loop_spec by (done || lia). done.
Qed.

Lemma strftime_nonempty d : strftime d ≠ "".
Proof.
  unfold strftime, year_digits, four_digits, two_digits.
  repeat case_match; cbn; discriminate.
Qed.

Lemma calendar_dates_nonempty today year :
  1 ≤ today → 2 ≤ year →
  let ds := strftime <$> date_range (ymd2ord (year - 1) 10 1) (last_day today year) in
  ds ≠ [] ∧ Forall (λ d, d ≠ "") ds.
Proof.
  intros Ht Hy ds. destruct (calendar_span today year Ht Hy) as [Hspan _]. split.
  - subst ds. unfold date_range. rewrite seqZ_cons by lia. done.
  - subst ds. apply Forall_fmap, Forall_forall. intros d _.
    apply strftime_nonempty.
Qed.

Lemma get_download_valid fuel today year :
  1 ≤ today ≤ MAXORDINAL → 2 ≤ year ≤ 9998 → (460 ≤ fuel)%nat →
  ∃ c, get_download fuel today year = Returned (200%nat, Some c)
       ∧ dates c
         = strftime <$> date_range (ymd2ord (year - 1) 10 1) (last_day today year).
Proof.
  intros Ht Hy Hf. eexists. split.
  - unfold get_download. rewrite (proj2 (Z.ltb_ge year 0)) by lia.
    by rewrite get_year_dates_returns.
  - done.
Qed.

(** Property X16.  For a year from 2 to 9998 the calendar endpoint returns
    with fuel for 460 tests of its loop, whatever the day it is asked on: the
    calendar has between 92 and 458 dates, [total_days] is their number, and
    for a year other than the current one there are 457 dates, 458 when the
    year is a leap year. *)
Theorem calendar_size fuel today year :
  1 ≤ today ≤ MAXORDINAL → 2 ≤ year ≤ 9998 → (460 ≤ fuel)%nat →
  ∃ c, get_year_dates fuel today year = Returned c
    ∧ total_days c = length (dates c)
    ∧ (92 ≤ total_days c ≤ 458)%nat
    ∧ (year ≠ year_of today →
       total_days c = if is_leap year then 458%nat else 457%nat).
Proof.
  intros Ht Hy Hf. eexists. split; [by apply get_year_dates_returns|].
  cbn [total_days dates]. split; [done|].
  destruct (calendar_span today year ltac:(lia) ltac:(lia)) as [Hspan Hpast].
  rewrite length_fmap. unfold date_range. rewrite length_seqZ.
  split; [lia|]. intros Hne. rewrite (Hpast Hne). by destruct (is_leap year).
Qed.

(** Property X16 for 2024, asked on 2026-11-03. *)
Lemma calendar_size_witness :
  ∃ c, get_year_dates 460 (ymd2ord 2026 11 3) 2024 = Returned c
    ∧ total_days c = length (dates c)
    ∧ (92 ≤ total_days c ≤ 458)%nat
    ∧ (2024 ≠ year_of (ymd2ord 2026 11 3) →
       total_days c = if is_leap 2024 then 458%nat else 457%nat).
Proof.
  apply (calendar_size 460 (ymd2ord 2026 11 3) 2024).
  - split; apply Z.leb_le; reflexivity.
  - lia.
  - lia.
Defined.

Lemma get_download_outside fuel today year :
  year ≤ 1 ∨ 10001 ≤ year →
  get_download fuel today year
  = Returned (if year <? 0 then 404%nat else 400%nat, None).
Proof.
  intros Hy. unfold get_download. destruct (year <? 0) eqn:E; [done|].
  unfold get_year_dates, new, MINYEAR, MAXYEAR.
  destruct (Z.leb_spec 1 (year - 1)), (Z.leb_spec (year - 1) 9999);
    try lia; done.
Qed.

(** ** The ledger the drivers ask for *)

Lemma read_slot_tracking_file fs1 fs2 year date k :
  tracking_file fs1 year = tracking_file fs2 year →
  read_slot fs1 year date k = read_slot fs2 year date k.
Proof. intros Hf. unfold read_slot. by rewrite (get_row_tracking_file fs1 fs2). Qed.

Lemma read_slot_create_track_date y year fs date k :
  read_slot (create_track_date y fs).1 year date k = read_slot fs year date k.
Proof.
  destruct (decide (year = y)) as [->|Hne];
    [|by apply read_slot_tracking_file, tracking_file_create_track_date_ne].
  destruct (isdigit y) eqn:Hy; [|by rewrite create_track_date_bad].
  destruct (tracking_file fs y) as [ws|] eqn:Hf.
  - apply read_slot_tracking_file.
    by rewrite tracking_file_create_track_date, Hf.
  - unfold read_slot. rewrite (get_row_no_ledger fs) by by right.
    pose proof (tracking_file_create_track_date y fs Hy) as Hf'.
    rewrite Hf in Hf'. cbn [default] in Hf'.
    rewrite (get_row_find _ _ _ [headers_row]) by done. done.
Qed.

Lemma reconciled_ext download fs1 fs2 year dates d k :
  (∀ d k, read_slot fs1 year d k = read_slot fs2 year d k) →
  reconciled download fs1 year dates d k = reconciled download fs2 year dates d k.
Proof. intros Hr. unfold reconciled. by rewrite !Hr. Qed.

(** Property X17.  The workflow [run] on a year from 2 to 9998, started
    with no ledger for the year or with a well-formed one: it returns, the
    ledger of the year exists afterwards and is well formed, and every slot
    holds what the passes over the dates of the calendar leave in it, as in
    Property X13, read from the file system [run] started on. *)
Theorem run_fills_the_calendar download fuel today year w :
  1 ≤ today ≤ MAXORDINAL → 2 ≤ year ≤ 9998 → (460 ≤ fuel)%nat →
  (∀ ws, tracking_file (files w) (int_str year) = Some ws → ledger_ok ws) →
  let ds := strftime <$> date_range (ymd2ord (year - 1) 10 1) (last_day today year) in
  ∃ w', run download fuel today year w = Returned w'
    ∧ (∃ ws', tracking_file (files w') (int_str year) = Some ws' ∧ ledger_ok ws')
    ∧ ∀ d k, k ≠ "date" →
        read_slot (files w') (int_str year) d k
        = reconciled download (files w) (int_str year) ds d k.
Proof.
  intros Ht Hy Hfuel Hok ds.
  destruct (get_download_valid fuel today year Ht Hy Hfuel) as (c & Hc & Hdc).
  destruct (calendar_dates_nonempty today year ltac:(lia) ltac:(lia)) as [Hne Hds].
  fold ds in Hdc, Hne, Hds.
  pose proof (isdigit_int_str year ltac:(lia)) as Hdig.
  unfold run, fetch_trading_dates. rewrite Hc. cbn [Nat.leb]. rewrite Hdc.
  destruct ds as [|d0 ds0] eqn:Eds; [done|]. rewrite <- Eds in *.
  eexists. split; [reflexivity|].
  set (w1 := (verify_tracking_endpoint year w).1).
  assert (∃ ws1, tracking_file (files w1) (int_str year) = Some ws1 ∧ ledger_ok ws1)
    as (ws1 & Hf1 & Hok1).
  { subst w1. unfold verify_tracking_endpoint. cbn [fst files].
    rewrite tracking_file_create_track_date by done. eexists. split; [done|].
    destruct (tracking_file (files w) (int_str year)) as [ws|] eqn:Hf; cbn [default].
    - by apply Hok.
    - apply ledger_ok_headers_row. }
  destruct (run_dates_spec download (int_str year) ds w1 ws1 Hdig Hf1 Hok1 Hds)
    as [Hled Hread].
  split; [done|]. intros d k Hk. rewrite Hread by done.
  apply reconciled_ext. intros d' k'. subst w1.
  unfold verify_tracking_endpoint. cbn [fst files].
  apply read_slot_create_track_date.
Qed.

(** Property X17 for 2026 on an empty [Nse_files], asked on 2026-11-03. *)
Lemma run_fills_the_calendar_witness :
  let today := ymd2ord 2026 11 3 in
  let w := World ∅ [] [] in
  let ds := strftime <$> date_range (ymd2ord (2026 - 1) 10 1) (last_day today 2026) in
  ∃ w', run (always "cm.csv") 460 today 2026 w = Returned w'
    ∧ (∃ ws', tracking_file (files w') (int_str 2026) = Some ws' ∧ ledger_ok ws')
    ∧ ∀ d k, k ≠ "date" →
        read_slot (files w') (int_str 2026) d k
        = reconciled (always "cm.csv") (files w) (int_str 2026) ds d k.
Proof.
  apply (run_fills_the_calendar (always "cm.csv") 460 (ymd2ord 2026 11 3) 2026
           (World ∅ [] [])).
  - split; apply Z.leb_le; reflexivity.
  - lia.
  - lia.
  - intros ws Hf. discriminate Hf.
Defined.

End WorkflowFacts.

(** * The first loop of the script *)

Module ScriptFacts.
Import Py Openpyxl Main Datetime Calendar Requests DataDownloader DownloadMain.
Import Ledger Passes Days Spans Listing FileList Urls Workflow Script Rows Outcome.
Import LedgerFacts DriverFacts CalendarFacts ListingFacts PassFacts WorkflowFacts.

(** A POST of one slot with a string changes the value read for that slot
    of that date, and no other slot. *)
Lemma slot_status_post_string ws date k c s d' k' :
  ledger_ok ws → date ≠ "" → slot_col k = Some c → k ≠ "date" → k' ≠ "date" →
  slot_status (post_sheet ws date [(k, Some s)]) d' k'
  = if decide (d' = date ∧ k' = k) then stored (Some s)
    else slot_status ws d' k'.
Proof.
  intros Hok Hd Hk Hkd Hk'. pose proof Hok as [H Hst].
  assert (no_date_key [(k, Some s)]) as Hnd by (by constructor).
  pose proof (target_row_range ws date H) as Ht.
  rewrite length_base_sheet in Ht.
  unfold slot_status.
  destruct (slot_col k') as [c'|] eqn:Hc'.
  2:{ rewrite decide_False by (intros [_ ->]; congruence).
      by destruct (find_row _ d'), (find_row ws d'). }
  pose proof (slot_col_range _ _ Hc') as Hc'r.
  assert (c' ≠ 1) as Hc1 by (intros ->; by apply slot_col_1 in Hc').
  destruct (decide (d' = date)) as [->|Hne].
  - rewrite find_row_post_same by done.
    rewrite (cell_value_post_single ws date k c) by (done || lia).
    destruct (decide (k' = k)) as [->|Hkne].
    + assert (c' = c) as -> by congruence.
      by rewrite !decide_True by done.
    + rewrite decide_False.
      2:{ intros [_ ->]. apply Hkne. by apply (slot_col_inj _ _ c). }
      rewrite decide_False by tauto.
      rewrite cell_value_base_sheet by lia. rewrite decide_False by lia.
      unfold target_row in *.
      destruct (find_row ws date) as [idx|] eqn:E.
      * apply stored_id. apply stored_ok_cells; [done|lia..].
      * rewrite cell_value_beyond by lia. done.
  - rewrite decide_False by tauto.
    rewrite find_row_post_other by done.
    destruct (find_row ws d') as [r|] eqn:E; [|done].
    apply find_row_Some in E as (Hr & Htxt & _); [|done].
    rewrite (cell_value_post_single ws date k c) by (done || lia).
    rewrite decide_False.
    2:{ intros [-> _]. unfold target_row in *.
        destruct (find_row ws date) as [idx|] eqn:E'; [|lia].
        apply find_row_Some in E' as (_ & Htxt' & _); [|done]. congruence. }
    rewrite cell_value_base_sheet by lia. rewrite decide_False by lia.
    apply stored_id. apply stored_ok_cells; [done|lia..].
Qed.

(** One iteration of a loop on a ledger, for a slot of the header. *)
Lemma loop_body_known download k c year date w ws :
  isdigit year = true → tracking_file (files w) year = Some ws → ledger_ok ws →
  date ≠ "" → slot_col k = Some c →
  loop_body download k year date w
  = Some (if truthy (read_slot (files w) year date k) then w
          else World (<[year := Some (post_sheet ws date
                                        [(k, Some (str (download k date)))])]>
                        (files w))
                     (posted w
                      ++ [(year, date, [(k, Some (str (download k date)))])])
                     (invoked w ++ [(k, date)])).
Proof.
  intros Hy Hf Hok Hd Hc. pose proof Hok as [H _].
  unfold loop_body, get. rewrite (manage_get _ _ _ _ ws Hy Hf H). cbn [snd].
  rewrite (read_slot_status _ _ _ _ ws Hy Hf H). unfold slot_status. rewrite Hc.
  unfold get_response, call, post. cbn [files posted invoked fst snd].
  rewrite (manage_post _ _ _ _ ws Hy Hf H); [|discriminate]. cbn [fst].
  destruct (find_row ws date) as [r|] eqn:Hfind; cbn [status_code body Nat.eqb].
  - rewrite row_dict_lookup by (by apply headers_ok_max_column).
    rewrite Hc. cbn [fmap option_fmap option_map].
    by destruct (truthy (cell_value ws r c)).
  - done.
Qed.

Lemma read_slot_truthy_row fs year date k :
  truthy (read_slot fs year date k) = true → is_Some (get_row fs year date).
Proof.
  unfold read_slot. destruct (get_row fs year date); [by eexists|].
  cbn [default]. unfold dict_get. by rewrite lookup_empty.
Qed.

Lemma loop_body_read download k c year date w ws :
  isdigit year = true → tracking_file (files w) year = Some ws → ledger_ok ws →
  date ≠ "" → slot_col k = Some c → k ≠ "date" →
  ∃ w' ws', loop_body download k year date w = Some w'
    ∧ tracking_file (files w') year = Some ws' ∧ ledger_ok ws'
    ∧ (truthy (read_slot (files w) year date k) = true → w' = w)
    ∧ (∀ d k', k' ≠ "date" →
        read_slot (files w') year d k'
        = if decide ((d = date ∧ k' = k)
                     ∧ truthy (read_slot (files w) year date k) = false)
          then stored (Some (str (download k date)))
          else read_slot (files w) year d k')
    ∧ (∀ d, is_Some (get_row (files w) year d) ∨ d = date →
         is_Some (get_row (files w') year d)).
Proof.
  intros Hy Hf Hok Hd Hc Hk. pose proof Hok as [H _].
  rewrite (loop_body_known _ _ c _ _ _ ws) by done.
  destruct (truthy (read_slot (files w) year date k)) eqn:Hr.
  - exists w, ws. split; [done|]. split; [done|]. split; [done|].
    split; [done|]. split.
    + intros d k' _. rewrite decide_False; [done|]. by intros [_ ?].
    + intros d [Hrow| ->]; [done|]. by apply read_slot_truthy_row in Hr.
  - set (body := [(k, Some (str (download k date)))]).
    assert (no_date_key body) as Hnd by by constructor.
    pose proof (ledger_ok_post_sheet ws date body H) as Hok'.
    eexists _, _. split; [done|]. cbn [files].
    split; [apply tracking_file_insert|]. split; [done|]. split; [done|]. split.
    + intros d k' Hk'.
      rewrite (read_slot_status _ _ _ _ (post_sheet ws date body));
        [|done|apply tracking_file_insert|by destruct Hok'].
      unfold body. rewrite (slot_status_post_string ws date k c) by done.
      rewrite (read_slot_status _ _ _ _ ws) by done.
      apply decide_ext. tauto.
    + intros d Hrow.
      rewrite (get_row_find _ _ _ (post_sheet ws date body));
        [|done|apply tracking_file_insert|by destruct Hok'].
      rewrite (get_row_find _ _ _ ws) in Hrow by done.
      destruct (decide (d = date)) as [->|Hne].
      * rewrite find_row_post_same by done. by eexists.
      * rewrite find_row_post_other by done.
        destruct Hrow as [Hrow|]; [|done].
        destruct (find_row ws d); [by eexists|by destruct Hrow].
Qed.

(** Property X18.  In the first loop of the script a slot polled once is
    not downloaded again: after one iteration on a ledger, with a download that
    did not return the empty string, the slot [file_1] of the date reads as
    filled (with the text ['None'] when the download returned [None]), and
    another iteration on the same date, with any downloader, makes no call and
    no POST. *)
Theorem polled_slot_is_not_retried download year date w ws :
  isdigit year = true → tracking_file (files w) year = Some ws → ledger_ok ws →
  date ≠ "" → download "file_1" date ≠ Some "" →
  ∃ w1, loop_body download "file_1" year date w = Some w1
    ∧ truthy (read_slot (files w1) year date "file_1") = true
    ∧ ∀ download', loop_body download' "file_1" year date w1 = Some w1.
Proof.
  intros Hy Hf Hok Hd Hdl.
  destruct (loop_body_read download "file_1" 2 year date w ws Hy Hf Hok Hd)
    as (w1 & ws1 & Hw1 & Hf1 & Hok1 & Hsame & Hread & _); [done..|].
  assert (truthy (read_slot (files w1) year date "file_1") = true) as Ht.
  { rewrite Hread by done.
    destruct (truthy (read_slot (files w) year date "file_1")) eqn:Hr.
    - rewrite decide_False; [done|]. by intros [_ ?].
    - rewrite decide_True by done.
      destruct (download "file_1" date) as [s|]; [|done]. by destruct s. }
  exists w1. split; [done|]. split; [done|]. intros download'.
  rewrite (loop_body_known _ _ 2 _ _ _ ws1) by done. by rewrite Ht.
Qed.

(** Property X18 for a Saturday on a new ledger, with a download that fails. *)
Lemma polled_slot_is_not_retried_witness :
  ∃ w1, loop_body no_data "file_1" "2026" "2025-10-04" fresh_world = Some w1
    ∧ truthy (read_slot (files w1) "2026" "2025-10-04" "file_1") = true
    ∧ ∀ download', loop_body download' "file_1" "2026" "2025-10-04" w1 = Some w1.
Proof.
  apply (polled_slot_is_not_retried no_data "2026" "2025-10-04" fresh_world
           [headers_row]).
  - reflexivity.
  - reflexivity.
  - split; [reflexivity|]. repeat constructor; discriminate.
  - discriminate.
  - discriminate.
Defined.

(** ** The loops of the script *)

(** On the world, the body of the first loop is [loop_body] for [file_1];
    so is the body of a later loop for its slot when the date has a row. *)
Lemma first_loop_body_world download year date st :
  world_of <$> first_loop_body download year date st
  = loop_body download "file_1" year date (world_of st).
Proof.
  unfold first_loop_body, loop_body.
  destruct (status_code (get year date (world_of st)) =? 200).
  - destruct (body (get year date (world_of st))) as [| |d]; try done.
    destruct (d !! Some "file_1") as [v|]; [|done].
    by destruct (truthy v).
  - done.
Qed.

Lemma get_row_status fs year date :
  is_Some (get_row fs year date) →
  status_code (manage_tracking_by_date year date GET [] fs).2 = 200.
Proof.
  unfold get_row.
  destruct (manage_tracking_by_date year date GET [] fs) as [fs' [code s b]].
  intros [d Hd]. cbn [snd status_code].
  repeat (destruct code as [|code]; try done).
Qed.

Lemma late_loop_body_world download k year date st :
  is_Some (get_row (files (world_of st)) year date) →
  world_of <$> late_loop_body download k year date st
  = loop_body download k year date (world_of st).
Proof.
  intros Hrow. apply get_row_status in Hrow.
  unfold late_loop_body, loop_body, get. rewrite Hrow. cbn [Nat.eqb].
  destruct (body _) as [| |d]; try done.
  destruct (d !! Some k) as [v|]; [|done].
  by destruct (truthy v).
Qed.

Lemma loop_cons b date dates st :
  loop b (date :: dates) st
  = match b date st with Some st' => loop b dates st' | None => None end.
Proof. done. Qed.

(** A loop whose body acts on the world as the body for the slot [k]:
    always ([first]), or on the dates that have a row. *)
Lemma loop_known (first : Prop) b download k c year dates st ws :
  isdigit year = true → tracking_file (files (world_of st)) year = Some ws →
  ledger_ok ws → Forall (λ d, d ≠ "") dates →
  slot_col k = Some c → k ≠ "date" →
  (∀ date st0,
     first ∨ is_Some (get_row (files (world_of st0)) year date) →
     world_of <$> b date st0 = loop_body download k year date (world_of st0)) →
  first ∨ (∀ d, d ∈ dates → is_Some (get_row (files (world_of st)) year d)) →
  ∃ st' ws', loop b dates st = Some st'
    ∧ tracking_file (files (world_of st')) year = Some ws' ∧ ledger_ok ws'
    ∧ (∀ d, read_slot (files (world_of st')) year d k
            = polled download (files (world_of st)) year dates k d)
    ∧ (∀ d k', k' ≠ "date" → k' ≠ k →
         read_slot (files (world_of st')) year d k'
         = read_slot (files (world_of st)) year d k')
    ∧ (∀ d, is_Some (get_row (files (world_of st)) year d) ∨ d ∈ dates →
         is_Some (get_row (files (world_of st')) year d)).
Proof.
  intros Hy Hf Hok Hds Hc Hk Hb Hrows. revert st ws Hf Hok Hrows.
  induction Hds as [|date dates Hd Hds IH]; intros st ws Hf Hok Hrows.
  - exists st, ws. split; [done|]. split; [done|]. split; [done|]. split.
    + intros d. unfold polled.
      rewrite decide_False; [done|]. intros [Hin _]. by apply elem_of_nil in Hin.
    + split; [done|]. intros d [?|Hin]; [done|]. by apply elem_of_nil in Hin.
  - rewrite loop_cons.
    destruct (loop_body_read download k c year date (world_of st) ws
                Hy Hf Hok Hd Hc Hk)
      as (w1 & ws1 & Hw1 & Hf1 & Hok1 & _ & Hread & Hrow1).
    assert (world_of <$> b date st = Some w1) as Hst1.
    { rewrite Hb; [done|]. destruct Hrows as [?|Hrows]; [by left|].
      right. apply Hrows. by left. }
    destruct (b date st) as [st1|]; [|done]. injection Hst1 as Hst1.
    rewrite <- Hst1 in Hf1, Hread, Hrow1.
    destruct (IH st1 ws1 Hf1 Hok1) as (st' & ws' & Hst' & Hf' & Hok' & Hfin & Hoth & Hrow').
    { destruct Hrows as [?|Hrows]; [by left|]. right. intros d Hin.
      apply Hrow1. left. apply Hrows. by right. }
    exists st', ws'. split; [done|]. split; [done|]. split; [done|].
    split; [|split].
    + intros d. rewrite Hfin. unfold polled. rewrite !Hread by done.
      destruct (decide ((d = date ∧ k = k) ∧ _)) as [[[-> _] Hr]|Hn].
      * rewrite (decide_True (P := date ∈ date :: dates ∧ _));
          [|by split; [left|]].
        by destruct (decide (date ∈ dates ∧ _)).
      * destruct (decide (d ∈ dates ∧ _)) as [[Hin Hr]|Hn'].
        -- rewrite decide_True; [done|]. by split; [right|].
        -- rewrite decide_False; [done|]. intros [Hin Hr].
           apply elem_of_cons in Hin as [->|Hin]; [by apply Hn|by apply Hn'].
    + intros d k' Hk' Hkk. rewrite Hoth, Hread by done.
      rewrite decide_False; [done|]. by intros [[_ ?] _].
    + intros d [Hrow|Hin]; apply Hrow'.
      * left. apply Hrow1. by left.
      * apply elem_of_cons in Hin as [->|Hin]; [|by right].
        left. apply Hrow1. by right.
Qed.

Lemma truthy_polled download fs year dates k d :
  d ∈ dates → download k d ≠ Some "" →
  truthy (polled download fs year dates k d) = true.
Proof.
  intros Hin Hdl. unfold polled.
  destruct (truthy (read_slot fs year d k)) eqn:Hr.
  - rewrite decide_False; [done|]. by intros [_ ?].
  - rewrite decide_True by done.
    destruct (download k d) as [s|]; [|done]. by destruct s.
Qed.



(** ** The whole script *)

Lemma polled_ext download fs1 fs2 year dates k d :
  (∀ d, read_slot fs1 year d k = read_slot fs2 year d k) →
  polled download fs1 year dates k d = polled download fs2 year dates k d.
Proof. intros Hr. unfold polled. by rewrite !Hr. Qed.

Lemma late_key_known k : k ∈ late_keys → k ≠ "date" ∧ k ≠ "file_1" ∧ ∃ c, slot_col k = Some c.
Proof.
  unfold late_keys. intros Hk.
  repeat (apply elem_of_cons in Hk as [->|Hk];
          [split; [done|split; [done|by eexists]]|]).
  by apply elem_of_nil in Hk.
Qed.

Lemma late_loops_spec download year dates keys st ws :
  isdigit year = true → tracking_file (files (world_of st)) year = Some ws →
  ledger_ok ws → Forall (λ d, d ≠ "") dates →
  Forall (λ k, k ∈ late_keys) keys → NoDup keys →
  (∀ d, d ∈ dates → is_Some (get_row (files (world_of st)) year d)) →
  ∃ st',
    foldl (λ ost file_key,
             match ost with
             | Some st' => loop (late_loop_body download file_key year) dates st'
             | None => None
             end)
          (Some st) keys = Some st'
    ∧ ∀ d k, k ≠ "date" →
        read_slot (files (world_of st')) year d k
        = if decide (k ∈ keys)
          then polled download (files (world_of st)) year dates k d
          else read_slot (files (world_of st)) year d k.
Proof.
  intros Hy Hf Hok Hds Hks Hnd. revert st ws Hf Hok.
  induction Hks as [|k keys Hk Hks IH]; intros st ws Hf Hok Hrows.
  - exists st. split; [done|]. intros d k _.
    rewrite decide_False; [done|]. by intros Hin%elem_of_nil.
  - apply NoDup_cons in Hnd as [Hnin Hnd].
    destruct (late_key_known k Hk) as (Hkd & _ & c & Hc).
    destruct (loop_known False (late_loop_body download k year) download k c
                year dates st ws Hy Hf Hok Hds Hc Hkd)
      as (st1 & ws1 & Hst1 & Hf1 & Hok1 & Hfin & Hoth & Hrow1).
    { intros date st0 [[]|Hrow]. by apply late_loop_body_world. }
    { by right. }
    destruct (IH Hnd st1 ws1 Hf1 Hok1) as (st' & Hst' & Hread).
    { intros d Hin. apply Hrow1. by right. }
    exists st'. cbn [foldl]. rewrite Hst1. split; [done|].
    intros d k' Hk'. rewrite Hread by done.
    destruct (decide (k' = k)) as [->|Hne].
    + rewrite decide_False by done. rewrite decide_True by by left. apply Hfin.
    + destruct (decide (k' ∈ keys)) as [Hin|Hnin'].
      * rewrite decide_True by by right.
        apply polled_ext. intros d'. by apply Hoth.
      * rewrite decide_False by (intros [?|?]%elem_of_cons; done).
        by apply Hoth.
Qed.

Lemma NoDup_late_keys : NoDup late_keys.
Proof. unfold late_keys. by apply (bool_decide_unpack _). Qed.



(** Property X21.  On a year without calendar (1 or less, or 10001 or
    more) the two drivers differ.  [run] of [src/data_downloader.py] returns at
    once and changes nothing.  The script of [src/download_main.py] asks for
    the ledger before it looks at the dates: it runs no loop, but leaves a
    ledger for the year when the year is not negative, and nothing for a
    negative year. *)
Theorem drivers_without_a_calendar download fuel today year w :
  (year ≤ 1 ∨ 10001 ≤ year)%Z →
  run download fuel today year w = Returned w
  ∧ main download fuel today year w
    = Returned (Some (ask_ledger (int_str year) w))
  ∧ ((0 ≤ year)%Z →
     is_Some (tracking_file (files (world_of (ask_ledger (int_str year) w)))
                (int_str year)))
  ∧ ((year < 0)%Z → files (world_of (ask_ledger (int_str year) w)) = files w).
Proof.
  intros Hy. pose proof (get_download_outside fuel today year Hy) as Hg.
  split; [|split; [|split]].
  - unfold run, fetch_trading_dates. rewrite Hg.
    by destruct (year <? 0)%Z.
  - unfold main, fetch_dates. rewrite Hg.
    assert (((if (year <? 0)%Z then 404 else 400) =? 200) = false) as ->
      by by destruct (year <? 0)%Z.
    done.
  - intros Hpos. unfold ask_ledger. cbn [world_of files].
    rewrite tracking_file_create_track_date by by apply isdigit_int_str.
    by eexists.
  - intros Hneg. unfold ask_ledger. cbn [world_of files].
    by rewrite create_track_date_bad by by apply isdigit_int_str_neg.
Qed.

(** Property X21 for the year 1. *)
Lemma drivers_without_a_calendar_witness :
  let w := World ∅ [] [] in
  run no_data 460 (ymd2ord 2026 11 3) 1 w = Returned w
  ∧ main no_data 460 (ymd2ord 2026 11 3) 1 w
    = Returned (Some (ask_ledger (int_str 1) w))
  ∧ ((0 ≤ 1)%Z →
     is_Some (tracking_file (files (world_of (ask_ledger (int_str 1) w)))
                (int_str 1)))
  ∧ ((1 < 0)%Z → files (world_of (ask_ledger (int_str 1) w)) = files w).
Proof.
  apply (drivers_without_a_calendar no_data 460 (ymd2ord 2026 11 3) 1 (World ∅ [] [])).
  left. lia.
Defined.

End ScriptFacts.

(** * The batches of symbols *)

Module BatchFacts.
Import FileList.

Lemma foldl_app_concat {A B : Type} (f : B → list A) (l : list B) (acc : list A) :
  foldl (λ acc i, acc ++ f i) acc l = acc ++ concat (f <$> l).
Proof.
  revert acc. induction l as [|i l IH]; intros acc; cbn [foldl fmap list_fmap concat].
  - by rewrite app_nil_r.
  - by rewrite IH, app_assoc.
Qed.

(** [k] consecutive slices of [step] elements cover a list of at most
    [k * step] elements. *)
Lemma chunks_concat {A : Type} (step k : nat) (l : list A) :
  length l ≤ k * step →
  concat ((λ j, take step (drop (j * step) l)) <$> seq 0 k) = l.
Proof.
  revert l. induction k as [|k IH]; intros l Hl.
  - destruct l; [done|]. cbn in Hl. lia.
  - cbn [seq fmap list_fmap concat]. rewrite <- fmap_S_seq, <- list_fmap_compose.
    rewrite (list_fmap_ext _ (λ j, take step (drop (j * step) (drop step l)))).
    + rewrite IH by (rewrite length_drop; lia).
      cbn [Nat.mul drop]. apply take_drop.
    + intros i j _. cbn [compose]. by rewrite drop_drop.
Qed.

Lemma range_step_count (len step : nat) :
  0 < step →
  let k := match len with O => 0 | S _ => (len - 1) / step + 1 end in
  len ≤ k * step
  ∧ (∀ j, j < k → j * step < len)
  ∧ Z.of_nat k = total_batches len (Z.of_nat step).
Proof.
  intros Hs k. unfold total_batches. destruct len as [|n].
  - subst k. split; [lia|]. split; [lia|].
    symmetry. apply Z.div_small. lia.
  - subst k. replace (S n - 1) with n by lia.
    pose proof (Nat.div_mod_eq n step) as Hdm.
    pose proof (Nat.mod_upper_bound n step ltac:(lia)) as Hm.
    split; [nia|]. split; [intros j Hj; nia|].
    rewrite Nat2Z.inj_add, Nat2Z.inj_div.
    replace (Z.of_nat (S n) + Z.of_nat step - 1)%Z
      with (Z.of_nat n + 1 * Z.of_nat step)%Z by lia.
    rewrite Z.div_add by lia. done.
Qed.

(** Property X22.  For a positive batch size [process_symbols_batched]
    hands every symbol to [process_symbols_parallel] exactly once and in order:
    the batches are consecutive slices whose concatenation is the list of
    symbols, each holds between 1 and [batch_size] symbols, their number is the
    [total_batches] of the log lines, and the result is the concatenation of
    the results of the batches. *)
Theorem batches_partition_the_symbols {A R : Type}
    (process_symbols_parallel : list A → list R) (symbols : list A)
    (batch_size : Z) :
  (0 < batch_size)%Z →
  ∃ batches : list (list A),
    process_symbols_batched process_symbols_parallel symbols batch_size
    = Some (concat (process_symbols_parallel <$> batches))
    ∧ concat batches = symbols
    ∧ Z.of_nat (length batches) = total_batches (length symbols) batch_size
    ∧ Forall (λ batch, 1 ≤ length batch ≤ Z.to_nat batch_size) batches.
Proof.
  intros Hb. set (step := Z.to_nat batch_size).
  assert (0 < step) as Hs by (unfold step; lia).
  destruct (range_step_count (length symbols) step Hs) as (Hcover & Hlt & Hcount).
  set (k := match length symbols with
            | O => 0
            | S _ => (length symbols - 1) / step + 1
            end) in *.
  exists ((λ j, take step (drop (j * step) symbols)) <$> seq 0 k).
  split; [|split; [|split]].
  - unfold process_symbols_batched.
    rewrite (proj2 (Z.eqb_neq batch_size 0)) by lia.
    rewrite (proj2 (Z.ltb_ge batch_size 0)) by lia.
    fold step. rewrite foldl_app_concat. cbn [app]. do 2 f_equal.
    unfold range_step. fold k. rewrite <- !list_fmap_compose.
    apply list_fmap_ext. intros i j _. cbn [compose]. unfold slice.
    by replace (j * step + step - j * step) with step by lia.
  - by apply chunks_concat.
  - rewrite length_fmap, length_seq, Hcount. unfold step.
    by rewrite Z2Nat.id by lia.
  - apply Forall_fmap, Forall_forall. intros j Hj.
    apply elem_of_seq in Hj as [_ Hj]. cbn [compose].
    rewrite length_take, length_drop. specialize (Hlt j ltac:(lia)). lia.
Qed.

(** Property X22 for three symbols in batches of two. *)
Lemma batches_partition_the_symbols_witness :
  ∃ batches : list (list string),
    process_symbols_batched (λ batch, batch) ["ACC"; "INFY"; "TCS"] 2
    = Some (concat ((λ batch, batch) <$> batches))
    ∧ concat batches = ["ACC"; "INFY"; "TCS"]
    ∧ Z.of_nat (length batches) = total_batches (length ["ACC"; "INFY"; "TCS"]) 2
    ∧ Forall (λ batch, 1 ≤ length batch ≤ Z.to_nat 2) batches.
Proof.
  apply (batches_partition_the_symbols (λ batch, batch) ["ACC"; "INFY"; "TCS"] 2).
  lia.
Defined.

End BatchFacts.
